(** * YouTubeAnalyzer: the data-cleaning pipeline and its sequencing guards

    A shallow embedding of [src/youtube_analysis.py].

    - Python values are the scalars a pandas cell can hold: [None], [int],
      [float] (IEEE binary64, through the inductive [spec_float]) and [str].
      A [bool] behaves as the integers 0 and 1 in every operation modelled
      here and is not given a constructor of its own.
    - Strings are ASCII strings.  Code points above 127 (for which Python's
      [str.lower], [\d] and [int] have extra cases) are outside the model.
    - Python's [int] is unbounded ([Z]); pandas' [int64] columns wrap.
      [int(str)] has CPython's limit on the number of digits of a literal,
      at its default of 4300 (since 3.11).
    - Exceptions are values; a computation that can raise returns
      [exn + A]; the analyzer methods thread the analyzer object through a
      small state-and-exception monad.
    - What is written to the console and the figures are not part of the
      modelled state, but every [print] is a call that can fail (a stream
      that cannot encode the text, a closed stream), as the calls into
      pandas and matplotlib can. *)

From Stdlib Require Import ZArith List String Ascii Bool Lia SpecFloat.
Import ListNotations.

Local Open Scope string_scope.
Local Open Scope Z_scope.

(* ===================================================================== *)
(** * Exceptions and the error monad *)
(* ===================================================================== *)

Inductive exn_class :=
| ValueError | OverflowError | TypeError | IndexError | KeyError
| IntCastingNaNError.

(** [Exn] is an exception raised by a statement or a builtin of the modelled
    code; [CollaboratorError] is one that propagates out of a call into the
    file system, pandas' group-by machinery or matplotlib, which the model
    takes as parameters. *)
Inductive exn :=
| Exn (cls : exn_class) (msg : string)
| CollaboratorError (what : string).

Definition result (A : Type) : Type := (exn + A)%type.

Definition ok {A} (a : A) : result A := inr a.
Definition throw {A} (e : exn) : result A := inl e.

Definition rbind {A B} (r : result A) (k : A -> result B) : result B :=
  match r with
  | inl e => inl e
  | inr a => k a
  end.

Declare Scope result_scope.
Delimit Scope result_scope with result.
Notation "x <- r ;; k" := (rbind r (fun x => k))
  (at level 61, r at next level, right associativity) : result_scope.

(** [mapM f l]: a Python loop or comprehension calling [f] on each element
    in order; the first exception escapes. *)
Fixpoint mapM {A B} (f : A -> result B) (l : list A) : result (list B) :=
  match l with
  | [] => ok []
  | a :: l' =>
      match f a with
      | inl e => inl e
      | inr b =>
          match mapM f l' with
          | inl e => inl e
          | inr bs => inr (b :: bs)
          end
      end
  end.

(* ===================================================================== *)
(** * IEEE binary64, as Python's [float] and numpy's [float64] *)
(* ===================================================================== *)

Module F64.

Definition prec : Z := 53.
Definition emax : Z := 1024.

Definition float := spec_float.

Definition nan : float := S754_nan.
Definition inf : float := S754_infinity false.
Definition zero : float := S754_zero false.

Definition is_nan (f : float) : bool :=
  match f with S754_nan => true | _ => false end.

Definition is_finite (f : float) : bool :=
  match f with S754_zero _ | S754_finite _ _ _ => true | _ => false end.

(** Conversion of an integer, rounding to nearest even. *)
Definition of_Z (z : Z) : float := binary_normalize prec emax z 0 false.

Definition mul : float -> float -> float := SFmul prec emax.
Definition div : float -> float -> float := SFdiv prec emax.
Definition ltb : float -> float -> bool := SFltb.

(** [m * 10^e10] (with [0 <= m]) rounded to the nearest binary64, ties to
    even, with sign [s]: the value of a decimal literal. *)
Definition of_decimal (s : bool) (m : Z) (e10 : Z) : float :=
  match m with
  | Zpos _ =>
      match e10 with
      | Zneg p =>
          let '(q, e, l) := SFdiv_core_binary prec emax m 0 (10 ^ Zpos p) 0 in
          binary_round_aux prec emax s q e l
      | _ => binary_round prec emax s (Z.to_pos (m * 10 ^ e10)) 0
      end
  | _ => S754_zero s
  end.

(** Truncation toward zero of a finite float, as a C cast or Python's
    [int] computes it. *)
Definition trunc (f : float) : option Z :=
  match f with
  | S754_zero _ => Some 0
  | S754_finite s m e =>
      Some (cond_Zopp s
              (match e with
               | Zneg p => Zpos m / 2 ^ Zpos p
               | _ => Zpos m * 2 ^ e
               end))
  | _ => None
  end.

(** C's [rint] in the default rounding mode: the nearest integral value,
    ties to even, keeping the sign (also of a zero result). *)
Definition rint (f : float) : float :=
  match f with
  | S754_finite s m (Zneg p) =>
      let d := 2 ^ Zpos p in
      let q := Zpos m / d in
      let r := Zpos m mod d in
      let n := match Z.compare (2 * r) d with
               | Lt => q
               | Gt => q + 1
               | Eq => if Z.even q then q else q + 1
               end in
      binary_normalize prec emax (cond_Zopp s n) 0 s
  | _ => f
  end.

(** [numpy.round(x, 2)] on a float64 array: multiply by [10**2], [rint],
    divide by [10**2]. *)
Definition hundred : float := of_Z 100.
Definition round2 (f : float) : float := div (rint (mul f hundred)) hundred.

End F64.

(* ===================================================================== *)
(** * Python scalars, strings and the builtins [int] and [float] *)
(* ===================================================================== *)

Module Py.

Inductive pyval :=
| PNone
| PInt (z : Z)
| PFloat (f : F64.float)
| PStr (s : string).

(** [pd.isna] on a scalar. *)
Definition isna (v : pyval) : bool :=
  match v with
  | PNone => true
  | PFloat f => F64.is_nan f
  | _ => false
  end.

Definition code (c : ascii) : N := N_of_ascii c.

Definition is_digit (c : ascii) : bool :=
  (48 <=? code c)%N && (code c <=? 57)%N.

Definition digit_val (c : ascii) : Z := Z.of_N (code c) - 48.

(** [str.isspace] on ASCII: TAB, LF, VT, FF, CR, FS, GS, RS, US, SPACE. *)
Definition is_space (c : ascii) : bool :=
  ((9 <=? code c)%N && (code c <=? 13)%N)
  || ((28 <=? code c)%N && (code c <=? 32)%N).

(** The whitespace [int] and [float] skip around a literal
    (C's [isspace]): TAB, LF, VT, FF, CR, SPACE. *)
Definition is_cspace (c : ascii) : bool :=
  ((9 <=? code c)%N && (code c <=? 13)%N) || (code c =? 32)%N.

Definition lower_char (c : ascii) : ascii :=
  if (65 <=? code c)%N && (code c <=? 90)%N
  then ascii_of_N (code c + 32)
  else c.

(** [str.lower] *)
Fixpoint lower (s : string) : string :=
  match s with
  | EmptyString => EmptyString
  | String c r => String (lower_char c) (lower r)
  end.

Fixpoint lstrip_by (sp : ascii -> bool) (s : string) : string :=
  match s with
  | EmptyString => EmptyString
  | String c r => if sp c then lstrip_by sp r else s
  end.

Fixpoint rstrip_by (sp : ascii -> bool) (s : string) : string :=
  match s with
  | EmptyString => EmptyString
  | String c r =>
      match rstrip_by sp r with
      | EmptyString => if sp c then EmptyString else String c EmptyString
      | r' => String c r'
      end
  end.

Definition strip_by (sp : ascii -> bool) (s : string) : string :=
  rstrip_by sp (lstrip_by sp s).

(** [str.strip()] *)
Definition strip : string -> string := strip_by is_space.

(** [c in s] for a one-character [c]. *)
Fixpoint contains (c : ascii) (s : string) : bool :=
  match s with
  | EmptyString => false
  | String a r => Ascii.eqb a c || contains c r
  end.

(** [s.split(sep)] for a one-character separator: never the empty list. *)
Fixpoint split (sep : ascii) (s : string) : list string :=
  match s with
  | EmptyString => [EmptyString]
  | String c r =>
      if Ascii.eqb c sep then EmptyString :: split sep r
      else match split sep r with
           | [] => [String c EmptyString]
           | p :: ps => String c p :: ps
           end
  end.

(** A run of decimal digits in which single underscores may separate
    digits: the digit part of Python's numeric literals.  Returns the
    value and the number of digits from [s] on, starting from the
    accumulator [acc] and the count [n]; [prev] tells whether the previous
    character was a digit. *)
Fixpoint digitpart_from (s : string) (acc : Z) (n : Z) (prev : bool)
  : option (Z * Z) :=
  match s with
  | EmptyString => if prev then Some (acc, n) else None
  | String c r =>
      if is_digit c then digitpart_from r (10 * acc + digit_val c) (n + 1) true
      else if Ascii.eqb c "_"%char then
             if prev then digitpart_from r acc n false else None
           else None
  end.

Definition digitpart (s : string) : option (Z * Z) := digitpart_from s 0 0 false.

(** An optional sign: [(negative, rest)]. *)
Definition take_sign (s : string) : bool * string :=
  match s with
  | String "-"%char r => (true, r)
  | String "+"%char r => (false, r)
  | _ => (false, s)
  end.

(** The value of [s] as a base-10 integer literal, if [s] is one. *)
Definition int_literal (s : string) : option Z :=
  let '(neg, body) := take_sign (strip_by is_cspace s) in
  match digitpart body with
  | Some (v, _) => Some (if neg then - v else v)
  | None => None
  end.

(** The longest prefix of digits and underscores, and what follows it. *)
Fixpoint take_run (s : string) : string * string :=
  match s with
  | EmptyString => (EmptyString, EmptyString)
  | String c r =>
      if is_digit c || Ascii.eqb c "_"%char
      then let '(run, rest) := take_run r in (String c run, rest)
      else (EmptyString, s)
  end.

(** [sys.get_int_max_str_digits()], as CPython sets it by default since
    3.11: the most digits [int] converts from a string. *)
Definition max_str_digits : Z := 4300.

(** [int(s)] for a string [s], in CPython's order: the run of digits and
    underscores after the sign is scanned and its underscores checked;
    then its number of digits is held against the limit; then what follows
    the run must be nothing.  The messages are given up to the part that
    quotes the value. *)
Definition int_of_str (s : string) : result Z :=
  let '(neg, body) := take_sign (strip_by is_cspace s) in
  let '(run, rest) := take_run body in
  match digitpart run with
  | None => throw (Exn ValueError "invalid literal for int() with base 10")
  | Some (v, n) =>
      if max_str_digits <? n
      then throw (Exn ValueError
                    "Exceeds the limit (4300 digits) for integer string conversion")
      else match rest with
           | EmptyString => ok (if neg then - v else v)
           | _ => throw (Exn ValueError "invalid literal for int() with base 10")
           end
  end.

(** Cut [s] at the first character satisfying [p]:
    [(before, Some after)], or [(s, None)] when there is none. *)
Fixpoint cut_at (p : ascii -> bool) (s : string) : string * option string :=
  match s with
  | EmptyString => (EmptyString, None)
  | String c r =>
      if p c then (EmptyString, Some r)
      else let '(a, b) := cut_at p r in (String c a, b)
  end.

Definition is_e (c : ascii) : bool :=
  Ascii.eqb c "e"%char || Ascii.eqb c "E"%char.
Definition is_dot (c : ascii) : bool := Ascii.eqb c "."%char.

(** The digit part of a mantissa half, which may be empty. *)
Definition opt_digitpart (s : string) : option (Z * Z) :=
  match s with
  | EmptyString => Some (0, 0)
  | _ => digitpart s
  end.

(** A decimal literal without sign, as [(mantissa, decimal exponent)]:
    [digits [. [digits]] [e [sign] digits]] or [. digits [e ...]]. *)
Definition decimal_literal (s : string) : option (Z * Z) :=
  let '(mant, expo) := cut_at is_e s in
  let e10 :=
    match expo with
    | None => Some 0
    | Some es =>
        let '(neg, body) := take_sign es in
        match digitpart body with
        | Some (v, _) => Some (if neg then - v else v)
        | None => None
        end
    end in
  let '(ip, fp) := cut_at is_dot mant in
  let digits :=
    match fp with
    | None => match digitpart ip with
              | Some (v, _) => Some (v, 0)
              | None => None
              end
    | Some fs =>
        match opt_digitpart ip, opt_digitpart fs with
        | Some (vi, ni), Some (vf, nf) =>
            if Z.eqb (ni + nf) 0 then None
            else Some (vi * 10 ^ nf + vf, nf)
        | _, _ => None
        end
    end in
  match digits, e10 with
  | Some (m, nf), Some e => Some (m, e - nf)
  | _, _ => None
  end.

(** [float(s)] for a string [s]; [None] stands for its [ValueError]. *)
Definition float_literal (s : string) : option F64.float :=
  let '(neg, body) := take_sign (strip_by is_cspace s) in
  let lb := lower body in
  if String.eqb lb "inf" || String.eqb lb "infinity"
  then Some (S754_infinity neg)
  else if String.eqb lb "nan" then Some F64.nan
  else match decimal_literal body with
       | Some (m, e10) => Some (F64.of_decimal neg m e10)
       | None => None
       end.

Definition float_of_str (s : string) : result F64.float :=
  match float_literal s with
  | Some f => ok f
  | None => throw (Exn ValueError "could not convert string to float")
  end.

(** [int(f)] for a float [f]. *)
Definition int_of_float (f : F64.float) : result Z :=
  match F64.trunc f with
  | Some z => ok z
  | None =>
      if F64.is_nan f
      then throw (Exn ValueError "cannot convert float NaN to integer")
      else throw (Exn OverflowError "cannot convert float infinity to integer")
  end.

End Py.
Import Py.

(* ===================================================================== *)
(** * The duration parser: [YouTubeAnalyzer._parse_duration] *)
(* ===================================================================== *)

Module Duration.

Local Open Scope result_scope.

(** The longest prefix of decimal digits, and what follows it. *)
Fixpoint take_digits (s : string) : string * string :=
  match s with
  | EmptyString => (EmptyString, EmptyString)
  | String c r =>
      if is_digit c
      then let '(ds, rest) := take_digits r in (String c ds, rest)
      else (EmptyString, s)
  end.

(** One optional group [(?:(\d+)X)?] tried at [s]: the captured digits
    and the rest of the subject.  [\d+] is greedy and the character after
    a maximal digit run is not a digit, so the group matches exactly when
    that character is [X]; when it does not, the group is skipped and
    nothing is consumed.  Everything after [PT] being optional and the
    pattern not anchored at the end, the first alternative the matcher
    tries for each group is the one it keeps. *)
Definition opt_group (unit : ascii) (s : string) : option string * string :=
  match take_digits s with
  | (String d ds, String c r) =>
      if Ascii.eqb c unit then (Some (String d ds), r) else (None, s)
  | _ => (None, s)
  end.

(** [re.match(r'PT(?:(\d+)H)?(?:(\d+)M)?(?:(\d+)S)?', s)]: [None] when
    there is no match, otherwise groups 1, 2 and 3. *)
Definition re_match_PT (s : string)
  : option (option string * option string * option string) :=
  match s with
  | String "P"%char (String "T"%char r) =>
      let '(h, r1) := opt_group "H"%char r in
      let '(m, r2) := opt_group "M"%char r1 in
      let '(sec, _) := opt_group "S"%char r2 in
      Some (h, m, sec)
  | _ => None
  end.

(** [int(match.group(i) or 0)] *)
Definition group_int (g : option string) : result Z :=
  match g with
  | Some ds => int_of_str ds
  | None => ok 0
  end.

Definition _parse_duration (duration : pyval) : result Z :=
  if isna duration then ok 0
  else
    match duration with
    | PInt z => ok z
    | PFloat f => int_of_float f
    | PNone => ok 0
    | PStr s =>
        let duration_str := strip s in
        if contains ":"%char duration_str then
          parts <- mapM int_of_str (split ":"%char duration_str) ;;
          match parts with
          | [h; m; sec] => ok (h * 3600 + m * 60 + sec)
          | [m; sec] => ok (m * 60 + sec)
          | p0 :: _ => ok p0
          | [] => throw (Exn IndexError "list index out of range")
          end
        else
          match re_match_PT duration_str with
          | Some (g1, g2, g3) =>
              hours <- group_int g1 ;;
              minutes <- group_int g2 ;;
              seconds <- group_int g3 ;;
              ok (hours * 3600 + minutes * 60 + seconds)
          | None =>
              match (f <- float_of_str duration_str ;; int_of_float f) with
              | inr z => ok z
              | inl _ => ok 0
              end
          end
    end.

End Duration.
Import Duration.

(* ===================================================================== *)
(** * The part of pandas that [load_data] uses *)
(* ===================================================================== *)

Module Pandas.

Local Open Scope result_scope.

(** A column with its dtype. *)
Inductive Series :=
| Int64 (l : list Z)
| Float64 (l : list F64.float)
| Object (l : list pyval)
| Categorical (l : list (option string)).

Definition series_len (s : Series) : nat :=
  match s with
  | Int64 l => List.length l
  | Float64 l => List.length l
  | Object l => List.length l
  | Categorical l => List.length l
  end.

(** The cells as the Python objects [Series.apply] hands to its function;
    a missing category is NaN. *)
Definition cells (s : Series) : list pyval :=
  match s with
  | Int64 l => map PInt l
  | Float64 l => map PFloat l
  | Object l => l
  | Categorical l =>
      map (fun o => match o with
                    | Some lab => PStr lab
                    | None => PFloat F64.nan
                    end) l
  end.

(** A frame: the length of its index and its labelled columns, in order.
    Labels may repeat (after a rename). *)
Record DataFrame := { nrows : nat; columns : list (string * Series) }.

Definition labels (df : DataFrame) : list string := map fst (columns df).

(** Every column is as long as the index. *)
Definition wf (df : DataFrame) : Prop :=
  Forall (fun c => series_len (snd c) = nrows df) (columns df).

(** [col in df.columns] *)
Definition has_label (df : DataFrame) (c : string) : bool :=
  existsb (String.eqb c) (labels df).

(** ** Dictionaries with string keys, in insertion order *)

Definition dict := list (string * string).

Fixpoint dict_get (d : dict) (k : string) : option string :=
  match d with
  | [] => None
  | (k', v) :: d' => if String.eqb k k' then Some v else dict_get d' k
  end.

Fixpoint dict_set (d : dict) (k v : string) : dict :=
  match d with
  | [] => [(k, v)]
  | (k', v') :: d' =>
      if String.eqb k k' then (k', v) :: d' else (k', v') :: dict_set d' k v
  end.

(** [df.rename(columns=mapping)]: a label that is a key is replaced, any
    other label is kept. *)
Definition rename (mapping : dict) (df : DataFrame) : DataFrame :=
  {| nrows := nrows df;
     columns :=
       map (fun c => (match dict_get mapping (fst c) with
                      | Some c' => c'
                      | None => fst c
                      end, snd c)) (columns df) |}.

(** [df[c] = s] for a whole column [s]: every column labelled [c] is
    replaced in place; a new label is appended. *)
Definition setitem (df : DataFrame) (c : string) (s : Series) : DataFrame :=
  {| nrows := nrows df;
     columns :=
       if has_label df c
       then map (fun x => if String.eqb c (fst x) then (fst x, s) else x)
                (columns df)
       else columns df ++ [(c, s)] |}.

(** [df[c] = v] for a scalar [v], broadcast along the index. *)
Definition broadcast (df : DataFrame) (v : pyval) : Series :=
  match v with
  | PInt z => Int64 (repeat z (nrows df))
  | PFloat f => Float64 (repeat f (nrows df))
  | _ => Object (repeat v (nrows df))
  end.

(** [df[c]] where the code goes on to use it as a Series.  A missing label
    is a [KeyError].  For a repeated label pandas hands back a DataFrame,
    which the calls of lines 67-70 do not accept; the model stops there
    with [to_numeric]'s [TypeError]. *)
Definition getitem (df : DataFrame) (c : string) : result Series :=
  match filter (fun x => String.eqb c (fst x)) (columns df) with
  | [] => throw (Exn KeyError c)
  | [x] => ok (snd x)
  | _ => throw (Exn TypeError "arg must be a list, tuple, 1-d array, or Series")
  end.

(** ** Boolean indexing *)

Fixpoint filter_mask {A} (mask : list bool) (l : list A) : list A :=
  match mask, l with
  | b :: mask', a :: l' =>
      if b then a :: filter_mask mask' l' else filter_mask mask' l'
  | _, _ => []
  end.

Definition series_filter (mask : list bool) (s : Series) : Series :=
  match s with
  | Int64 l => Int64 (filter_mask mask l)
  | Float64 l => Float64 (filter_mask mask l)
  | Object l => Object (filter_mask mask l)
  | Categorical l => Categorical (filter_mask mask l)
  end.

Definition count_true (mask : list bool) : nat := List.length (filter id mask).

(** [df[mask]] *)
Definition filter_rows (mask : list bool) (df : DataFrame) : DataFrame :=
  {| nrows := count_true mask;
     columns := map (fun c => (fst c, series_filter mask (snd c))) (columns df) |}.

(** ** int64 arithmetic *)

Definition int64_min : Z := - 2 ^ 63.
Definition int64_max : Z := 2 ^ 63 - 1.
Definition in_int64 (z : Z) : bool := (int64_min <=? z) && (z <=? int64_max).
Definition wrap64 (z : Z) : Z := (z + 2 ^ 63) mod 2 ^ 64 - 2 ^ 63.

(** The C conversion of a double to int64: truncation toward zero.  Out
    of range C leaves it undefined; x86-64 yields INT64_MIN. *)
Definition cast_int64 (f : F64.float) : Z :=
  match F64.trunc f with
  | Some z => if in_int64 z then z else int64_min
  | None => int64_min
  end.

(** ** Numeric coercion: [pd.to_numeric(s, errors='coerce').fillna(0).astype(int)] *)

Inductive number := NInt (z : Z) | NFloat (f : F64.float).

Definition number_is_int (n : number) : bool :=
  match n with NInt _ => true | NFloat _ => false end.

Definition number_to_float (n : number) : F64.float :=
  match n with NInt z => F64.of_Z z | NFloat f => f end.

(** A column of numeric dtype, which is what [to_numeric] returns. *)
Inductive numeric := NumInt64 (l : list Z) | NumFloat64 (l : list F64.float).

Section Coercion.

(** pandas' own reader of numeric text: the number a string cell stands
    for, or [None] when it is not numeric text.  Its grammar is pandas'
    and is taken as a parameter.  (Integers beyond int64, for which pandas
    switches to uint64 or float64, are not modelled: see [int64_input].) *)
Variable parse_numeric : string -> option number.

(** What one cell is read as; [None] is a failed parse, which
    [errors='coerce'] turns into NaN. *)
Definition cell_number (v : pyval) : option number :=
  match v with
  | PNone => None
  | PInt z => Some (NInt z)
  | PFloat f => if F64.is_nan f then None else Some (NFloat f)
  | PStr s => parse_numeric s
  end.

Definition coerce_cell (v : pyval) : number :=
  match cell_number v with
  | Some n => n
  | None => NFloat F64.nan
  end.

(** [pd.to_numeric(s, errors='coerce')]: numeric dtypes pass through;
    the cells of another dtype are converted one by one, and the result
    is int64 when every cell is an integer and float64 otherwise. *)
Definition to_numeric (s : Series) : numeric :=
  match s with
  | Int64 l => NumInt64 l
  | Float64 l => NumFloat64 l
  | _ =>
      let ns := map coerce_cell (cells s) in
      if forallb number_is_int ns
      then NumInt64 (map (fun n => match n with NInt z => z | NFloat _ => 0 end) ns)
      else NumFloat64 (map number_to_float ns)
  end.

(** [.fillna(0)] *)
Definition fillna0 (a : numeric) : numeric :=
  match a with
  | NumInt64 l => NumInt64 l
  | NumFloat64 l =>
      NumFloat64 (map (fun f => if F64.is_nan f then F64.zero else f) l)
  end.

(** [.astype(int)]: a float64 column must be finite throughout. *)
Definition astype_int (a : numeric) : result Series :=
  match a with
  | NumInt64 l => ok (Int64 l)
  | NumFloat64 l =>
      if forallb F64.is_finite l
      then ok (Int64 (map cast_int64 l))
      else throw (Exn IntCastingNaNError
                    "Cannot convert non-finite values (NA or inf) to integer")
  end.

Definition coerce_int (s : Series) : result Series :=
  astype_int (fillna0 (to_numeric s)).

End Coercion.

(** ** Elementwise arithmetic on columns of one frame *)

Fixpoint map2 {A B C} (f : A -> B -> C) (a : list A) (b : list B) : list C :=
  match a, b with
  | x :: a', y :: b' => f x y :: map2 f a' b'
  | _, _ => []
  end.

Definition as_floats (s : Series) : option (list F64.float) :=
  match s with
  | Int64 l => Some (map F64.of_Z l)
  | Float64 l => Some l
  | _ => None
  end.

Definition non_numeric {A} : result A :=
  throw (Exn TypeError "unsupported operand type(s)").

(** [a + b] *)
Definition series_add (a b : Series) : result Series :=
  match a, b with
  | Int64 x, Int64 y => ok (Int64 (map2 (fun p q => wrap64 (p + q)) x y))
  | _, _ =>
      match as_floats a, as_floats b with
      | Some x, Some y => ok (Float64 (map2 (SFadd F64.prec F64.emax) x y))
      | _, _ => non_numeric
      end
  end.

(** [a / b]: true division, always in float64. *)
Definition series_truediv (a b : Series) : result Series :=
  match as_floats a, as_floats b with
  | Some x, Some y => ok (Float64 (map2 F64.div x y))
  | _, _ => non_numeric
  end.

(** [a / k] for an integer constant [k] *)
Definition series_truediv_const (a : Series) (k : Z) : result Series :=
  match as_floats a with
  | Some x => ok (Float64 (map (fun f => F64.div f (F64.of_Z k)) x))
  | None => non_numeric
  end.

(** [a * k] for an integer constant [k] *)
Definition series_mul_const (a : Series) (k : Z) : result Series :=
  match a with
  | Int64 x => ok (Int64 (map (fun p => wrap64 (p * k)) x))
  | Float64 x => ok (Float64 (map (fun f => F64.mul f (F64.of_Z k)) x))
  | _ => non_numeric
  end.

(** [a > k] for an integer constant [k] *)
Definition series_gt_const (a : Series) (k : Z) : result (list bool) :=
  match a with
  | Int64 x => ok (map (fun p => k <? p)%Z x)
  | Float64 x => ok (map (fun f => F64.ltb (F64.of_Z k) f) x)
  | _ => throw (Exn TypeError "'>' not supported between these operands")
  end.

(** [a.round(2)] *)
Definition series_round2 (a : Series) : result Series :=
  match a with
  | Int64 x => ok (Int64 x)
  | Float64 x => ok (Float64 (map F64.round2 x))
  | _ => non_numeric
  end.

(** ** [pd.cut] with explicit increasing bin edges and labels

    Intervals are open on the left and closed on the right.  The bin of
    [x] is found with [searchsorted(x, side='left')], the number of edges
    strictly below [x]; position 0 (at or below the first edge), position
    [len(bins)] (above the last edge) and NaN get no label. *)

Definition searchsorted_left (bins : list F64.float) (x : F64.float) : nat :=
  List.length (filter (fun b => F64.ltb b x) bins).

Definition cut1 (bins : list F64.float) (labs : list string) (x : F64.float)
  : option string :=
  if F64.is_nan x then None
  else
    match searchsorted_left bins x with
    | O => None
    | S i => if Nat.eqb (S i) (List.length bins) then None else nth_error labs i
    end.

Definition cut (s : Series) (bins : list F64.float) (labs : list string)
  : result Series :=
  match as_floats s with
  | Some x => ok (Categorical (map (cut1 bins labs) x))
  | None => non_numeric
  end.

End Pandas.
Import Pandas.

(* ===================================================================== *)
(** * [YouTubeAnalyzer.load_data], from the frame [read_csv] returns on *)
(* ===================================================================== *)

Module Loader.

Local Open Scope result_scope.

Definition in_list (s : string) (l : list string) : bool :=
  existsb (String.eqb s) l.

(** The [if]/[elif] chain of lines 39-52 on the lowered, stripped name. *)
Definition canonical (col_lower : string) : option string :=
  if in_list col_lower ["title"] then Some "title"
  else if in_list col_lower ["category"; "channel_title"; "channeltitle"]
  then Some "category"
  else if in_list col_lower ["views"; "view_count"; "viewcount"]
  then Some "views"
  else if in_list col_lower ["likes"; "like_count"; "likecount"]
  then Some "likes"
  else if in_list col_lower ["comments"; "comment_count"; "commentcount"]
  then Some "comments"
  else if in_list col_lower ["duration"; "video_length"; "length"]
  then Some "duration"
  else if in_list col_lower ["subscribers"; "subscriber_count"]
  then Some "subscribers"
  else None.

(** [col.lower().strip()] *)
Definition col_key (col : string) : string := strip (lower col).

(** The loop of lines 36-52 building [column_mapping]. *)
Definition column_mapping (cols : list string) : dict :=
  fold_left
    (fun mapping col =>
       match canonical (col_key col) with
       | Some c => dict_set mapping col c
       | None => mapping
       end)
    cols [].

Definition required_cols : list string :=
  ["title"; "category"; "views"; "likes"; "comments"; "duration"].

(** One turn of the loop of lines 59-64. *)
Definition ensure_column (df : DataFrame) (col : string) : DataFrame :=
  if has_label df col then df
  else if String.eqb col "category"
       then setitem df "category" (broadcast df (PStr "Unknown"))
       else setitem df col (broadcast df (PInt 0)).

(** Lines 35-64: the frame after renaming and completing the columns. *)
Definition normalize_schema (df : DataFrame) : DataFrame :=
  let df := rename (column_mapping (labels df)) df in
  fold_left ensure_column required_cols df.

Definition length_bins : list F64.float :=
  [F64.of_Z 0; F64.of_Z 5; F64.of_Z 15; F64.of_Z 30; F64.inf].

Definition length_labels : list string :=
  ["Short (0-5 min)"; "Medium (5-15 min)"; "Long (15-30 min)";
   "Very Long (30+ min)"].

Section WithReader.

Variable parse_numeric : string -> option number.

(** Lines 66-70: the three counters coerced to int64, the durations
    parsed to seconds. *)
Definition clean_types (df : DataFrame) : result DataFrame :=
  views <- getitem df "views" ;;
  views <- coerce_int parse_numeric views ;;
  let df := setitem df "views" views in
  likes <- getitem df "likes" ;;
  likes <- coerce_int parse_numeric likes ;;
  let df := setitem df "likes" likes in
  comments <- getitem df "comments" ;;
  comments <- coerce_int parse_numeric comments ;;
  let df := setitem df "comments" comments in
  duration <- getitem df "duration" ;;
  duration <- mapM _parse_duration (cells duration) ;;
  ok (setitem df "duration" (Int64 duration)).

(** Line 73: [df = df[df['views'] > 0]]. *)
Definition drop_invalid (df : DataFrame) : result DataFrame :=
  views <- getitem df "views" ;;
  mask <- series_gt_const views 0 ;;
  ok (filter_rows mask df).

(** Lines 76-84: the calculated fields. *)
Definition add_calculated (df : DataFrame) : result DataFrame :=
  likes <- getitem df "likes" ;;
  comments <- getitem df "comments" ;;
  views <- getitem df "views" ;;
  interactions <- series_add likes comments ;;
  ratio <- series_truediv interactions views ;;
  percent <- series_mul_const ratio 100 ;;
  engagement_rate <- series_round2 percent ;;
  let df := setitem df "engagement_rate" engagement_rate in
  duration <- getitem df "duration" ;;
  minutes <- series_truediv_const duration 60 ;;
  duration_minutes <- series_round2 minutes ;;
  let df := setitem df "duration_minutes" duration_minutes in
  duration_minutes <- getitem df "duration_minutes" ;;
  length_category <- cut duration_minutes length_bins length_labels ;;
  ok (setitem df "length_category" length_category).

(** Lines 35-84 of [load_data]: everything between [read_csv] and the
    assignment to [self.data]. *)
Definition load_frame (df : DataFrame) : result DataFrame :=
  let df := normalize_schema df in
  df <- clean_types df ;;
  df <- drop_invalid df ;;
  add_calculated df.

End WithReader.

End Loader.
Import Loader.

(* ===================================================================== *)
(** * The analyzer object and its methods *)
(* ===================================================================== *)

Module Analyzer.

(** One row of an aggregated table (lines 154-156 and 182-184): counts and
    sums are int64, means are float64. *)
Record stat_row := {
  video_count : Z;
  total_views : Z;
  avg_views : F64.float;
  total_likes : Z;
  avg_likes : F64.float;
  total_comments : Z;
  avg_comments : F64.float;
  avg_engagement_rate : F64.float
}.

(** An aggregated table: its index labels with their rows, in order.  The
    labels are the keys of a group-by, each of which labels one row. *)
Definition stats := list (pyval * stat_row).

Record YouTubeAnalyzer := {
  data : option DataFrame;
  category_stats : option stats;
  length_stats : option stats;
  csv_file : string
}.

Definition __init__ (csv_file : string) : YouTubeAnalyzer :=
  {| data := None; category_stats := None; length_stats := None;
     csv_file := csv_file |}.

(** ** Methods: the object in, the outcome and the object out *)

Definition M (A : Type) : Type := YouTubeAnalyzer -> result A * YouTubeAnalyzer.

Definition ret {A} (a : A) : M A := fun self => (inr a, self).

Definition bind {A B} (m : M A) (k : A -> M B) : M B :=
  fun self =>
    match m self with
    | (inl e, self') => (inl e, self')
    | (inr a, self') => k a self'
    end.

Definition raise {A} (e : exn) : M A := fun self => (inl e, self).

Definition get_self : M YouTubeAnalyzer := fun self => (inr self, self).

Definition lift {A} (r : result A) : M A := fun self => (r, self).

(** A call into a collaborator: a failure there propagates. *)
Definition call {A} (r : string + A) : M A :=
  fun self =>
    match r with
    | inl what => (inl (CollaboratorError what), self)
    | inr a => (inr a, self)
    end.

Definition set_data (df : DataFrame) : M unit :=
  fun self =>
    (inr tt, {| data := Some df; category_stats := category_stats self;
                length_stats := length_stats self; csv_file := csv_file self |}).

Definition set_category_stats (t : stats) : M unit :=
  fun self =>
    (inr tt, {| data := data self; category_stats := Some t;
                length_stats := length_stats self; csv_file := csv_file self |}).

Definition set_length_stats (t : stats) : M unit :=
  fun self =>
    (inr tt, {| data := data self; category_stats := category_stats self;
                length_stats := Some t; csv_file := csv_file self |}).

Declare Scope method_scope.
Delimit Scope method_scope with method.
Notation "x <- m ;; k" := (bind m (fun x => k))
  (at level 61, m at next level, right associativity) : method_scope.
Notation "m ;; k" := (bind m (fun _ => k))
  (at level 61, right associativity) : method_scope.

Local Open Scope method_scope.

(** ** The messages of the [raise] statements *)

Definition msg_data_not_loaded : string :=
  "Data not loaded. Call load_data() first.".
Definition msg_category_not_done : string :=
  "Category analysis not done. Call analyze_by_category() first.".
Definition msg_length_not_done : string :=
  "Length analysis not done. Call analyze_by_length() first.".
Definition msg_analysis_not_done : string :=
  "Complete analysis not done. Run analyze_by_category() and analyze_by_length() first.".

(** ** Lookups in an aggregated table *)

(** [t.index[0]] *)
Definition index0 (t : stats) : result pyval :=
  match t with
  | [] => throw (Exn IndexError "index 0 is out of bounds for axis 0 with size 0")
  | (label, _) :: _ => ok label
  end.

(** The label of the first largest value that is not NaN. *)
Fixpoint argmax_from (col : stat_row -> F64.float) (t : stats)
         (best : option (pyval * F64.float)) : option (pyval * F64.float) :=
  match t with
  | [] => best
  | (label, row) :: t' =>
      let v := col row in
      let best' :=
        if F64.is_nan v then best
        else match best with
             | None => Some (label, v)
             | Some (_, b) => if F64.ltb b v then Some (label, v) else best
             end in
      argmax_from col t' best'
  end.

(** [t[col].idxmax()] followed by [t.loc[label, col]].  On an empty table
    [idxmax] raises; on a column of NaN only it returns NaN, which [loc]
    does not find among the labels (pandas 1 and 2; pandas 3 raises in
    [idxmax] already). *)
Definition idxmax_loc (col : stat_row -> F64.float) (t : stats)
  : result (pyval * F64.float) :=
  match t with
  | [] => throw (Exn ValueError "attempt to get argmax of an empty sequence")
  | _ =>
      match argmax_from col t None with
      | Some r => ok r
      | None => throw (Exn KeyError "nan")
      end
  end.

(** [t.iloc[0][col]] *)
Definition iloc0 (col : stat_row -> F64.float) (t : stats) : result F64.float :=
  match t with
  | [] => throw (Exn IndexError "single positional indexer is out-of-bounds")
  | (_, row) :: _ => ok (col row)
  end.

(** ** Console output

    One constructor for each [print] statement of [load_data], of the two
    analyses and of [generate_insights], with the values formatted into
    its text. *)
Inductive output :=
| LoadedMessage (videos : nat)                               (* line 87 *)
| CategoryComplete                                           (* line 162 *)
| LengthComplete                                             (* line 187 *)
| InsightsRule                                               (* line 323 *)
| InsightsTitle                                              (* line 324 *)
| InsightsUnderline                                          (* line 325 *)
| TopCategoryHeading                                         (* line 328 *)
| TopCategoryLine (category : pyval) (views : F64.float)     (* line 331 *)
| TopEngagementHeading                                       (* line 334 *)
| TopEngagementLine (category : pyval) (rate : F64.float)    (* line 337 *)
| BestLengthHeading                                          (* line 340 *)
| BestLengthLine (length : pyval) (views : F64.float)        (* line 343 *)
| BestEngagementHeading                                      (* line 346 *)
| BestEngagementLine (length : pyval) (rate : F64.float)     (* line 349 *)
| InsightsEnd.                                               (* line 351 *)

Section Collaborators.

(** pandas' reader of numeric text (see [Pandas.to_numeric]). *)
Variable parse_numeric : string -> option number.

(** [pd.read_csv(path)]: the frame, or a failure. *)
Variable read_csv : string -> string + DataFrame.

(** [df.groupby(key).agg({...}).round(0)] with the flattened column
    names; [key] is ['category'] or ['length_category'] (the latter
    with [observed=True]). *)
Variable groupby_agg : string -> DataFrame -> string + stats.

(** [t.sort_values('avg_views', ascending=False)] *)
Variable sort_by_avg_views : stats -> stats.

(** The reductions and prints of [display_summary]. *)
Variable print_summary : DataFrame -> string + unit.

(** The matplotlib calls of the two plotting methods. *)
Variable draw_category_figure : stats -> string + unit.
Variable draw_length_figure : stats -> string + unit.

(** [print(text)]: the text is written to the console, or the write
    fails. *)
Variable print : output -> string + unit.

Definition load_data : M unit :=
  self <- get_self ;;
  df <- call (read_csv (csv_file self)) ;;
  df <- lift (load_frame parse_numeric df) ;;
  set_data df ;;
  call (print (LoadedMessage (nrows df))).

Definition analyze_by_category : M unit :=
  self <- get_self ;;
  match data self with
  | None => raise (Exn ValueError msg_data_not_loaded)
  | Some df =>
      category_stats <- call (groupby_agg "category" df) ;;
      let category_stats := sort_by_avg_views category_stats in
      set_category_stats category_stats ;;
      call (print CategoryComplete)
  end.

Definition analyze_by_length : M unit :=
  self <- get_self ;;
  match data self with
  | None => raise (Exn ValueError msg_data_not_loaded)
  | Some df =>
      length_stats <- call (groupby_agg "length_category" df) ;;
      set_length_stats length_stats ;;
      call (print LengthComplete)
  end.

Definition display_summary : M unit :=
  self <- get_self ;;
  match data self with
  | None => raise (Exn ValueError msg_data_not_loaded)
  | Some df => call (print_summary df)
  end.

Definition plot_category_performance : M unit :=
  self <- get_self ;;
  match category_stats self with
  | None => raise (Exn ValueError msg_category_not_done)
  | Some t => call (draw_category_figure t)
  end.

Definition plot_length_performance : M unit :=
  self <- get_self ;;
  match length_stats self with
  | None => raise (Exn ValueError msg_length_not_done)
  | Some t => call (draw_length_figure t)
  end.

(** [generate_insights] reads the two tables and prints. *)
Definition generate_insights : M unit :=
  self <- get_self ;;
  match category_stats self, length_stats self with
  | Some cs, Some ls =>
      call (print InsightsRule) ;;
      call (print InsightsTitle) ;;
      call (print InsightsUnderline) ;;
      call (print TopCategoryHeading) ;;
      top_category <- lift (index0 cs) ;;
      top_views <- lift (iloc0 avg_views cs) ;;
      call (print (TopCategoryLine top_category top_views)) ;;
      call (print TopEngagementHeading) ;;
      top_engagement <- lift (idxmax_loc avg_engagement_rate cs) ;;
      call (print (TopEngagementLine (fst top_engagement) (snd top_engagement))) ;;
      call (print BestLengthHeading) ;;
      best_length <- lift (idxmax_loc avg_views ls) ;;
      call (print (BestLengthLine (fst best_length) (snd best_length))) ;;
      call (print BestEngagementHeading) ;;
      best_engagement_length <- lift (idxmax_loc avg_engagement_rate ls) ;;
      call (print (BestEngagementLine (fst best_engagement_length)
                                      (snd best_engagement_length))) ;;
      call (print InsightsEnd)
  | _, _ => raise (Exn ValueError msg_analysis_not_done)
  end.

End Collaborators.

End Analyzer.
Import Analyzer.

(* ===================================================================== *)
(** * Predicates used in the statements *)
(* ===================================================================== *)

(** Every character of [s] satisfies [p]. *)
Definition all_chars (p : ascii -> bool) (s : string) : bool :=
  forallb p (list_ascii_of_string s).

Definition not_int_literal (p : string) : bool :=
  match int_literal p with Some _ => false | None => true end.

(** [p] is an integer literal of more digits than [int] converts. *)
Definition too_long (p : string) : bool :=
  match digitpart (snd (take_sign (strip_by is_cspace p))) with
  | Some (_, n) => max_str_digits <? n
  | None => false
  end.

(** [p] is not an integer literal, or one of more than 4300 digits. *)
Definition int_fails (p : string) : bool := not_int_literal p || too_long p.

Definition group_fails (g : option string) : bool :=
  match g with
  | Some ds => int_fails ds
  | None => false
  end.

(** The inputs on which the parser raises: a float infinity; a text with
    a colon one of whose parts [int] does not convert; a [PT] text with a
    field of more than 4300 digits. *)
Definition raising_input (v : pyval) : bool :=
  match v with
  | PFloat (S754_infinity _) => true
  | PStr s =>
      if contains ":" (strip s)
      then existsb int_fails (split ":" (strip s))
      else match re_match_PT (strip s) with
           | Some (h, m, sec) => group_fails h || group_fails m || group_fails sec
           | None => false
           end
  | _ => false
  end.

Definition nonneg_input (v : pyval) : Prop :=
  match v with
  | PNone => True
  | PInt z => 0 <= z
  | PFloat f => F64.ltb f F64.zero = false
  | PStr s =>
      if contains ":" (strip s)
      then Forall (fun p => forall z, int_literal p = Some z -> 0 <= z)
                  (split ":" (strip s))
      else forall f, float_literal (strip s) = Some f -> F64.ltb f F64.zero = false
  end.


(** The columns of [df] labelled [c] all hold [s], and there is one. *)
Definition column_is (df : DataFrame) (c : string) (s : Series) : Prop :=
  In (c, s) (columns df) /\ forall s', In (c, s') (columns df) -> s' = s.

(** The label a column gets from lines 36-55. *)
Definition renamed_label (col : string) : string :=
  match canonical (col_key col) with
  | Some c => c
  | None => col
  end.

(** What lines 61-64 fill a missing column with, along an index of [n]. *)
Definition default_series (n : nat) (col : string) : Series :=
  if String.eqb col "category"
  then Object (repeat (PStr "Unknown") n)
  else Int64 (repeat 0 n).

(** The labels of the calculated fields. *)
Definition derived_cols : list string :=
  ["engagement_rate"; "duration_minutes"; "length_category"].

(** Line 76 on one record. *)
Definition engagement_of (likes comments views : Z) : F64.float :=
  F64.round2
    (F64.mul (F64.div (F64.of_Z (wrap64 (likes + comments))) (F64.of_Z views))
             (F64.of_Z 100)).




(** Every integer in [df], as a cell or as the value pandas reads from a
    text cell, is an int64. *)
Definition int64_input (parse_numeric : string -> option number) (df : DataFrame)
  : Prop :=
  forall c s v z,
    In (c, s) (columns df) -> In v (cells s) ->
    cell_number parse_numeric v = Some (NInt z) -> in_int64 z = true.

(** A normal binary64 number of sign [s] with [2^(k-1) <= |f| < 2^k]. *)
Definition normal (s : bool) (k : Z) (f : F64.float) : Prop :=
  exists m, f = S754_finite s m (k - 53) /\ Z.log2 (Zpos m) = 52.

(** A zero, or a normal number whose binary order is between [lo] and [hi]. *)
Definition bounded (lo hi : Z) (f : F64.float) : Prop :=
  (exists s, f = S754_zero s)
  \/ (exists s k, lo <= k <= hi /\ normal s k f).


(** What the coercion of lines 67-69 makes of one cell [v], as a relation
    to the resulting integer [z]: a cell that does not read as a number
    gives 0, a float its truncation toward zero, an integer itself (or the
    truncation of its float64 image when the column as a whole became
    float64). *)
Definition coerced_to (parse_numeric : string -> option number)
           (v : pyval) (z : Z) : Prop :=
  match cell_number parse_numeric v with
  | None => z = 0
  | Some (NInt i) => z = i \/ z = cast_int64 (F64.of_Z i)
  | Some (NFloat f) => z = cast_int64 f
  end.

(** What the coercion owes one cell [v]: 0 when the cell does not read as
    a number; an integer of at most 53 bits itself; a float its truncation
    toward zero, when that is an int64. *)
Definition truncated_to (parse_numeric : string -> option number)
           (v : pyval) (z : Z) : Prop :=
  match cell_number parse_numeric v with
  | None => z = 0
  | Some (NInt i) => - 2 ^ 53 < i < 2 ^ 53 -> z = i
  | Some (NFloat f) =>
      forall t, F64.trunc f = Some t -> in_int64 t = true -> z = t
  end.

(** The cell reads as nothing or as a finite number. *)
Definition finite_cell (parse_numeric : string -> option number) (v : pyval)
  : Prop :=
  match cell_number parse_numeric v with
  | Some n => F64.is_finite (number_to_float n) = true
  | None => True
  end.

(* ===================================================================== *)
(** * Concrete inputs for the examples *)
(* ===================================================================== *)

(** An analyzer whose file had no row with positive views: the data is
    loaded and both analyses are done, on nothing. *)
Definition analyzed_nothing : YouTubeAnalyzer :=
  {| data := Some {| nrows := 0;
                     columns := [("title", Int64 []); ("category", Object []);
                                 ("views", Int64 []); ("likes", Int64 []);
                                 ("comments", Int64 []); ("duration", Int64 []);
                                 ("engagement_rate", Float64 []);
                                 ("duration_minutes", Float64 []);
                                 ("length_category", Categorical [])] |};
     category_stats := Some [];
     length_stats := Some [];
     csv_file := "videos.csv" |}.

(** An analyzer whose file had no duration column: every duration is 0,
    no record has a length category, and the length table is empty while
    the category table has its one row. *)
Definition analyzed_without_durations : YouTubeAnalyzer :=
  {| data := Some {| nrows := 1;
                     columns := [("title", Object [PStr "intro"]);
                                 ("category", Object [PStr "Music"]);
                                 ("views", Int64 [200]); ("likes", Int64 [10]);
                                 ("comments", Int64 [2]); ("duration", Int64 [0]);
                                 ("engagement_rate", Float64 [F64.of_Z 6]);
                                 ("duration_minutes", Float64 [F64.of_Z 0]);
                                 ("length_category", Categorical [None])] |};
     category_stats :=
       Some [(PStr "Music",
              {| video_count := 1;
                 total_views := 200; avg_views := F64.of_Z 200;
                 total_likes := 10; avg_likes := F64.of_Z 10;
                 total_comments := 2; avg_comments := F64.of_Z 2;
                 avg_engagement_rate := F64.of_Z 6 |})];
     length_stats := Some [];
     csv_file := "videos.csv" |}.

(** The collaborators of a run in which every call succeeds and finds no
    group; they instantiate the statements above. *)
Definition no_groups : string -> DataFrame -> string + stats :=
  fun _ _ => inr [].
Definition silent_summary : DataFrame -> string + unit := fun _ => inr tt.
Definition blank_figure : stats -> string + unit := fun _ => inr tt.


(** A reader of numeric text for the examples: Python's own integer and
    float literals. *)
Definition python_numeric_text (s : string) : option number :=
  match int_literal s with
  | Some z => Some (NInt z)
  | None =>
      match float_literal s with
      | Some f => Some (NFloat f)
      | None => None
      end
  end.

(** Three videos, the second without views; variant column names, a
    column the synonym table does not know, no title and no category. *)
Definition sample_frame : DataFrame :=
  {| nrows := 3;
     columns :=
       [("Views ", Int64 [100; 0; 50]);
        ("like_count", Int64 [10; 1; 5]);
        ("COMMENTS", Object [PStr "5"; PStr "x"; PFloat F64.nan]);
        ("Length", Object [PStr "00:04:00"; PInt 60; PStr "PT20M"]);
        ("description", Object [PStr "a"; PStr "b"; PStr "c"])] |}.

(** What [load_data] makes of it. *)
Definition sample_loaded : DataFrame :=
  {| nrows := 2;
     columns :=
       [("views", Int64 [100; 50]);
        ("likes", Int64 [10; 5]);
        ("comments", Int64 [5; 0]);
        ("duration", Int64 [240; 1200]);
        ("description", Object [PStr "a"; PStr "c"]);
        ("title", Int64 [0; 0]);
        ("category", Object [PStr "Unknown"; PStr "Unknown"]);
        ("engagement_rate", Float64 [F64.of_Z 15; F64.of_Z 10]);
        ("duration_minutes", Float64 [F64.of_Z 4; F64.of_Z 20]);
        ("length_category",
         Categorical [Some "Short (0-5 min)"; Some "Long (15-30 min)"])] |}.

(** A views column in which one cell is infinite, as [read_csv] reads the
    text [inf]. *)
Definition infinite_views : DataFrame :=
  {| nrows := 2;
     columns := [("views", Float64 [F64.of_Z 1500; F64.inf]);
                 ("likes", Int64 [10; 20])] |}.

(** The three rows of the end-to-end example: views, likes, comments and a
    duration in three encodings. *)
Definition three_rows : DataFrame :=
  {| nrows := 3;
     columns :=
       [("views", Int64 [100; 0; 50]);
        ("likes", Int64 [10; 1; 5]);
        ("comments", Int64 [5; 1; 0]);
        ("duration", Object [PStr "00:04:00"; PInt 60; PStr "PT20M"])] |}.

(* ===================================================================== *)
(** * Proof automation *)
(* ===================================================================== *)

(** From [H : rbind r k = inr b] to [Hx : r = inr x] and [H : k x = inr b]. *)
Ltac bind_inv H :=
  cbv zeta in H;
  match type of H with
  | rbind ?r _ = _ =>
      let a := fresh "x" in
      let Ha := fresh "Hx" in
      destruct r as [?|a] eqn:Ha;
      [cbn [rbind] in H; try unfold ok in H; discriminate H
      |cbn [rbind] in H]
  end.

(** Split the conjunctions of the goal, leaving definitions folded. *)
Ltac split_conj := repeat match goal with |- _ /\ _ => split end.

(** Unfold a method of the analyzer down to its guard. *)
Ltac run_method :=
  unfold analyze_by_category, analyze_by_length, display_summary,
    plot_category_performance, plot_length_performance, generate_insights,
    bind, get_self, raise, call, lift, ret,
    set_category_stats, set_length_stats;
  cbn [fst snd data category_stats length_stats csv_file].

(** From [H : rbind r k = inl e] to the two ways it can come about. *)
Ltac bind_err H :=
  cbv zeta in H;
  match type of H with
  | rbind ?r _ = inl _ =>
      let a := fresh "x" in
      let Ha := fresh "Hx" in
      destruct r as [?|a] eqn:Ha;
      [cbn [rbind] in H; injection H as <-
      |cbn [rbind] in H]
  end.

(** [H] says that a method returned: the print of [o] on the way
    succeeded. *)
Ltac printed print H o :=
  destruct (print o) as [?|[]] eqn:?; cbn beta iota in H; [discriminate H|].

(* ===================================================================== *)
(** * The script of lines 354-365 and chains of method calls *)
(* ===================================================================== *)

(** The four [ValueError]s the guards of the methods raise. *)
Definition precondition_error (e : exn) : bool :=
  match e with
  | Exn ValueError msg =>
      in_list msg [msg_data_not_loaded; msg_category_not_done;
                   msg_length_not_done; msg_analysis_not_done]
  | _ => false
  end.

(** Some row of the table has a value in column [col] that is not NaN. *)
Definition has_number (col : stat_row -> F64.float) (t : stats) : bool :=
  existsb (fun r => negb (F64.is_nan (col (snd r)))) t.

(** What [generate_insights] prints on the tables [cs] and [ls], in
    order, when its four lookups find their rows: the first category with
    its average views, then the largest entries that are not NaN of
    [avg_engagement_rate] by category and of [avg_views] and
    [avg_engagement_rate] by length. *)
Definition insights_lines (cs ls : stats) : option (list output) :=
  match cs,
        argmax_from avg_engagement_rate cs None,
        argmax_from avg_views ls None,
        argmax_from avg_engagement_rate ls None with
  | (top, row) :: _, Some (ecat, erate), Some (blen, bviews), Some (elen, lrate) =>
      Some [InsightsRule; InsightsTitle; InsightsUnderline;
            TopCategoryHeading; TopCategoryLine top (avg_views row);
            TopEngagementHeading; TopEngagementLine ecat erate;
            BestLengthHeading; BestLengthLine blen bviews;
            BestEngagementHeading; BestEngagementLine elen lrate;
            InsightsEnd]
  | _, _, _, _ => None
  end.

(** The public methods of the class. *)
Inductive method :=
| LoadData | DisplaySummary | AnalyzeByCategory | AnalyzeByLength
| GenerateInsights | PlotCategoryPerformance | PlotLengthPerformance.

(** The methods that only report. *)
Definition reporting (m : method) : bool :=
  match m with
  | DisplaySummary | GenerateInsights
  | PlotCategoryPerformance | PlotLengthPerformance => true
  | _ => false
  end.

Section Script.

Variable parse_numeric : string -> option number.
Variable read_csv : string -> string + DataFrame.
Variable groupby_agg : string -> DataFrame -> string + stats.
Variable sort_by_avg_views : stats -> stats.
Variable print_summary : DataFrame -> string + unit.
Variable draw_category_figure : stats -> string + unit.
Variable draw_length_figure : stats -> string + unit.
Variable print : output -> string + unit.

Local Open Scope method_scope.

(** The chain of lines 359-365.  Every method returns [self], so each
    call runs on the object the previous one left; an exception ends the
    chain. *)
Definition run_pipeline : M unit :=
  load_data parse_numeric read_csv print ;;
  display_summary print_summary ;;
  analyze_by_category groupby_agg sort_by_avg_views print ;;
  analyze_by_length groupby_agg print ;;
  generate_insights print ;;
  plot_category_performance draw_category_figure ;;
  plot_length_performance draw_length_figure.

(** Lines 356-365: the script run on a fresh analyzer. *)
Definition main (path : string) : result unit * YouTubeAnalyzer :=
  run_pipeline (__init__ path).

Definition call_method (m : method) : M unit :=
  match m with
  | LoadData => load_data parse_numeric read_csv print
  | DisplaySummary => display_summary print_summary
  | AnalyzeByCategory => analyze_by_category groupby_agg sort_by_avg_views print
  | AnalyzeByLength => analyze_by_length groupby_agg print
  | GenerateInsights => generate_insights print
  | PlotCategoryPerformance => plot_category_performance draw_category_figure
  | PlotLengthPerformance => plot_length_performance draw_length_figure
  end.

(** [analyzer.m1().m2()...]: any chain of calls on one analyzer. *)
Fixpoint chain (ms : list method) : M unit :=
  match ms with
  | [] => ret tt
  | m :: ms' => call_method m ;; chain ms'
  end.

End Script.

(** Collaborators of a run that finds one group, for the examples. *)
Definition one_video : DataFrame :=
  {| nrows := 1;
     columns := [("title", Object [PStr "intro"]);
                 ("category", Object [PStr "Music"]);
                 ("views", Int64 [200]); ("likes", Int64 [10]);
                 ("comments", Int64 [2]); ("duration", Int64 [90])] |}.

Definition one_group : string -> DataFrame -> string + stats :=
  fun key _ =>
    inr [(PStr (if String.eqb key "category" then "Music" else "Short (0-5 min)"),
          {| video_count := 1;
             total_views := 200; avg_views := F64.of_Z 200;
             total_likes := 10; avg_likes := F64.of_Z 10;
             total_comments := 2; avg_comments := F64.of_Z 2;
             avg_engagement_rate := F64.of_Z 6 |})].

(** The two tables [one_group] gives. *)
Definition one_category_table : stats :=
  match one_group "category" one_video with
  | inr t => t
  | inl _ => []
  end.

Definition one_length_table : stats :=
  match one_group "length_category" one_video with
  | inr t => t
  | inl _ => []
  end.
(* ===================================================================== *)
(** * Duration texts *)
(* ===================================================================== *)

(** The number a string of decimal digits denotes. *)
Definition decimal_value (s : string) : Z :=
  fold_left (fun acc c => 10 * acc + digit_val c) (list_ascii_of_string s) 0.

(** A string of one or more decimal digits, and of at most 4300, the
    longest numeral CPython's [int] converts by default. *)
Definition numeral (s : string) : bool :=
  match s with
  | EmptyString => false
  | _ => all_chars is_digit s && (String.length s <=? 4300)%nat
  end.

(** One optional field of a [PT#H#M#S] text, before [rest]: its numeral
    and unit. *)
Definition iso_field (field : option string) (unit : ascii) (rest : string)
  : string :=
  match field with
  | Some ds => ds ++ String unit rest
  | None => rest
  end.

(** [PT], then the hours, minutes and seconds that are given. *)
Definition iso_text (h m s : option string) : string :=
  "PT" ++ iso_field h "H" (iso_field m "M" (iso_field s "S" "")).

Definition field_ok (field : option string) : bool :=
  match field with
  | Some ds => numeral ds
  | None => true
  end.

Definition field_value (field : option string) : Z :=
  match field with
  | Some ds => decimal_value ds
  | None => 0
  end.

(** [n] zeros. *)
Fixpoint zeros (n : nat) : string :=
  match n with
  | O => EmptyString
  | S n' => String "0" (zeros n')
  end.
(* ===================================================================== *)
(** * Lines 77-84 on one record *)
(* ===================================================================== *)

(** Line 77: [round(duration / 60, 2)]. *)
Definition minutes_of (duration : Z) : F64.float :=
  F64.round2 (F64.div (F64.of_Z duration) (F64.of_Z 60)).

(** Lines 80-84: the bucket of a duration in seconds. *)
Definition length_category_of (duration : Z) : option string :=
  cut1 length_bins length_labels (minutes_of duration).

(** The same bucket read off thresholds in whole seconds. *)
Definition bucket_of_seconds (duration : Z) : option string :=
  if duration <=? 0 then None
  else if duration <=? 300 then Some "Short (0-5 min)"
  else if duration <=? 900 then Some "Medium (5-15 min)"
  else if duration <=? 1800 then Some "Long (15-30 min)"
  else Some "Very Long (30+ min)".

Definition same_bucket (a b : option string) : bool :=
  match a, b with
  | Some x, Some y => String.eqb x y
  | None, None => true
  | _, _ => false
  end.

(** The integers from [lo] on, [n] of them. *)
Definition Z_range (lo : Z) (n : nat) : list Z :=
  map (fun i => lo + Z.of_nat i) (seq 0 n).

(* ===================================================================== *)
(** * More inputs for the examples *)
(* ===================================================================== *)

(** A file with two columns for the views. *)
Definition two_view_columns : DataFrame :=
  {| nrows := 1;
     columns := [("views", Int64 [100]); ("view_count", Int64 [100]);
                 ("likes", Int64 [10])] |}.

(** A file with titles and likes only, and what [load_data] makes of it. *)
Definition titles_only : DataFrame :=
  {| nrows := 2;
     columns := [("title", Object [PStr "a"; PStr "b"]);
                 ("likes", Int64 [3; 4])] |}.

Definition titles_only_loaded : DataFrame :=
  {| nrows := 0;
     columns := [("title", Object []); ("likes", Int64 []);
                 ("category", Object []); ("views", Int64 []);
                 ("comments", Int64 []); ("duration", Int64 []);
                 ("engagement_rate", Float64 []);
                 ("duration_minutes", Float64 []);
                 ("length_category", Categorical [])] |}.

(** A file without a duration column. *)
Definition one_video_no_duration : DataFrame :=
  {| nrows := 1;
     columns := [("title", Object [PStr "intro"]);
                 ("category", Object [PStr "Music"]);
                 ("views", Int64 [200]); ("likes", Int64 [10]);
                 ("comments", Int64 [2])] |}.

(** A console on which every write succeeds, and one that cannot encode
    the check mark of lines 87, 162 and 187 nor the pictographs of
    [generate_insights]. *)
Definition quiet_console : output -> string + unit := fun _ => inr tt.

Definition ascii_console : output -> string + unit :=
  fun o =>
    match o with
    | InsightsRule | InsightsUnderline | InsightsEnd
    | TopCategoryLine _ _ | TopEngagementLine _ _
    | BestLengthLine _ _ | BestEngagementLine _ _ => inr tt
    | _ => inl "UnicodeEncodeError"
    end.

(** Three videos, two of them with an engagement rate that needs rounding:
    200/3 and 200/7 percent. *)
Definition thirds_frame : DataFrame :=
  {| nrows := 3;
     columns := [("views", Int64 [3; 0; 7]);
                 ("likes", Int64 [1; 5; 1]);
                 ("comments", Int64 [1; 5; 1])] |}.

(** What [load_data] makes of them: the rates 66.67 and 28.57. *)
Definition thirds_loaded : DataFrame :=
  {| nrows := 2;
     columns := [("views", Int64 [3; 7]); ("likes", Int64 [1; 1]);
                 ("comments", Int64 [1; 1]); ("title", Int64 [0; 0]);
                 ("category", Object [PStr "Unknown"; PStr "Unknown"]);
                 ("duration", Int64 [0; 0]);
                 ("engagement_rate",
                  Float64 [F64.of_decimal false 6667 (-2);
                           F64.of_decimal false 2857 (-2)]);
                 ("duration_minutes", Float64 [F64.of_Z 0; F64.of_Z 0]);
                 ("length_category", Categorical [None; None])] |}.

(* ===================================================================== *)
(** * Conditions on the frame [read_csv] returns *)
(* ===================================================================== *)

(** How many columns of [df] are labelled [c]. *)
Definition count_label (df : DataFrame) (c : string) : nat :=
  List.length (filter (fun x => String.eqb c (fst x)) (columns df)).

(** The labels of [df] that lines 36-55 rename to [c] (or keep as [c]). *)
Definition synonyms_in (df : DataFrame) (c : string) : list string :=
  filter (fun l => String.eqb (renamed_label l) c) (labels df).

(** Every duration [_parse_duration] returns for a cell of a duration
    column of [df] is an int64.  (Beyond int64 pandas keeps Python integers
    in an object column, which is outside the model.) *)
Definition int64_durations (df : DataFrame) : Prop :=
  forall l s v z,
    In (l, s) (columns df) -> renamed_label l = "duration" ->
    In v (cells s) -> _parse_duration v = ok z -> in_int64 z = true.

(** The columns lines 67-69 convert. *)
Definition counter_cols : list string := ["views"; "likes"; "comments"].

(** A frame with an unreadable duration in a row without views. *)
Definition bad_duration_frame : DataFrame :=
  {| nrows := 2;
     columns := [("views", Int64 [100; 0]);
                 ("duration", Object [PStr "3:20"; PStr "n/a: live"])] |}.

(* ===================================================================== *)
(** * What a method can raise and what it leaves *)
(* ===================================================================== *)

(** Every exception that [m] can raise satisfies [P]. *)
Definition raises_only {A} (P : exn -> Prop) (m : M A) : Prop :=
  forall self e, fst (m self) = inl e -> P e.

(** Whatever its outcome, [m] hands the analyzer back as it received it. *)
Definition read_only {A} (m : M A) : Prop :=
  forall self, snd (m self) = self.

(* ===================================================================== *)
(** * Properties of the duration parser *)
(* ===================================================================== *)

(** C2. The documented examples: ["01:02:03"] is 3723 seconds, ["02:03"]
    is 123, ["PT1H2M3S"] is 3723, ["PT5M"] is 300, ["PT"] is 0, [None] is 0
    and the number 90 (as an [int] or as a [float]) is 90. *)
Theorem parse_duration_examples :
  _parse_duration (PStr "01:02:03") = ok 3723
  /\ _parse_duration (PStr "02:03") = ok 123
  /\ _parse_duration (PStr "PT1H2M3S") = ok 3723
  /\ _parse_duration (PStr "PT5M") = ok 300
  /\ _parse_duration (PStr "PT") = ok 0
  /\ _parse_duration PNone = ok 0
  /\ _parse_duration (PInt 90) = ok 90
  /\ _parse_duration (PFloat (F64.of_Z 90)) = ok 90.
Proof. repeat split; vm_compute; reflexivity. Qed.

(** C1, where the code departs from it.  A string with a colon whose parts
    are not all integer literals makes [int] raise ValueError outside any
    [try] (line 115); a float infinity makes [int] raise OverflowError
    (line 108).  All components of these inputs are non-negative. *)
Theorem parse_duration_raises :
  _parse_duration (PStr "1:30.5")
  = throw (Exn ValueError "invalid literal for int() with base 10")
  /\ _parse_duration (PStr "abc:def")
     = throw (Exn ValueError "invalid literal for int() with base 10")
  /\ _parse_duration (PStr "12:")
     = throw (Exn ValueError "invalid literal for int() with base 10")
  /\ _parse_duration (PFloat F64.inf)
     = throw (Exn OverflowError "cannot convert float infinity to integer").
Proof. repeat split; vm_compute; reflexivity. Qed.
(* ===================================================================== *)
(** * The duration parser on every input *)
(* ===================================================================== *)

Lemma mapM_ok_Forall2 {A B} (f : A -> result B) (l : list A) (l' : list B) :
  mapM f l = inr l' <-> Forall2 (fun a b => f a = inr b) l l'.
Proof.
  revert l'; induction l as [|a l IH]; intros l'; simpl.
  - split; intros H.
    + inversion H; constructor.
    + inversion H; reflexivity.
  - destruct (f a) as [e|b] eqn:Ha.
    + split; intros H; [discriminate|]. inversion H; subst. congruence.
    + destruct (mapM f l) as [e|bs] eqn:Hl.
      * split; intros H; [discriminate|]. inversion H; subst.
        apply IH in H4. discriminate.
      * split; intros H.
        -- inversion H; subst. constructor; [assumption|]. apply IH. reflexivity.
        -- inversion H; subst. apply IH in H4. congruence.
Qed.

Lemma mapM_raises_iff {A B} (f : A -> result B) (l : list A) :
  (exists e, mapM f l = inl e) <-> Exists (fun a => exists e, f a = inl e) l.
Proof.
  induction l as [|a l IH]; simpl.
  - split; [intros [e H]; discriminate | intros H; inversion H].
  - destruct (f a) as [e|b] eqn:Ha.
    + split; [intros _; left; eauto | intros _; eauto].
    + destruct (mapM f l) as [e|bs].
      * split; [intros _; right; apply IH; eauto | intros _; eauto].
      * split.
        -- intros [e H]; discriminate.
        -- intros H. inversion H; subst.
           ++ destruct H1 as [e He]. congruence.
           ++ apply IH in H1. destruct H1 as [e He]. discriminate.
Qed.

Lemma take_digits_spec s ds rest :
  take_digits s = (ds, rest) ->
  all_chars is_digit ds = true /\ s = (ds ++ rest)%string
  /\ match rest with String c _ => is_digit c = false | EmptyString => True end.
Proof.
  revert ds rest; induction s as [|c r IH]; intros ds rest H; simpl in H.
  - inversion H; subst. repeat split.
  - destruct (is_digit c) eqn:Hc.
    + destruct (take_digits r) as [ds' rest'] eqn:Hr.
      inversion H; subst. destruct (IH _ _ eq_refl) as (Ha & Hs & Hn).
      unfold all_chars in *. simpl. rewrite Hc, Ha. repeat split; [|assumption].
      simpl. congruence.
    + inversion H; subst. repeat split. assumption.
Qed.

Lemma digit_not_cspace c : is_digit c = true -> is_cspace c = false.
Proof.
  unfold is_digit, is_cspace, code. intros H.
  apply andb_true_iff in H. destruct H as [H1 H2].
  apply N.leb_le in H1. apply N.leb_le in H2.
  apply orb_false_iff; split.
  - apply andb_false_iff. right. apply N.leb_gt. lia.
  - apply N.eqb_neq. lia.
Qed.

Lemma rstrip_by_id sp s :
  all_chars (fun c => negb (sp c)) s = true -> rstrip_by sp s = s.
Proof.
  unfold all_chars. induction s as [|c r IH]; simpl; intros H; [reflexivity|].
  apply andb_true_iff in H. destruct H as [Hc Hr].
  rewrite (IH Hr). apply negb_true_iff in Hc. rewrite Hc.
  destruct r; reflexivity.
Qed.

Lemma lstrip_by_id sp s :
  all_chars (fun c => negb (sp c)) s = true -> lstrip_by sp s = s.
Proof.
  unfold all_chars. destruct s as [|c r]; simpl; intros H; [reflexivity|].
  apply andb_true_iff in H. destruct H as [Hc _].
  apply negb_true_iff in Hc. rewrite Hc. reflexivity.
Qed.

Lemma all_chars_impl (p q : ascii -> bool) s :
  (forall c, p c = true -> q c = true) -> all_chars p s = true -> all_chars q s = true.
Proof.
  unfold all_chars. intros Hpq. induction (list_ascii_of_string s) as [|c l IH]; simpl; [reflexivity|].
  intros H. apply andb_true_iff in H. destruct H as [Hc Hl].
  rewrite (Hpq _ Hc), (IH Hl). reflexivity.
Qed.

Lemma digit_val_nonneg c : is_digit c = true -> 0 <= digit_val c.
Proof.
  unfold is_digit, digit_val. intros H. apply andb_true_iff in H.
  destruct H as [H1 _]. apply N.leb_le in H1. lia.
Qed.

Lemma digitpart_from_digits s acc n :
  all_chars is_digit s = true -> 0 <= acc ->
  exists v k, digitpart_from s acc n true = Some (v, k) /\ 0 <= v.
Proof.
  unfold all_chars. revert acc n; induction s as [|c r IH];
    cbn [digitpart_from forallb list_ascii_of_string]; intros acc n H Hacc.
  - eauto.
  - apply andb_true_iff in H. destruct H as [Hc Hr]. rewrite Hc.
    apply IH; [assumption|]. pose proof (digit_val_nonneg c Hc). lia.
Qed.

Lemma int_literal_digits c r :
  all_chars is_digit (String c r) = true ->
  exists z, int_literal (String c r) = Some z /\ 0 <= z.
Proof.
  intros H. unfold int_literal, strip_by.
  assert (Hsp : all_chars (fun a => negb (is_cspace a)) (String c r) = true).
  { eapply all_chars_impl; [|exact H]. intros a Ha. rewrite (digit_not_cspace a Ha). reflexivity. }
  rewrite (lstrip_by_id _ _ Hsp), (rstrip_by_id _ _ Hsp).
  unfold all_chars in H. simpl in H. apply andb_true_iff in H. destruct H as [Hc Hr].
  assert (Hs : take_sign (String c r) = (false, String c r)).
  { unfold take_sign. destruct c as [[] [] [] [] [] [] [] []]; try reflexivity; discriminate Hc. }
  rewrite Hs. unfold digitpart. cbn [digitpart_from]. rewrite Hc.
  destruct (digitpart_from_digits r (10 * 0 + digit_val c) (0 + 1) Hr) as (v & k & Hv & Hpos).
  { pose proof (digit_val_nonneg c Hc). lia. }
  rewrite Hv. eauto.
Qed.

Lemma split_not_nil sep s : split sep s <> [].
Proof.
  destruct s as [|c r]; simpl; [discriminate|].
  destruct (Ascii.eqb c sep); [discriminate|].
  destruct (split sep r); discriminate.
Qed.

Lemma append_nil_r s : (s ++ "")%string = s.
Proof. induction s as [|c s IH]; cbn; congruence. Qed.

Lemma take_run_app s : forall run rest,
  take_run s = (run, rest) -> s = (run ++ rest)%string.
Proof.
  induction s as [|c s IH]; intros run rest H; cbn [take_run] in H.
  - injection H as <- <-. reflexivity.
  - destruct (is_digit c || Ascii.eqb c "_").
    + destruct (take_run s) as [run' rest'] eqn:E. injection H as <- <-.
      cbn. f_equal. now apply IH.
    + injection H as <- <-. reflexivity.
Qed.

Lemma digitpart_from_run s : forall acc n prev r,
  digitpart_from s acc n prev = Some r -> take_run s = (s, "").
Proof.
  induction s as [|c s IH]; intros acc n prev r H; [reflexivity|].
  cbn [digitpart_from take_run] in *.
  destruct (is_digit c); cbn [orb].
  - now rewrite (IH _ _ _ _ H).
  - destruct (Ascii.eqb c "_"); [|discriminate H].
    destruct prev; [|discriminate H]. now rewrite (IH _ _ _ _ H).
Qed.

(** [int] on [p]: the value of the literal, or why it raises. *)
Lemma int_of_str_outcome p :
  match int_of_str p with
  | inr z => int_literal p = Some z /\ too_long p = false
  | inl _ => int_fails p = true
  end.
Proof.
  unfold int_of_str, int_fails, not_int_literal, int_literal, too_long.
  destruct (take_sign (strip_by is_cspace p)) as [neg body]. cbn [snd].
  destruct (take_run body) as [run rest] eqn:Hrun.
  pose proof (take_run_app _ _ _ Hrun) as Happ.
  assert (Hwhole : forall r, digitpart body = Some r -> run = body /\ rest = "").
  { intros r Hr. unfold digitpart in Hr. apply digitpart_from_run in Hr.
    rewrite Hr in Hrun. injection Hrun as <- <-. now split. }
  destruct (digitpart run) as [[v n]|] eqn:Hd.
  - destruct (max_str_digits <? n) eqn:Hn.
    + unfold throw. destruct (digitpart body) as [[v' n']|] eqn:Hb; [|reflexivity].
      destruct (Hwhole _ eq_refl) as [-> _]. rewrite Hb in Hd.
      injection Hd as -> ->. rewrite Hn. apply orb_true_r.
    + destruct rest as [|c rest].
      * rewrite append_nil_r in Happ. subst run. rewrite Hd, Hn.
        unfold ok. split; reflexivity.
      * unfold throw. destruct (digitpart body) as [[v' n']|] eqn:Hb; [|reflexivity].
        destruct (Hwhole _ eq_refl) as [_ Habs]. discriminate Habs.
  - unfold throw. destruct (digitpart body) as [[v' n']|] eqn:Hb; [|reflexivity].
    destruct (Hwhole _ eq_refl) as [-> _]. congruence.
Qed.

Lemma int_of_str_literal p z : int_of_str p = inr z -> int_literal p = Some z.
Proof.
  intros H. pose proof (int_of_str_outcome p) as Ho. rewrite H in Ho. apply Ho.
Qed.

(** [int] on one or more digits: a number that is not negative, unless
    there are too many digits. *)
Lemma int_of_str_digits c r :
  all_chars is_digit (String c r) = true ->
  if int_fails (String c r)
  then exists e, int_of_str (String c r) = inl e
  else exists z, int_of_str (String c r) = inr z /\ 0 <= z.
Proof.
  intros Hd. destruct (int_literal_digits c r Hd) as (z & Hz & Hpos).
  pose proof (int_of_str_outcome (String c r)) as Ho.
  destruct (int_of_str (String c r)) as [e|z'].
  - rewrite Ho. now exists e.
  - destruct Ho as [Hl Ht]. unfold int_fails, not_int_literal. rewrite Hl, Ht.
    cbn [orb]. exists z'. split; [reflexivity|]. congruence.
Qed.

Lemma opt_group_digits u s ds r :
  opt_group u s = (Some ds, r) ->
  exists c d, ds = String c d /\ all_chars is_digit ds = true.
Proof.
  unfold opt_group. destruct (take_digits s) as [d rest] eqn:Ht.
  destruct (take_digits_spec _ _ _ Ht) as (Hd & _ & _).
  destruct d as [|c d']; [intros H; destruct rest; discriminate|].
  destruct rest as [|c' r']; [discriminate|].
  destruct (Ascii.eqb c' u); [|discriminate].
  intros H; inversion H; subst. now exists c, d'.
Qed.

(** One group of the pattern: [int] converts it to a number that is not
    negative, unless it has too many digits. *)
Lemma opt_group_int u s :
  if group_fails (fst (opt_group u s))
  then exists e, group_int (fst (opt_group u s)) = inl e
  else exists z, group_int (fst (opt_group u s)) = inr z /\ 0 <= z.
Proof.
  destruct (opt_group u s) as [[ds|] r] eqn:H; cbn [fst group_fails group_int].
  - destruct (opt_group_digits _ _ _ _ H) as (c & d & -> & Hd).
    now apply int_of_str_digits.
  - exists 0. split; [reflexivity|lia].
Qed.

(** The three groups of a match. *)
Lemma pattern_branch_groups s g1 g2 g3 :
  re_match_PT s = Some (g1, g2, g3) ->
  forall g, g = g1 \/ g = g2 \/ g = g3 ->
    if group_fails g
    then exists e, group_int g = inl e
    else exists z, group_int g = inr z /\ 0 <= z.
Proof.
  unfold re_match_PT.
  destruct s as [|a s']; [discriminate|].
  destruct a as [[] [] [] [] [] [] [] []]; try discriminate.
  destruct s' as [|b r]; [discriminate|].
  destruct b as [[] [] [] [] [] [] [] []]; try discriminate.
  pose proof (opt_group_int "H" r) as Hh.
  destruct (opt_group "H" r) as [x1 r1].
  pose proof (opt_group_int "M" r1) as Hm.
  destruct (opt_group "M" r1) as [x2 r2].
  pose proof (opt_group_int "S" r2) as Hs.
  destruct (opt_group "S" r2) as [x3 r3].
  cbn [fst] in *. intros H; inversion H; subst.
  intros g Hg. destruct Hg as [Hg|[Hg|Hg]]; subst g; assumption.
Qed.

(** The pattern branch: it raises exactly when a group has too many
    digits, and never yields a negative number. *)
Lemma pattern_branch_outcome s g1 g2 g3 :
  re_match_PT s = Some (g1, g2, g3) ->
  if group_fails g1 || group_fails g2 || group_fails g3
  then exists e,
         rbind (group_int g1) (fun hours =>
         rbind (group_int g2) (fun minutes =>
         rbind (group_int g3) (fun seconds =>
         ok (hours * 3600 + minutes * 60 + seconds)))) = inl e
  else exists h m sec,
         group_int g1 = inr h /\ group_int g2 = inr m /\ group_int g3 = inr sec
         /\ 0 <= h /\ 0 <= m /\ 0 <= sec.
Proof.
  intros Hre. pose proof (pattern_branch_groups _ _ _ _ Hre) as Hg.
  pose proof (Hg g1 (or_introl eq_refl)) as H1.
  pose proof (Hg g2 (or_intror (or_introl eq_refl))) as H2.
  pose proof (Hg g3 (or_intror (or_intror eq_refl))) as H3.
  destruct (group_fails g1); cbn [orb].
  - destruct H1 as [e ->]. now exists e.
  - destruct H1 as (h & -> & Hh). cbn [rbind].
    destruct (group_fails g2); cbn [orb].
    + destruct H2 as [e ->]. now exists e.
    + destruct H2 as (m & -> & Hm). cbn [rbind].
      destruct (group_fails g3).
      * destruct H3 as [e ->]. now exists e.
      * destruct H3 as (sec & -> & Hs). exists h, m, sec. auto 10.
Qed.

Lemma trunc_nonneg f z :
  F64.ltb f F64.zero = false -> F64.trunc f = Some z -> 0 <= z.
Proof.
  destruct f as [s|s| |s m e]; intros Hlt Ht; try discriminate Ht.
  - injection Ht as <-. lia.
  - destruct s; [discriminate Hlt|].
    unfold F64.trunc in Ht. injection Ht as <-.
    change (cond_Zopp false ?x) with x.
    destruct e as [|p|p].
    + change (0 <= Z.pos m * 2 ^ 0).
      apply Z.mul_nonneg_nonneg; [lia | apply Z.pow_nonneg; lia].
    + change (0 <= Z.pos m * 2 ^ Z.pos p).
      apply Z.mul_nonneg_nonneg; [lia | apply Z.pow_nonneg; lia].
    + change (0 <= Z.pos m / 2 ^ Z.pos p).
      apply Z.div_pos; [lia|]. apply Z.pow_pos_nonneg; lia.
Qed.

Lemma int_of_float_raises f :
  (exists e, int_of_float f = inl e) <-> F64.is_finite f = false.
Proof.
  unfold int_of_float. destruct f as [s|s| |s m e]; simpl; split; intros H;
    try discriminate; try reflexivity; try (destruct H; discriminate); eauto.
Qed.

Lemma int_of_str_raises p :
  (exists e, int_of_str p = inl e) <-> int_fails p = true.
Proof.
  pose proof (int_of_str_outcome p) as Ho.
  destruct (int_of_str p) as [e|z].
  - split; [intros _; exact Ho|intros _; now exists e].
  - destruct Ho as [Hl Ht]. unfold int_fails, not_int_literal. rewrite Hl, Ht.
    split; [intros [e He]; discriminate He|discriminate].
Qed.

Lemma colon_parts_raise l :
  (exists e, mapM int_of_str l = inl e) <-> existsb int_fails l = true.
Proof.
  rewrite mapM_raises_iff, existsb_exists, Exists_exists.
  split; intros (p & Hin & Hp); exists p; (split; [assumption|]);
    apply int_of_str_raises; assumption.
Qed.

(** C1, the part the code keeps (1/2).  The parser raises on exactly three
    kinds of input: a float infinity; a string with a colon one of whose
    parts [int] does not convert (it is not an integer literal, or one of
    more than 4300 digits); and a [PT] text with a field of more than 4300
    digits.  On every other input it returns an integer. *)
Theorem parse_duration_raises_iff v :
  (exists e, _parse_duration v = inl e) <-> raising_input v = true.
Proof.
  destruct v as [|z|f|s].
  - cbv. split; [intros [e H]; discriminate | discriminate].
  - cbv. split; [intros [e H]; discriminate | discriminate].
  - destruct f as [sg|sg| |sg m e]; cbv -[Z.mul Z.div Z.pow Z.opp]; split; intros H;
      try discriminate; try (destruct H; discriminate); eauto.
  - unfold _parse_duration, raising_input. cbn [isna]. cbv zeta.
    destruct (contains ":" (strip s)) eqn:Hc.
    + rewrite <- colon_parts_raise.
      destruct (mapM int_of_str (split ":" (strip s))) as [e|parts] eqn:Hm;
        cbn [rbind].
      * split; eauto.
      * assert (Hne : parts <> []).
        { apply mapM_ok_Forall2 in Hm. intros ->. inversion Hm.
          eapply split_not_nil; eauto. }
        split; [|intros [e He]; discriminate].
        intros [e He]. destruct parts as [|a [|b [|c [|d l]]]];
          try discriminate He. congruence.
    + destruct (re_match_PT (strip s)) as [[[g1 g2] g3]|] eqn:Hre.
      * pose proof (pattern_branch_outcome _ _ _ _ Hre) as Ho.
        destruct (group_fails g1 || group_fails g2 || group_fails g3).
        -- split; [reflexivity|intros _; exact Ho].
        -- destruct Ho as (h & m & sec & H1 & H2 & H3 & _).
           rewrite H1, H2, H3. cbn [rbind].
           split; [intros [e He]; discriminate He|discriminate].
      * split; [|discriminate]. intros [e He].
        destruct (rbind (float_of_str (strip s)) int_of_float); discriminate He.
Qed.

(** C1, the part the code keeps (2/2).  When the numeric components of the
    input are not negative, the integer returned is not negative. *)
Theorem parse_duration_nonneg v n :
  nonneg_input v -> _parse_duration v = ok n -> 0 <= n.
Proof.
  unfold result, ok.
  destruct v as [|z|f|s].
  - cbn. unfold ok. intros _ [= <-]. lia.
  - cbn. unfold ok. intros H [= <-]. exact H.
  - unfold nonneg_input, _parse_duration, ok. cbn [isna].
    destruct (F64.is_nan f) eqn:Hn; [intros _ [= <-]; lia|].
    unfold int_of_float, ok, throw. destruct (F64.trunc f) as [z|] eqn:Ht.
    + intros Hlt [= <-]. eapply trunc_nonneg; eassumption.
    + rewrite Hn. discriminate.
  - unfold nonneg_input, _parse_duration, ok. cbn [isna].
    destruct (contains ":" (strip s)) eqn:Hc.
    + intros Hall.
      destruct (mapM int_of_str (split ":" (strip s))) as [e|parts] eqn:Hm;
        cbn [rbind]; [discriminate|].
      apply mapM_ok_Forall2 in Hm.
      assert (Hpos : Forall (fun z => 0 <= z) parts).
      { revert Hall. induction Hm as [|p z ps zs Hp _ IH]; intros Hall; constructor.
        - inversion Hall; subst. apply int_of_str_literal in Hp. auto.
        - apply IH. inversion Hall; assumption. }
      destruct parts as [|a [|b [|c [|d l]]]]; unfold ok, throw; try discriminate;
        intros [= <-];
        repeat match goal with
               | H : Forall _ (_ :: _) |- _ => inversion H; clear H; subst
               end; lia.
    + intros Hf.
      destruct (re_match_PT (strip s)) as [[[g1 g2] g3]|] eqn:Hre.
      * pose proof (pattern_branch_outcome _ _ _ _ Hre) as Ho.
        destruct (group_fails g1 || group_fails g2 || group_fails g3).
        -- destruct Ho as [e He]. unfold ok in He. rewrite He. discriminate.
        -- destruct Ho as (h & m & sec & H1 & H2 & H3 & Hh & Hm & Hs).
           rewrite H1, H2, H3. cbn [rbind]. intros [= <-]. lia.
      * unfold float_of_str, ok, throw.
        destruct (float_literal (strip s)) as [f|] eqn:Hl; cbn [rbind].
        -- specialize (Hf f eq_refl). unfold int_of_float, ok, throw.
           destruct (F64.trunc f) as [z|] eqn:Ht.
           ++ intros [= <-]. eapply trunc_nonneg; eassumption.
           ++ destruct (F64.is_nan f); intros [= <-]; lia.
        -- intros [= <-]. lia.
Qed.



(** Four parts: the first alone is the result. *)
Lemma parse_duration_four_parts : _parse_duration (PStr "1:2:3:4") = ok 1.
Proof. vm_compute. reflexivity. Qed.

Lemma parse_duration_nonneg_witness :
  nonneg_input (PStr "PT1H30M")
  /\ _parse_duration (PStr "PT1H30M") = ok 5400
  /\ 0 <= 5400.
Proof.
  assert (H : nonneg_input (PStr "PT1H30M")).
  { cbn. intros f Hf. vm_compute in Hf. discriminate Hf. }
  split; [exact H|]. split; [reflexivity|].
  exact (parse_duration_nonneg (PStr "PT1H30M") 5400 H eq_refl).
Defined.

(* ===================================================================== *)
(** * Sequencing guards of the analyzer methods *)
(* ===================================================================== *)

(** ** Composing outcomes *)

Lemma raises_only_bind {A B} (P : exn -> Prop) (m : M A) (k : A -> M B) :
  raises_only P m -> (forall a, raises_only P (k a)) -> raises_only P (bind m k).
Proof.
  intros Hm Hk self e. unfold bind.
  specialize (Hm self). destruct (m self) as [[e'|a] self'] eqn:E; cbn [fst] in *.
  - intros [= <-]. now apply Hm.
  - apply Hk.
Qed.

Lemma raises_only_call {A} (P : exn -> Prop) (r : string + A) :
  (forall what, P (CollaboratorError what)) -> raises_only P (call r).
Proof.
  intros H self e. unfold call. destruct r; cbn [fst]; [|discriminate].
  intros [= <-]. apply H.
Qed.

Lemma raises_only_lift {A} (P : exn -> Prop) (r : result A) :
  (forall e, r = inl e -> P e) -> raises_only P (lift r).
Proof. intros H self e. unfold lift. cbn [fst]. apply H. Qed.

Lemma raises_only_ret {A} (P : exn -> Prop) (a : A) : raises_only P (ret a).
Proof. intros self e. discriminate. Qed.

Lemma raises_only_get_self (P : exn -> Prop) : raises_only P get_self.
Proof. intros self e. discriminate. Qed.

Lemma raises_only_set (P : exn -> Prop) :
  (forall df, raises_only P (set_data df))
  /\ (forall t, raises_only P (set_category_stats t))
  /\ (forall t, raises_only P (set_length_stats t)).
Proof. repeat split; intros x self e; discriminate. Qed.

Lemma read_only_bind {A B} (m : M A) (k : A -> M B) :
  read_only m -> (forall a, read_only (k a)) -> read_only (bind m k).
Proof.
  intros Hm Hk self. unfold bind.
  specialize (Hm self). destruct (m self) as [[e'|a] self']; cbn [snd] in *.
  - exact Hm.
  - subst self'. apply Hk.
Qed.

Lemma read_only_call {A} (r : string + A) : read_only (call r).
Proof. intros self. unfold call. destruct r; reflexivity. Qed.

Lemma read_only_lift {A} (r : result A) : read_only (lift r).
Proof. intros self. reflexivity. Qed.

(** ** The lookups of [generate_insights] *)

Lemma index0_error t e : index0 t = inl e -> precondition_error e = false.
Proof.
  destruct t as [|[label row] t']; cbn; unfold throw, ok; intros [= <-]; reflexivity.
Qed.

Lemma iloc0_error col t e : iloc0 col t = inl e -> precondition_error e = false.
Proof.
  destruct t as [|[label row] t']; cbn; unfold throw, ok; intros [= <-]; reflexivity.
Qed.

Lemma idxmax_loc_error col t e :
  idxmax_loc col t = inl e -> precondition_error e = false.
Proof.
  unfold idxmax_loc. destruct t as [|x t'].
  - unfold throw. intros [= <-]. reflexivity.
  - destruct (argmax_from col (x :: t') None); unfold throw, ok;
      intros [= <-]; reflexivity.
Qed.

(** Past its guard, [generate_insights] raises no precondition error. *)
Lemma insights_error print self cs ls e :
  category_stats self = Some cs -> length_stats self = Some ls ->
  fst (generate_insights print self) = inl e -> precondition_error e = false.
Proof.
  intros Hc Hl. unfold generate_insights. unfold bind at 1, get_self.
  cbn [fst snd]. rewrite Hc, Hl. revert self e Hc Hl.
  match goal with
  | |- forall self e, _ -> _ -> fst (?m self) = inl e -> _ =>
      assert (H : raises_only (fun e => precondition_error e = false) m)
  end.
  { repeat first
      [ apply raises_only_bind; [|intros ?]
      | apply raises_only_call; reflexivity
      | apply raises_only_lift;
        first [apply index0_error | apply iloc0_error | apply idxmax_loc_error] ]. }
  intros self e _ _. apply H.
Qed.

(** [generate_insights] changes nothing in the analyzer. *)
Lemma generate_insights_state print self :
  snd (generate_insights print self) = self.
Proof.
  unfold generate_insights. unfold bind at 1, get_self. cbn [fst snd].
  destruct (category_stats self) as [cs|]; [|reflexivity].
  destruct (length_stats self) as [ls|]; [|reflexivity].
  revert self.
  match goal with
  | |- forall self, snd (?m self) = self => change (read_only m)
  end.
  repeat first
    [ apply read_only_bind; [|intros ?]
    | apply read_only_call
    | apply read_only_lift ].
Qed.

Section SequencingGuards.

Variable groupby_agg : string -> DataFrame -> string + stats.
Variable sort_by_avg_views : stats -> stats.
Variable print_summary : DataFrame -> string + unit.
Variable draw_category_figure : stats -> string + unit.
Variable draw_length_figure : stats -> string + unit.
Variable print : output -> string + unit.

(** A precondition error comes from the guard and from nowhere else in
    the method: when one is raised, the state the guard tests is unset. *)
Lemma guard_fired_state_unset (self : YouTubeAnalyzer) :
  (fst (analyze_by_category groupby_agg sort_by_avg_views print self)
   = inl (Exn ValueError msg_data_not_loaded)
   -> data self = None)
  /\ (fst (analyze_by_length groupby_agg print self)
      = inl (Exn ValueError msg_data_not_loaded)
      -> data self = None)
  /\ (fst (display_summary print_summary self)
      = inl (Exn ValueError msg_data_not_loaded)
      -> data self = None)
  /\ (fst (plot_category_performance draw_category_figure self)
      = inl (Exn ValueError msg_category_not_done)
      -> category_stats self = None)
  /\ (fst (plot_length_performance draw_length_figure self)
      = inl (Exn ValueError msg_length_not_done)
      -> length_stats self = None)
  /\ (fst (generate_insights print self)
      = inl (Exn ValueError msg_analysis_not_done)
      -> category_stats self = None \/ length_stats self = None).
Proof.
  split_conj.
  - run_method. destruct (data self) as [df|]; [|reflexivity].
    destruct (groupby_agg "category" df); cbn; [discriminate|].
    destruct (print CategoryComplete); discriminate.
  - run_method. destruct (data self) as [df|]; [|reflexivity].
    destruct (groupby_agg "length_category" df); cbn; [discriminate|].
    destruct (print LengthComplete); discriminate.
  - run_method. destruct (data self) as [df|]; [|reflexivity].
    destruct (print_summary df); cbn; discriminate.
  - run_method. destruct (category_stats self) as [t|]; [|reflexivity].
    destruct (draw_category_figure t); cbn; discriminate.
  - run_method. destruct (length_stats self) as [t|]; [|reflexivity].
    destruct (draw_length_figure t); cbn; discriminate.
  - destruct (category_stats self) as [cs|] eqn:Hc; [|left; reflexivity].
    destruct (length_stats self) as [ls|] eqn:Hl; [|right; reflexivity].
    intros H. apply (insights_error print self cs ls _ Hc Hl) in H.
    discriminate H.
Qed.

(** C9, as the code has it.  Each of the six methods raises its own
    precondition error, a ValueError whose message names the step to run
    first, exactly when the state that step fills is still unset: the data
    for [analyze_by_category], [analyze_by_length] and [display_summary],
    the category table for [plot_category_performance], the length table
    for [plot_length_performance], either table for [generate_insights]. *)
Theorem precondition_error_iff (self : YouTubeAnalyzer) :
  (fst (analyze_by_category groupby_agg sort_by_avg_views print self)
   = inl (Exn ValueError "Data not loaded. Call load_data() first.")
   <-> data self = None)
  /\ (fst (analyze_by_length groupby_agg print self)
      = inl (Exn ValueError "Data not loaded. Call load_data() first.")
      <-> data self = None)
  /\ (fst (display_summary print_summary self)
      = inl (Exn ValueError "Data not loaded. Call load_data() first.")
      <-> data self = None)
  /\ (fst (plot_category_performance draw_category_figure self)
      = inl (Exn ValueError
               "Category analysis not done. Call analyze_by_category() first.")
      <-> category_stats self = None)
  /\ (fst (plot_length_performance draw_length_figure self)
      = inl (Exn ValueError
               "Length analysis not done. Call analyze_by_length() first.")
      <-> length_stats self = None)
  /\ (fst (generate_insights print self)
      = inl (Exn ValueError
               "Complete analysis not done. Run analyze_by_category() and analyze_by_length() first.")
      <-> category_stats self = None \/ length_stats self = None).
Proof.
  destruct (guard_fired_state_unset self) as (H1 & H2 & H3 & H4 & H5 & H6).
  repeat split; try assumption; run_method.
  - intros ->. reflexivity.
  - intros ->. reflexivity.
  - intros ->. reflexivity.
  - intros ->. reflexivity.
  - intros ->. reflexivity.
  - intros [-> | ->]; [reflexivity|].
    destruct (category_stats self); reflexivity.
Qed.

(** C10. A method that raises its precondition error hands the analyzer
    back as it received it: [data], [category_stats] and [length_stats]
    (and the path) are what they were before the call. *)
Theorem precondition_error_keeps_state (self : YouTubeAnalyzer) :
  (fst (analyze_by_category groupby_agg sort_by_avg_views print self)
   = inl (Exn ValueError msg_data_not_loaded)
   -> snd (analyze_by_category groupby_agg sort_by_avg_views print self) = self)
  /\ (fst (analyze_by_length groupby_agg print self)
      = inl (Exn ValueError msg_data_not_loaded)
      -> snd (analyze_by_length groupby_agg print self) = self)
  /\ (fst (display_summary print_summary self)
      = inl (Exn ValueError msg_data_not_loaded)
      -> snd (display_summary print_summary self) = self)
  /\ (fst (plot_category_performance draw_category_figure self)
      = inl (Exn ValueError msg_category_not_done)
      -> snd (plot_category_performance draw_category_figure self) = self)
  /\ (fst (plot_length_performance draw_length_figure self)
      = inl (Exn ValueError msg_length_not_done)
      -> snd (plot_length_performance draw_length_figure self) = self)
  /\ (fst (generate_insights print self)
      = inl (Exn ValueError msg_analysis_not_done)
      -> snd (generate_insights print self) = self).
Proof.
  destruct (guard_fired_state_unset self) as (H1 & H2 & H3 & H4 & H5 & H6).
  repeat split; intros H.
  - apply H1 in H. run_method. rewrite H. reflexivity.
  - apply H2 in H. run_method. rewrite H. reflexivity.
  - apply H3 in H. run_method. rewrite H. reflexivity.
  - apply H4 in H. run_method. rewrite H. reflexivity.
  - apply H5 in H. run_method. rewrite H. reflexivity.
  - apply generate_insights_state.
Qed.

End SequencingGuards.

Lemma precondition_error_keeps_state_witness :
  fst (generate_insights quiet_console (__init__ "videos.csv"))
  = inl (Exn ValueError msg_analysis_not_done)
  /\ snd (generate_insights quiet_console (__init__ "videos.csv"))
     = __init__ "videos.csv"
  /\ fst (analyze_by_category no_groups (fun t => t) quiet_console
            (__init__ "videos.csv"))
     = inl (Exn ValueError msg_data_not_loaded)
  /\ snd (analyze_by_category no_groups (fun t => t) quiet_console
            (__init__ "videos.csv"))
     = __init__ "videos.csv".
Proof.
  destruct (precondition_error_keeps_state
              no_groups (fun t => t) silent_summary blank_figure blank_figure
              quiet_console (__init__ "videos.csv")) as (H1 & _ & _ & _ & _ & H6).
  split; [reflexivity|]. split; [exact (H6 eq_refl)|].
  split; [reflexivity|]. exact (H1 eq_refl).
Defined.

(** C9 as stated fails in its "only if" half.  With the data loaded and
    both analyses done, [generate_insights] still raises when a table is
    empty: on an empty length table (a file without durations)
    [self.length_stats['avg_views'].idxmax()] (line 341) is a ValueError
    that is not the precondition error; on an empty category table (a file
    without a row of positive views) [self.category_stats.index[0]]
    (line 329) is an IndexError. *)
Lemma insights_raise_with_analyses_done :
  (data analyzed_without_durations <> None
   /\ category_stats analyzed_without_durations <> None
   /\ length_stats analyzed_without_durations <> None
   /\ fst (generate_insights quiet_console analyzed_without_durations)
      = inl (Exn ValueError "attempt to get argmax of an empty sequence"))
  /\ (data analyzed_nothing <> None
      /\ category_stats analyzed_nothing <> None
      /\ length_stats analyzed_nothing <> None
      /\ fst (generate_insights quiet_console analyzed_nothing)
         = inl (Exn IndexError "index 0 is out of bounds for axis 0 with size 0")).
Proof. repeat split; try discriminate; vm_compute; reflexivity. Qed.

(** With the collaborators above, that analyzer is what the three calls
    [analyze_by_category], [analyze_by_length] on loaded, empty data leave. *)
Lemma analyzed_nothing_reached :
  forall df,
    data analyzed_nothing = Some df ->
    let loaded := {| data := Some df; category_stats := None;
                     length_stats := None; csv_file := "videos.csv" |} in
    snd (analyze_by_length no_groups quiet_console
           (snd (analyze_by_category no_groups (fun t => t) quiet_console loaded)))
    = analyzed_nothing.
Proof. intros df [= <-]. reflexivity. Qed.

(** The data of that analyzer is what [load_data] makes of a one-row file
    with no duration column. *)
Lemma analyzed_without_durations_loaded :
  rbind (load_frame python_numeric_text
           {| nrows := 1;
              columns := [("title", Object [PStr "intro"]);
                          ("category", Object [PStr "Music"]);
                          ("views", Int64 [200]); ("likes", Int64 [10]);
                          ("comments", Int64 [2])] |})
        (fun loaded => ok (Some loaded))
  = ok (data analyzed_without_durations).
Proof. vm_compute. reflexivity. Qed.

(* ===================================================================== *)
(** * binary64 arithmetic stays finite on the pipeline's operands *)
(* ===================================================================== *)

Lemma digits2_pos_size p : digits2_pos p = Pos.size p.
Proof. induction p as [p IH|p IH|]; cbn; congruence. Qed.

Lemma Zdigits2_log2 m : 0 < m -> Zdigits2 m = Z.log2 m + 1.
Proof.
  destruct m as [|p|p]; try lia. intros _. unfold Zdigits2.
  rewrite digits2_pos_size. destruct p; cbn; lia.
Qed.

Lemma shr_1_div2 r : 0 <= shr_m r -> shr_m (shr_1 r) = shr_m r / 2.
Proof.
  destruct r as [m rb sb]. cbn [shr_m]. intros Hm.
  destruct m as [|[p|p|]|p]; cbn [shr_1 shr_m].
  - reflexivity.
  - rewrite Pos2Z.inj_xI. apply Z.div_unique with (r := 1); lia.
  - rewrite Pos2Z.inj_xO. apply Z.div_unique with (r := 0); lia.
  - reflexivity.
  - lia.
Qed.

Lemma shr_1_nonneg r : 0 <= shr_m r -> 0 <= shr_m (shr_1 r).
Proof.
  intros H. rewrite shr_1_div2 by assumption. apply Z.div_pos; lia.
Qed.

Lemma iter_shr_1_div p : forall r,
  0 <= shr_m r ->
  shr_m (iter_pos shr_1 p r) = shr_m r / 2 ^ Zpos p.
Proof.
  induction p as [p IH|p IH|]; intros r Hr; cbn [iter_pos].
  - assert (Hp : 0 < 2 ^ Z.pos p) by (apply Z.pow_pos_nonneg; lia).
    assert (H1 : 0 <= shr_m (shr_1 r)) by (apply shr_1_nonneg; assumption).
    assert (H2 : 0 <= shr_m (iter_pos shr_1 p (shr_1 r))).
    { rewrite IH by assumption. apply Z.div_pos; assumption. }
    rewrite IH, IH, shr_1_div2 by assumption.
    rewrite !Z.div_div by lia.
    f_equal. rewrite (Pos2Z.inj_xI p), Z.add_1_r, Z.pow_succ_r, Z.pow_twice_r by lia.
    reflexivity.
  - assert (Hp : 0 < 2 ^ Z.pos p) by (apply Z.pow_pos_nonneg; lia).
    assert (H2 : 0 <= shr_m (iter_pos shr_1 p r)).
    { rewrite IH by assumption. apply Z.div_pos; assumption. }
    rewrite IH, IH by assumption.
    rewrite Z.div_div by lia.
    f_equal. rewrite (Pos2Z.inj_xO p), Z.pow_twice_r. reflexivity.
  - rewrite shr_1_div2 by assumption. reflexivity.
Qed.

Lemma shr_record_of_loc_m m l : shr_m (shr_record_of_loc m l) = m.
Proof. destruct l as [|[]]; reflexivity. Qed.

Lemma round_nearest_even_cases m l :
  round_nearest_even m l = m \/ round_nearest_even m l = m + 1.
Proof.
  destruct l as [|[]]; cbn; auto. destruct (Z.even m); auto.
Qed.

Lemma log2_div_pow2 m n :
  0 < m -> 0 <= n <= Z.log2 m -> Z.log2 (m / 2 ^ n) = Z.log2 m - n.
Proof.
  intros Hm Hn. rewrite <- Z.shiftr_div_pow2 by lia.
  rewrite Z.log2_shiftr by lia. lia.
Qed.

(** A mantissa of at least 53 bits is shifted down to 53 bits. *)
Lemma shr_fexp_normal m e l :
  0 < m -> 52 <= Z.log2 m -> -1021 <= Z.log2 m + 1 + e ->
  exists r,
    shr_fexp 53 1024 m e l = (r, Z.log2 m + 1 + e - 53)
    /\ shr_m r = m / 2 ^ (Z.log2 m - 52).
Proof.
  intros Hm Hd He. unfold shr_fexp. rewrite Zdigits2_log2 by assumption.
  assert (Hf : fexp 53 1024 (Z.log2 m + 1 + e) = Z.log2 m + 1 + e - 53).
  { unfold fexp, emin. lia. }
  rewrite Hf. unfold shr.
  destruct (Z.log2 m + 1 + e - 53 - e) as [|p|p] eqn:Hn; try lia.
  - eexists. split; [f_equal; lia|].
    rewrite shr_record_of_loc_m.
    replace (Z.log2 m - 52) with 0 by lia. rewrite Z.pow_0_r, Z.div_1_r. reflexivity.
  - eexists. split; [f_equal; lia|].
    rewrite iter_shr_1_div by (rewrite shr_record_of_loc_m; lia).
    rewrite shr_record_of_loc_m. f_equal. f_equal. lia.
Qed.

(** Rounding a mantissa of at least 53 bits whose value is in the normal
    range: the result is a normal number of the same binary order or the
    next one. *)
Lemma binary_round_aux_normal s m e l :
  0 < m -> 52 <= Z.log2 m ->
  -1021 <= Z.log2 m + 1 + e -> Z.log2 m + 1 + e <= 1023 ->
  normal s (Z.log2 m + 1 + e) (binary_round_aux 53 1024 s m e l)
  \/ normal s (Z.log2 m + 1 + e + 1) (binary_round_aux 53 1024 s m e l).
Proof.
  intros Hm Hd Hlo Hhi. unfold binary_round_aux.
  destruct (shr_fexp_normal m e l Hm Hd Hlo) as (r & Hr & Hrm).
  rewrite Hr.
  set (m1 := shr_m r) in *.
  assert (Hm1 : Z.log2 m1 = 52).
  { rewrite Hrm, log2_div_pow2 by lia. lia. }
  assert (Hm1pos : 0 < m1).
  { destruct (Z.lt_ge_cases 0 m1) as [H|H]; [assumption|].
    rewrite Z.log2_nonpos in Hm1 by lia. discriminate Hm1. }
  set (m2 := round_nearest_even m1 (loc_of_shr_record r)).
  assert (Hm2 : m2 = m1 \/ m2 = m1 + 1) by apply round_nearest_even_cases.
  assert (Hb : 2 ^ 52 <= m1 < 2 ^ 53).
  { pose proof (Z.log2_spec m1 Hm1pos) as Hs. rewrite Hm1 in Hs.
    change (Z.succ 52) with 53 in Hs. exact Hs. }
  assert (Hm2cases : Z.log2 m2 = 52 \/ m2 = 2 ^ 53).
  { destruct Hm2 as [-> | ->]; [left; assumption|].
    destruct (Z.eq_dec (m1 + 1) (2 ^ 53)) as [Heq|Hne]; [right; assumption|].
    left. apply Z.log2_unique; [lia|]. change (52 + 1) with 53. lia. }
  destruct Hm2cases as [H52 | H53].
  - assert (Hm2pos : 0 < m2) by lia.
    destruct (shr_fexp_normal m2 (Z.log2 m + 1 + e - 53) loc_Exact Hm2pos)
      as (r2 & Hr2 & Hr2m); [lia | lia |].
    rewrite Hr2, Hr2m, H52. replace (52 - 52) with 0 by lia.
    rewrite Z.pow_0_r, Z.div_1_r.
    destruct m2 as [|p2|p2]; try lia.
    replace (52 + 1 + (Z.log2 m + 1 + e - 53) - 53 <=? 1024 - 53) with true
      by (symmetry; apply Z.leb_le; lia).
    left. exists p2. split; [f_equal; lia | assumption].
  - assert (Hm2pos : 0 < m2) by (rewrite H53; reflexivity).
    assert (Hl2 : Z.log2 m2 = 53) by (rewrite H53; reflexivity).
    destruct (shr_fexp_normal m2 (Z.log2 m + 1 + e - 53) loc_Exact Hm2pos)
      as (r2 & Hr2 & Hr2m); [lia | lia |].
    rewrite Hr2, Hr2m, Hl2, H53. change (2 ^ 53 / 2 ^ (53 - 52)) with (2 ^ 52).
    change (2 ^ 52) with (Z.pos (Z.to_pos (2 ^ 52))). cbv beta iota.
    replace (53 + 1 + (Z.log2 m + 1 + e - 53) - 53 <=? 1024 - 53) with true
      by (symmetry; apply Z.leb_le; lia).
    right. eexists. split; [f_equal; lia | reflexivity].
Qed.

Lemma log2_52_bounds m : Z.log2 (Zpos m) = 52 -> 2 ^ 52 <= Zpos m < 2 ^ 53.
Proof.
  intros H. pose proof (Z.log2_spec (Zpos m) eq_refl) as Hs.
  rewrite H in Hs. exact Hs.
Qed.

Lemma pos_iter_xO m k : Zpos (Pos.iter xO m k) = Zpos m * 2 ^ Zpos k.
Proof.
  change (Pos.iter xO m k) with (shift_pos k m).
  rewrite shift_pos_correct. change (Z.pow_pos 2 k) with (2 ^ Zpos k). lia.
Qed.

(** Rounding an integer mantissa at exponent 0. *)
Lemma binary_round_normal s m :
  Zpos m < 2 ^ 64 ->
  exists k, 1 <= k <= 65 /\ normal s k (binary_round 53 1024 s m 0).
Proof.
  intros Hm. unfold binary_round.
  pose proof (Zdigits2_log2 (Zpos m) eq_refl) as Hd. cbn [Zdigits2] in Hd.
  rewrite Hd, Z.add_0_r.
  assert (Hl0 : 0 <= Z.log2 (Zpos m)) by apply Z.log2_nonneg.
  assert (Hl1 : Z.log2 (Zpos m) < 64) by (apply Z.log2_lt_pow2; lia).
  assert (Hf : fexp 53 1024 (Z.log2 (Zpos m) + 1) = Z.log2 (Zpos m) + 1 - 53).
  { unfold fexp, emin. lia. }
  rewrite Hf. unfold shl_align.
  destruct (Z.log2 (Z.pos m) + 1 - 53 - 0) as [|p|p] eqn:Hs.
  - destruct (binary_round_aux_normal s (Zpos m) 0 loc_Exact) as [H|H];
      try lia; eexists; (split; [|exact H]); lia.
  - destruct (binary_round_aux_normal s (Zpos m) 0 loc_Exact) as [H|H];
      try lia; eexists; (split; [|exact H]); lia.
  - assert (Hlog : Z.log2 (Zpos (Pos.iter xO m p)) = 52).
    { rewrite pos_iter_xO, Z.log2_mul_pow2 by lia. lia. }
    destruct (binary_round_aux_normal s (Zpos (Pos.iter xO m p))
                (Z.log2 (Zpos m) + 1 - 53) loc_Exact) as [H|H];
      try lia; rewrite Hlog in H; eexists; (split; [|exact H]); lia.
Qed.

Lemma of_Z_pos_normal z :
  0 < z < 2 ^ 64 -> exists k, 1 <= k <= 65 /\ normal false k (F64.of_Z z).
Proof.
  intros Hz. destruct z as [|p|p]; try lia.
  apply binary_round_normal. lia.
Qed.

Lemma of_Z_bounded z : - 2 ^ 64 < z < 2 ^ 64 -> bounded 1 65 (F64.of_Z z).
Proof.
  intros Hz. destruct z as [|p|p].
  - left. exists false. reflexivity.
  - right. exists false. apply binary_round_normal. lia.
  - right. exists true. apply (binary_round_normal true p). lia.
Qed.

Lemma div_core_normal m1 e1 m2 e2 :
  Z.log2 (Zpos m1) = 52 -> Z.log2 (Zpos m2) = 52 -> -1021 <= e1 - e2 ->
  exists q l,
    SFdiv_core_binary 53 1024 (Zpos m1) e1 (Zpos m2) e2 = (q, e1 - e2 - 53, l)
    /\ 2 ^ 52 <= q < 2 ^ 54.
Proof.
  intros H1 H2 He. unfold SFdiv_core_binary.
  rewrite !Zdigits2_log2 by reflexivity. rewrite H1, H2.
  assert (Hf : fexp 53 1024 (52 + 1 + e1 - (52 + 1 + e2)) = e1 - e2 - 53).
  { unfold fexp, emin. lia. }
  rewrite Hf.
  replace (Z.min (e1 - e2 - 53) (e1 - e2)) with (e1 - e2 - 53) by lia.
  replace (e1 - e2 - (e1 - e2 - 53)) with 53 by lia.
  cbv beta iota zeta.
  rewrite Z.shiftl_mul_pow2 by lia.
  pose proof (log2_52_bounds m1 H1) as B1.
  pose proof (log2_52_bounds m2 H2) as B2.
  pose proof (Z_div_mod (Zpos m1 * 2 ^ 53) (Zpos m2) eq_refl) as Hdm.
  destruct (Z.div_eucl (Zpos m1 * 2 ^ 53) (Zpos m2)) as [q r] eqn:Hqr.
  exists q, (new_location (Zpos m2) r). split; [reflexivity|].
  destruct Hdm as [Heq Hr].
  assert (P52 : 2 ^ 52 = 4503599627370496) by reflexivity.
  assert (P53 : 2 ^ 53 = 9007199254740992) by reflexivity.
  assert (P54 : 2 ^ 54 = 18014398509481984) by reflexivity.
  rewrite P52, P53, P54 in *. nia.
Qed.

Lemma div_normal s1 k1 s2 k2 x y :
  normal s1 k1 x -> normal s2 k2 y ->
  -1021 <= k1 - k2 -> k1 - k2 + 1 <= 1023 ->
  exists k, k1 - k2 <= k <= k1 - k2 + 2 /\ normal (xorb s1 s2) k (F64.div x y).
Proof.
  intros (m1 & -> & H1) (m2 & -> & H2) Hlo Hhi.
  unfold F64.div, SFdiv.
  destruct (div_core_normal m1 (k1 - 53) m2 (k2 - 53) H1 H2) as (q & l & Hc & Hq);
    [lia|].
  change F64.prec with 53. change F64.emax with 1024. rewrite Hc.
  assert (Hqpos : 0 < q) by (pose proof (Z.pow_pos_nonneg 2 52); lia).
  assert (Hl52 : 52 <= Z.log2 q) by (apply Z.log2_le_pow2; lia).
  assert (Hl54 : Z.log2 q < 54) by (apply Z.log2_lt_pow2; lia).
  destruct (binary_round_aux_normal (xorb s1 s2) q (k1 - 53 - (k2 - 53) - 53) l)
    as [H|H]; try lia; eexists; (split; [|exact H]); lia.
Qed.

Lemma mul_normal s1 k1 s2 k2 x y :
  normal s1 k1 x -> normal s2 k2 y ->
  -1021 <= k1 + k2 - 1 -> k1 + k2 <= 1023 ->
  exists k, k1 + k2 - 1 <= k <= k1 + k2 + 1 /\ normal (xorb s1 s2) k (F64.mul x y).
Proof.
  intros (m1 & -> & H1) (m2 & -> & H2) Hlo Hhi.
  unfold F64.mul, SFmul.
  pose proof (log2_52_bounds m1 H1) as B1.
  pose proof (log2_52_bounds m2 H2) as B2.
  assert (P52 : 2 ^ 52 = 4503599627370496) by reflexivity.
  assert (P53 : 2 ^ 53 = 9007199254740992) by reflexivity.
  assert (Hl : 104 <= Z.log2 (Zpos (m1 * m2)) < 106).
  { rewrite Pos2Z.inj_mul. split.
    - apply Z.log2_le_pow2; [lia|].
      change (2 ^ 104) with (4503599627370496 * 4503599627370496). nia.
    - apply Z.log2_lt_pow2; [lia|].
      change (2 ^ 106) with (9007199254740992 * 9007199254740992). nia. }
  destruct (binary_round_aux_normal (xorb s1 s2) (Zpos (m1 * m2))
              (k1 - 53 + (k2 - 53)) loc_Exact)
    as [H|H]; try lia; eexists; (split; [|exact H]); lia.
Qed.

Lemma bounded_finite lo hi f : bounded lo hi f -> F64.is_finite f = true.
Proof.
  intros [[s ->] | (s & k & _ & m & -> & _)]; reflexivity.
Qed.

Lemma div_bounded lo hi s2 k2 x y :
  bounded lo hi x -> normal s2 k2 y ->
  -1021 <= lo - k2 -> hi - k2 + 1 <= 1023 ->
  bounded (lo - k2) (hi - k2 + 2) (F64.div x y).
Proof.
  intros [[s ->] | (s & k & Hk & Hx)] Hy Hlo Hhi.
  - destruct Hy as (m & -> & _). left. eexists. reflexivity.
  - destruct (div_normal s k s2 k2 x y Hx Hy) as (k' & Hk' & Hn); try lia.
    right. exists (xorb s s2), k'. split; [lia | assumption].
Qed.

Lemma mul_bounded lo hi s2 k2 x y :
  bounded lo hi x -> normal s2 k2 y ->
  -1021 <= lo + k2 - 1 -> hi + k2 <= 1023 ->
  bounded (lo + k2 - 1) (hi + k2 + 1) (F64.mul x y).
Proof.
  intros [[s ->] | (s & k & Hk & Hx)] Hy Hlo Hhi.
  - destruct Hy as (m & -> & _). left. eexists. reflexivity.
  - destruct (mul_normal s k s2 k2 x y Hx Hy) as (k' & Hk' & Hn); try lia.
    right. exists (xorb s s2), k'. split; [lia | assumption].
Qed.

Lemma rint_bounded lo hi f :
  bounded lo hi f -> lo <= 1 -> 65 <= hi -> bounded lo hi (F64.rint f).
Proof.
  intros [[s ->] | (s & k & Hk & m & -> & Hm)] Hlo Hhi.
  - left. exists s. reflexivity.
  - unfold F64.rint. destruct (k - 53) as [|p|p] eqn:He.
    + right. exists s, k. split; [assumption|]. exists m. rewrite He. auto.
    + right. exists s, k. split; [assumption|]. exists m. rewrite He. auto.
    + pose proof (log2_52_bounds m Hm) as Bm.
      assert (P53 : 2 ^ 53 = 9007199254740992) by reflexivity.
      assert (Hd : 2 <= 2 ^ Zpos p).
      { change 2 with (2 ^ 1) at 1. apply Z.pow_le_mono_r; lia. }
      set (d := 2 ^ Zpos p) in *.
      assert (Hq : 0 <= Zpos m / d < 2 ^ 52).
      { split; [apply Z.div_pos; lia|].
        apply Z.div_lt_upper_bound; [lia|].
        change (2 ^ 52) with 4503599627370496. nia. }
      set (q := Zpos m / d) in *.
      set (n := match 2 * (Zpos m mod d) ?= d with
                | Eq => if Z.even q then q else q + 1
                | Lt => q
                | Gt => q + 1
                end).
      assert (Hn : 0 <= n <= 2 ^ 52).
      { subst n. destruct (2 * (Zpos m mod d) ?= d); [destruct (Z.even q)| |]; lia. }
      change F64.prec with 53. change F64.emax with 1024.
      assert (P52 : 2 ^ 52 = 4503599627370496) by reflexivity.
      destruct n as [|np|np] eqn:Hnp; try lia.
      * left. exists s. destruct s; reflexivity.
      * destruct (binary_round_normal s np) as (k' & Hk' & Hn');
          [change (2 ^ 64) with 18446744073709551616; lia|].
        right. exists s, k'. split; [lia|].
        destruct s; exact Hn'.
Qed.

(** A 53-bit mantissa in the normal range is not rounded. *)
Lemma binary_round_aux_exact s m e :
  Z.log2 (Zpos m) = 52 -> -1074 <= e <= 971 ->
  binary_round_aux 53 1024 s (Zpos m) e loc_Exact = S754_finite s m e.
Proof.
  intros Hl He. unfold binary_round_aux, shr_fexp.
  rewrite Zdigits2_log2, Hl by reflexivity.
  assert (Hf : fexp 53 1024 (52 + 1 + e) = e) by (unfold fexp, emin; lia).
  rewrite Hf, Z.sub_diag. cbn [shr shr_record_of_loc loc_of_shr_record shr_m shr_r shr_s
                               round_nearest_even].
  rewrite Zdigits2_log2, Hl by reflexivity.
  rewrite Hf, Z.sub_diag. cbn [shr shr_record_of_loc shr_m].
  replace (e <=? 1024 - 53) with true by (symmetry; apply Z.leb_le; lia).
  reflexivity.
Qed.

(** An integer below 2^53 converts to itself, shifted to 53 bits. *)
Lemma binary_round_small s m :
  Zpos m < 2 ^ 53 ->
  exists m' p,
    binary_round 53 1024 s m 0 = S754_finite s m' (- p)
    /\ 0 <= p <= 52 /\ Zpos m' = Zpos m * 2 ^ p /\ Z.log2 (Zpos m') = 52.
Proof.
  intros Hm. unfold binary_round.
  pose proof (Zdigits2_log2 (Zpos m) eq_refl) as Hd. cbn [Zdigits2] in Hd.
  rewrite Hd, Z.add_0_r.
  assert (Hl0 : 0 <= Z.log2 (Zpos m)) by apply Z.log2_nonneg.
  assert (Hl1 : Z.log2 (Zpos m) < 53) by (apply Z.log2_lt_pow2; lia).
  assert (Hf : fexp 53 1024 (Z.log2 (Zpos m) + 1) = Z.log2 (Zpos m) + 1 - 53).
  { unfold fexp, emin. lia. }
  rewrite Hf. unfold shl_align.
  destruct (Z.log2 (Z.pos m) + 1 - 53 - 0) as [|p|p] eqn:Hs; try lia.
  - assert (Hl : Z.log2 (Zpos m) = 52) by lia.
    rewrite binary_round_aux_exact by (try exact Hl; lia).
    exists m, 0. split; [reflexivity|]. split; [lia|]. split; [lia|exact Hl].
  - assert (Hlog : Z.log2 (Zpos (Pos.iter xO m p)) = 52).
    { rewrite pos_iter_xO, Z.log2_mul_pow2 by lia. lia. }
    rewrite binary_round_aux_exact by (try exact Hlog; lia).
    exists (Pos.iter xO m p), (Zpos p).
    split; [f_equal; lia|]. split; [lia|]. split; [apply pos_iter_xO|exact Hlog].
Qed.

Lemma trunc_binary_round_small s m :
  Zpos m < 2 ^ 53 ->
  F64.trunc (binary_round 53 1024 s m 0) = Some (cond_Zopp s (Zpos m)).
Proof.
  intros Hm. destruct (binary_round_small s m Hm) as (m' & p & -> & Hp & Hm' & _).
  unfold F64.trunc. f_equal. f_equal.
  destruct p as [|p|p]; try lia.
  - cbn [Z.opp]. rewrite Hm'. cbn. lia.
  - cbn [Z.opp]. rewrite Hm'. apply Z.div_mul.
    apply Z.pow_nonzero; lia.
Qed.

(** Truncation undoes the conversion of an integer of at most 53 bits. *)
Lemma trunc_of_Z z :
  - 2 ^ 53 < z < 2 ^ 53 -> F64.trunc (F64.of_Z z) = Some z.
Proof.
  intros Hz. destruct z as [|p|p].
  - reflexivity.
  - apply (trunc_binary_round_small false p). lia.
  - apply (trunc_binary_round_small true p). lia.
Qed.

Lemma cast_int64_of_Z z :
  - 2 ^ 53 < z < 2 ^ 53 -> cast_int64 (F64.of_Z z) = z.
Proof.
  intros Hz. unfold cast_int64. rewrite trunc_of_Z by exact Hz.
  replace (in_int64 z) with true; [reflexivity|].
  symmetry. unfold in_int64, int64_min, int64_max.
  apply andb_true_intro. split; apply Z.leb_le; lia.
Qed.

Lemma wrap64_range z : - 2 ^ 63 <= wrap64 z < 2 ^ 63.
Proof.
  unfold wrap64.
  pose proof (Z.mod_pos_bound (z + 2 ^ 63) (2 ^ 64) eq_refl) as H.
  change (2 ^ 64) with (2 * 2 ^ 63) in *. lia.
Qed.

Lemma hundred_normal : normal false 7 (F64.of_Z 100).
Proof. eexists. split; reflexivity. Qed.

(** The percentage of line 76, before it is rounded, and its hundredfold
    are within the range of binary64. *)
Lemma engagement_percent_bounded likes comments views :
  0 < views -> in_int64 views = true ->
  bounded (-52) 82
    (F64.mul (F64.mul (F64.div (F64.of_Z (wrap64 (likes + comments)))
                               (F64.of_Z views))
                      (F64.of_Z 100))
             (F64.of_Z 100)).
Proof.
  intros Hv Hr. unfold in_int64, int64_max in Hr.
  apply andb_true_iff in Hr. destruct Hr as [_ Hr]. apply Z.leb_le in Hr.
  assert (P63 : 2 ^ 63 = 9223372036854775808) by reflexivity.
  assert (P64 : 2 ^ 64 = 18446744073709551616) by reflexivity.
  pose proof (wrap64_range (likes + comments)) as Ha.
  destruct (of_Z_pos_normal views) as (kv & Hkv & Hnv); [lia|].
  assert (Hx : bounded 1 65 (F64.of_Z (wrap64 (likes + comments))))
    by (apply of_Z_bounded; lia).
  apply (mul_bounded (-58) 74 false 7 _ _); [|exact hundred_normal|lia|lia].
  apply (mul_bounded (-64) 66 false 7 _ _); [|exact hundred_normal|lia|lia].
  destruct Hx as [[s ->] | (s & k & Hk & Hx)].
  - destruct Hnv as (m & -> & _). left. eexists. reflexivity.
  - destruct (div_normal s k false kv _ _ Hx Hnv) as (k' & Hk' & Hn); try lia.
    right. exists (xorb s false), k'. split; [lia | exact Hn].
Qed.

(** The engagement rate of a record with a positive int64 number of views
    is a finite number: neither NaN nor an infinity. *)
Lemma engagement_finite likes comments views :
  0 < views -> in_int64 views = true ->
  F64.is_finite (engagement_of likes comments views) = true.
Proof.
  intros Hv Hr.
  unfold engagement_of, F64.round2, F64.hundred.
  eapply bounded_finite.
  eapply div_bounded with (lo := -52) (hi := 82); [|exact hundred_normal|lia|lia].
  apply rint_bounded; [|lia|lia].
  apply engagement_percent_bounded; assumption.
Qed.


(* ===================================================================== *)
(** * Frames: lookups, assignments, boolean indexing *)
(* ===================================================================== *)

Lemma getitem_column_is df c s : getitem df c = ok s -> column_is df c s.
Proof.
  unfold getitem, column_is, ok, throw.
  destruct (filter (fun x => String.eqb c (fst x)) (columns df))
    as [|x [|y l]] eqn:Hf; try discriminate.
  intros [= <-].
  assert (Hx : In x (filter (fun x => String.eqb c (fst x)) (columns df)))
    by (rewrite Hf; left; reflexivity).
  apply filter_In in Hx. destruct Hx as [Hin Heq].
  apply String.eqb_eq in Heq. destruct x as [c' s0]. simpl in *. subst c'.
  split; [assumption|].
  intros s' Hs'.
  assert (H' : In (c, s') (filter (fun x => String.eqb c (fst x)) (columns df))).
  { apply filter_In. split; [assumption|]. simpl. apply String.eqb_refl. }
  rewrite Hf in H'. destruct H' as [H'|[]]. congruence.
Qed.

Lemma column_is_getitem df c s s' :
  column_is df c s -> getitem df c = ok s' -> s' = s.
Proof.
  intros [_ Hu] Hg. apply getitem_column_is in Hg. destruct Hg as [Hin _]. auto.
Qed.

Lemma has_label_In df c : has_label df c = true <-> In c (labels df).
Proof.
  unfold has_label. rewrite existsb_exists. split.
  - intros (x & Hin & Heq). apply String.eqb_eq in Heq. subst. assumption.
  - intros H. exists c. split; [assumption | apply String.eqb_refl].
Qed.

Lemma setitem_nrows df c s : nrows (setitem df c s) = nrows df.
Proof. reflexivity. Qed.

Lemma setitem_In_other df c s c' s' :
  c <> c' -> In (c, s) (columns df) -> In (c, s) (columns (setitem df c' s')).
Proof.
  intros Hne Hin. unfold setitem; cbn [columns].
  destruct (has_label df c').
  - apply in_map_iff. exists (c, s). split; [|assumption]. cbn [fst].
    destruct (String.eqb c' c) eqn:He; [|reflexivity].
    apply String.eqb_eq in He. congruence.
  - apply in_or_app. left. assumption.
Qed.

Lemma setitem_In_inv df c s c' s' :
  In (c, s) (columns (setitem df c' s')) ->
  (c = c' /\ s = s') \/ (c <> c' /\ In (c, s) (columns df)).
Proof.
  unfold setitem; cbn [columns].
  destruct (has_label df c') eqn:Hl.
  - intros H. apply in_map_iff in H. destruct H as ([c0 s0] & Heq & Hin).
    cbn [fst] in Heq. destruct (String.eqb c' c0) eqn:He.
    + apply String.eqb_eq in He. injection Heq as <- <-. left. auto.
    + apply String.eqb_neq in He. injection Heq as <- <-. right. split; [congruence|assumption].
  - intros H. apply in_app_or in H. destruct H as [H|[H|[]]].
    + right. split; [|assumption]. intros ->.
      assert (has_label df c' = true); [|congruence].
      apply has_label_In. unfold labels. apply in_map_iff. exists (c', s). auto.
    + injection H as <- <-. left. auto.
Qed.

Lemma setitem_In_same df c s : In (c, s) (columns (setitem df c s)).
Proof.
  unfold setitem; cbn [columns]. destruct (has_label df c) eqn:Hl.
  - apply has_label_In in Hl. unfold labels in Hl. apply in_map_iff in Hl.
    destruct Hl as ([c0 s0] & Heq & Hin). cbn [fst] in Heq. subst c0.
    apply in_map_iff. exists (c, s0). split; [|assumption].
    cbn [fst]. rewrite String.eqb_refl. reflexivity.
  - apply in_or_app. right. left. reflexivity.
Qed.

Lemma setitem_column_is_same df c s : column_is (setitem df c s) c s.
Proof.
  split; [apply setitem_In_same|].
  intros s' H. apply setitem_In_inv in H. destruct H as [[_ H]|[H _]]; congruence.
Qed.

Lemma setitem_column_is_other df c s c' s' :
  c <> c' -> column_is df c s -> column_is (setitem df c' s') c s.
Proof.
  intros Hne [Hin Hu]. split; [apply setitem_In_other; assumption|].
  intros s0 H. apply setitem_In_inv in H. destruct H as [[H _]|[_ H]]; [congruence|auto].
Qed.

Lemma setitem_labels df c s c' :
  In c (labels df) -> In c (labels (setitem df c' s)).
Proof.
  unfold labels, setitem; cbn [columns]. intros H.
  destruct (has_label df c').
  - rewrite map_map. apply in_map_iff in H. destruct H as (x & Hx & Hin).
    apply in_map_iff. exists x. split; [|assumption].
    destruct (String.eqb c' (fst x)); assumption.
  - rewrite map_app. apply in_or_app. left. assumption.
Qed.

Lemma filter_rows_In mask df c s :
  In (c, s) (columns df) -> In (c, series_filter mask s) (columns (filter_rows mask df)).
Proof.
  intros H. unfold filter_rows; cbn [columns].
  apply in_map_iff. exists (c, s). auto.
Qed.

Lemma filter_rows_In_inv mask df c s' :
  In (c, s') (columns (filter_rows mask df)) ->
  exists s, s' = series_filter mask s /\ In (c, s) (columns df).
Proof.
  unfold filter_rows; cbn [columns]. intros H.
  apply in_map_iff in H. destruct H as ([c0 s0] & Heq & Hin).
  injection Heq as <- <-. eauto.
Qed.

Lemma filter_rows_column_is mask df c s :
  column_is df c s -> column_is (filter_rows mask df) c (series_filter mask s).
Proof.
  intros [Hin Hu]. split; [apply filter_rows_In; assumption|].
  intros s' H. apply filter_rows_In_inv in H. destruct H as (s0 & -> & H0).
  rewrite (Hu _ H0). reflexivity.
Qed.

Lemma filter_rows_labels mask df : labels (filter_rows mask df) = labels df.
Proof.
  unfold labels, filter_rows; cbn [columns]. rewrite map_map. reflexivity.
Qed.

(* ===================================================================== *)
(** * Schema normalization (lines 35-64) *)
(* ===================================================================== *)

Lemma dict_get_set d k v c :
  dict_get (dict_set d k v) c = if String.eqb c k then Some v else dict_get d c.
Proof.
  induction d as [|[k' v'] d IH]; cbn [dict_set dict_get].
  - reflexivity.
  - destruct (String.eqb k k') eqn:Hk; cbn [dict_get].
    + apply String.eqb_eq in Hk. subst k'.
      destruct (String.eqb c k); reflexivity.
    + rewrite IH. destruct (String.eqb c k') eqn:Hc; [|reflexivity].
      apply String.eqb_eq in Hc. subst k'.
      rewrite String.eqb_sym, Hk. reflexivity.
Qed.

(** The loop leaves, for each column it visited, the canonical name of that
    column if it has one. *)
Lemma column_mapping_from cols : forall d c,
  dict_get
    (fold_left
       (fun mapping col =>
          match canonical (col_key col) with
          | Some x => dict_set mapping col x
          | None => mapping
          end) cols d) c
  = if existsb (String.eqb c) cols
    then match canonical (col_key c) with
         | Some x => Some x
         | None => dict_get d c
         end
    else dict_get d c.
Proof.
  induction cols as [|col cols IH]; intros d c; cbn [fold_left existsb].
  - reflexivity.
  - rewrite IH. destruct (String.eqb c col) eqn:Hc; cbn [orb].
    + apply String.eqb_eq in Hc. subst col.
      destruct (canonical (col_key c)) as [x|] eqn:Hx.
      * destruct (existsb (String.eqb c) cols);
          [reflexivity | rewrite dict_get_set, String.eqb_refl; reflexivity].
      * destruct (existsb (String.eqb c) cols); reflexivity.
    + destruct (canonical (col_key col)) as [x|]; [|reflexivity].
      rewrite dict_get_set, Hc. reflexivity.
Qed.

Lemma column_mapping_get cols c :
  In c cols -> dict_get (column_mapping cols) c = canonical (col_key c).
Proof.
  intros Hin. unfold column_mapping. rewrite column_mapping_from.
  assert (H : existsb (String.eqb c) cols = true).
  { apply existsb_exists. exists c. split; [assumption | apply String.eqb_refl]. }
  rewrite H. destruct (canonical (col_key c)); reflexivity.
Qed.

(** Renaming gives every column its canonical name when its key is in the
    synonym table and leaves every other column under its own label, with
    its cells untouched. *)
Lemma rename_columns df :
  columns (rename (column_mapping (labels df)) df)
  = map (fun x => (renamed_label (fst x), snd x)) (columns df).
Proof.
  unfold rename; cbn [columns]. apply map_ext_in.
  intros [c s] Hin. cbn [fst snd].
  rewrite column_mapping_get.
  - reflexivity.
  - unfold labels. apply in_map_iff. exists (c, s). auto.
Qed.

Lemma ensure_column_nrows df col : nrows (ensure_column df col) = nrows df.
Proof.
  unfold ensure_column. destruct (has_label df col); [reflexivity|].
  destruct (String.eqb col "category"); reflexivity.
Qed.

Lemma ensure_column_In df col x :
  In x (columns df) -> In x (columns (ensure_column df col)).
Proof.
  unfold ensure_column. destruct (has_label df col) eqn:Hl; [auto|].
  intros Hin.
  assert (Happ : forall s, In x (columns (setitem df col s))).
  { intros s. unfold setitem; cbn [columns]. rewrite Hl. apply in_or_app. auto. }
  destruct (String.eqb col "category") eqn:He.
  - apply String.eqb_eq in He. subst col. apply Happ.
  - apply Happ.
Qed.

Lemma ensure_column_new df col :
  has_label df col = false ->
  columns (ensure_column df col)
  = (columns df ++ [(col, default_series (nrows df) col)])%list.
Proof.
  intros Hl. unfold ensure_column, default_series. rewrite Hl.
  destruct (String.eqb col "category") eqn:He.
  - apply String.eqb_eq in He. subst col.
    unfold setitem; cbn [columns]. rewrite Hl. reflexivity.
  - unfold setitem; cbn [columns]. rewrite Hl. reflexivity.
Qed.

Lemma ensure_column_has_label df col c :
  has_label (ensure_column df col) c = has_label df c || String.eqb c col.
Proof.
  destruct (has_label df col) eqn:Hl.
  - unfold ensure_column. rewrite Hl.
    destruct (String.eqb c col) eqn:He; [|rewrite orb_false_r; reflexivity].
    apply String.eqb_eq in He. subst. rewrite Hl. reflexivity.
  - unfold has_label, labels in *. rewrite (ensure_column_new df col Hl).
    rewrite map_app, existsb_app. cbn. rewrite orb_false_r. reflexivity.
Qed.

Lemma ensure_column_getitem_other df col c :
  c <> col -> getitem (ensure_column df col) c = getitem df c.
Proof.
  intros Hne. destruct (has_label df col) eqn:Hl.
  - unfold ensure_column. rewrite Hl. reflexivity.
  - unfold getitem. rewrite (ensure_column_new df col Hl), filter_app.
    cbn [filter fst]. apply String.eqb_neq in Hne. rewrite Hne, app_nil_r.
    reflexivity.
Qed.

Lemma ensure_column_getitem_new df col :
  has_label df col = false ->
  getitem (ensure_column df col) col = ok (default_series (nrows df) col).
Proof.
  intros Hl. unfold getitem. rewrite (ensure_column_new df col Hl), filter_app.
  assert (Hnone : filter (fun x => String.eqb col (fst x)) (columns df) = []).
  { destruct (filter (fun x => String.eqb col (fst x)) (columns df)) as [|x l] eqn:Hf;
      [reflexivity|].
    assert (Hx : In x (filter (fun x => String.eqb col (fst x)) (columns df)))
      by (rewrite Hf; left; reflexivity).
    apply filter_In in Hx. destruct Hx as [Hin He].
    apply String.eqb_eq in He.
    assert (has_label df col = true); [|congruence].
    apply has_label_In. unfold labels. apply in_map_iff. exists x. auto. }
  rewrite Hnone. cbn [filter fst app]. rewrite String.eqb_refl. reflexivity.
Qed.


Lemma ensure_all_In cols : forall df x,
  In x (columns df) -> In x (columns (fold_left ensure_column cols df)).
Proof.
  induction cols as [|c cols IH]; intros df x H; cbn [fold_left]; [assumption|].
  apply IH. apply ensure_column_In. assumption.
Qed.

Lemma ensure_all_getitem_other cols : forall df c,
  ~ In c cols -> getitem (fold_left ensure_column cols df) c = getitem df c.
Proof.
  induction cols as [|c' cols IH]; intros df c Hn; cbn [fold_left]; [reflexivity|].
  rewrite IH by (intros H; apply Hn; right; assumption).
  apply ensure_column_getitem_other. intros ->. apply Hn. left. reflexivity.
Qed.

Lemma ensure_all_getitem_new cols : forall df c,
  NoDup cols -> In c cols -> has_label df c = false ->
  getitem (fold_left ensure_column cols df) c = ok (default_series (nrows df) c).
Proof.
  induction cols as [|c' cols IH]; intros df c Hnd Hin Hl; [destruct Hin|].
  cbn [fold_left]. inversion Hnd as [|? ? Hnotin Hnd']; subst.
  destruct (String.eqb c c') eqn:He.
  - apply String.eqb_eq in He. subst c'.
    rewrite ensure_all_getitem_other by assumption.
    apply ensure_column_getitem_new. assumption.
  - apply String.eqb_neq in He. destruct Hin as [Hin|Hin]; [congruence|].
    rewrite IH; try assumption.
    + rewrite ensure_column_nrows. reflexivity.
    + rewrite ensure_column_has_label, Hl.
      apply String.eqb_neq in He. rewrite He. reflexivity.
Qed.

Lemma required_cols_NoDup : NoDup required_cols.
Proof.
  unfold required_cols.
  repeat (constructor; [cbn; intros H; repeat destruct H as [H|H]; try discriminate H; exact H|]).
  constructor.
Qed.

(** C5, as the code has it.  A canonical column among title, category,
    views, likes, comments, duration that no input column is renamed to is
    added by the schema normalization, which cannot fail: category is
    filled with the string "Unknown", and each of the others, title
    included, with the integer 0. *)
Theorem missing_column_synthesized (df : DataFrame) (col : string) :
  In col required_cols ->
  has_label (rename (column_mapping (labels df)) df) col = false ->
  getitem (normalize_schema df) col
  = ok (if String.eqb col "category"
        then Object (repeat (PStr "Unknown") (nrows df))
        else Int64 (repeat 0 (nrows df))).
Proof.
  intros Hin Hl. unfold normalize_schema.
  rewrite (ensure_all_getitem_new required_cols _ col required_cols_NoDup Hin Hl).
  reflexivity.
Qed.

Lemma missing_column_synthesized_witness :
  In "title" required_cols
  /\ has_label (rename (column_mapping (labels sample_frame)) sample_frame) "title"
     = false
  /\ getitem (normalize_schema sample_frame) "title" = ok (Int64 [0; 0; 0]).
Proof.
  split; [cbn; tauto|]. split; [reflexivity|].
  apply (missing_column_synthesized sample_frame "title").
  - cbn; tauto.
  - reflexivity.
Defined.

(** C5 as stated fails for title: the column added for a missing title
    holds the integer 0 in every row, not the empty string. *)
Lemma missing_title_is_zero_not_empty :
  has_label (rename (column_mapping (labels sample_frame)) sample_frame) "title"
  = false
  /\ getitem (normalize_schema sample_frame) "title" = ok (Int64 [0; 0; 0])
  /\ getitem (normalize_schema sample_frame) "title"
     <> ok (Object [PStr ""; PStr ""; PStr ""]).
Proof.
  assert (H : getitem (normalize_schema sample_frame) "title"
              = ok (Int64 [0; 0; 0])) by (vm_compute; reflexivity).
  split; [vm_compute; reflexivity|]. split; [exact H|].
  rewrite H. discriminate.
Qed.

(* ===================================================================== *)
(** * Columns outside the synonym table *)
(* ===================================================================== *)

Section Pipeline.

Variable parse_numeric : string -> option number.

Lemma clean_types_In df df1 c s :
  clean_types parse_numeric df = ok df1 ->
  ~ In c ["views"; "likes"; "comments"; "duration"] ->
  In (c, s) (columns df) -> In (c, s) (columns df1).
Proof.
  unfold clean_types, ok. intros H Hn Hin.
  repeat bind_inv H. injection H as <-.
  repeat (apply setitem_In_other; [intros ->; apply Hn; cbn; tauto|]).
  assumption.
Qed.

Lemma clean_types_labels df df1 c :
  clean_types parse_numeric df = ok df1 ->
  In c (labels df) -> In c (labels df1).
Proof.
  unfold clean_types, ok. intros H Hin.
  repeat bind_inv H. injection H as <-.
  repeat apply setitem_labels. assumption.
Qed.

Lemma astype_int_Int64 a r :
  astype_int a = ok r -> exists zs, r = Int64 zs.
Proof.
  destruct a as [l|l]; cbn [astype_int]; unfold ok, throw.
  - intros [= <-]. eauto.
  - destruct (forallb F64.is_finite l); [intros [= <-]; eauto | discriminate].
Qed.

(** After lines 67-70 the views are an int64 column. *)
Lemma clean_types_views df df1 :
  clean_types parse_numeric df = ok df1 ->
  exists views, column_is df1 "views" (Int64 views).
Proof.
  unfold clean_types. intros H.
  bind_inv H. rename x into sv, Hx into Gv.
  bind_inv H. rename x into cv, Hx into Cv.
  unfold coerce_int in Cv. apply astype_int_Int64 in Cv. destruct Cv as [views ->].
  repeat bind_inv H. unfold ok in H. injection H as <-.
  exists views.
  repeat (apply setitem_column_is_other; [discriminate|]).
  apply setitem_column_is_same.
Qed.

Lemma drop_invalid_In df df2 views c s :
  column_is df "views" (Int64 views) ->
  drop_invalid df = ok df2 ->
  In (c, s) (columns df) ->
  In (c, series_filter (map (fun v => 0 <? v) views) s) (columns df2).
Proof.
  unfold drop_invalid. intros Hv H Hin.
  bind_inv H. rename x into xv, Hx into Gv.
  rewrite (column_is_getitem _ _ _ _ Hv Gv) in H.
  cbn [series_gt_const rbind] in H. unfold ok in H. injection H as <-.
  apply filter_rows_In. assumption.
Qed.

Lemma drop_invalid_labels df df2 :
  drop_invalid df = ok df2 -> labels df2 = labels df.
Proof.
  unfold drop_invalid, ok. intros H.
  repeat bind_inv H. injection H as <-. apply filter_rows_labels.
Qed.

Lemma add_calculated_In df df3 c s :
  add_calculated df = ok df3 ->
  ~ In c derived_cols ->
  In (c, s) (columns df) -> In (c, s) (columns df3).
Proof.
  unfold add_calculated, ok. intros H Hn Hin.
  repeat bind_inv H. injection H as <-.
  repeat (apply setitem_In_other; [intros ->; apply Hn; cbn; tauto|]).
  assumption.
Qed.

Lemma add_calculated_labels df df3 c :
  add_calculated df = ok df3 ->
  In c (labels df) -> In c (labels df3).
Proof.
  unfold add_calculated, ok. intros H Hin.
  repeat bind_inv H. injection H as <-.
  repeat apply setitem_labels. assumption.
Qed.

Lemma unrecognized_not_cleaned c :
  canonical (col_key c) = None ->
  ~ In c ["views"; "likes"; "comments"; "duration"].
Proof.
  intros Hc Hin. cbn in Hin.
  repeat destruct Hin as [Hin|Hin]; try (subst c; vm_compute in Hc; discriminate Hc).
  exact Hin.
Qed.

(** C4, as the code has it.  An input column whose lowered, stripped name
    is not in the synonym table is not renamed and not dropped: its label
    is a label of the loaded data, and, unless that label is one of
    engagement_rate, duration_minutes and length_category (which the
    calculated fields overwrite), the column is still there with its cells
    in the rows that are kept, those whose cleaned views are positive. *)
Theorem unrecognized_column_retained (df df' : DataFrame) (c : string) (s : Series) :
  load_frame parse_numeric df = ok df' ->
  In (c, s) (columns df) ->
  canonical (col_key c) = None ->
  exists cleaned views,
    clean_types parse_numeric (normalize_schema df) = ok cleaned
    /\ column_is cleaned "views" (Int64 views)
    /\ In c (labels df')
    /\ (~ In c derived_cols ->
        In (c, series_filter (map (fun v => 0 <? v) views) s) (columns df')).
Proof.
  unfold load_frame. intros H Hin Hc.
  bind_inv H. rename x into df1, Hx into H1.
  bind_inv H. rename x into df2, Hx into H2.
  assert (H0 : In (c, s) (columns (normalize_schema df))).
  { unfold normalize_schema. apply ensure_all_In. rewrite rename_columns.
    apply in_map_iff. exists (c, s). split; [|assumption].
    cbn [fst snd]. unfold renamed_label. rewrite Hc. reflexivity. }
  pose proof (clean_types_In _ _ _ _ H1 (unrecognized_not_cleaned c Hc) H0) as Hin1.
  destruct (clean_types_views _ _ H1) as [views Hviews].
  pose proof (drop_invalid_In _ _ _ _ _ Hviews H2 Hin1) as Hin2.
  exists df1, views. split_conj; try assumption; try reflexivity.
  - apply (add_calculated_labels _ _ _ H).
    unfold labels. apply in_map_iff.
    exists (c, series_filter (map (fun v => 0 <? v) views) s). auto.
  - intros Hnd. eapply add_calculated_In; eassumption.
Qed.

End Pipeline.

(** The sample, loaded. *)
Lemma sample_frame_loaded :
  load_frame python_numeric_text sample_frame = ok sample_loaded.
Proof. vm_compute. reflexivity. Qed.

Lemma unrecognized_column_retained_witness :
  load_frame python_numeric_text sample_frame = ok sample_loaded
  /\ In ("description", Object [PStr "a"; PStr "b"; PStr "c"]) (columns sample_frame)
  /\ canonical (col_key "description") = None
  /\ exists cleaned views,
       clean_types python_numeric_text (normalize_schema sample_frame) = ok cleaned
       /\ column_is cleaned "views" (Int64 views)
       /\ In "description" (labels sample_loaded)
       /\ (~ In "description" derived_cols ->
           In ("description",
               series_filter (map (fun v => 0 <? v) views)
                 (Object [PStr "a"; PStr "b"; PStr "c"]))
              (columns sample_loaded)).
Proof.
  split; [exact sample_frame_loaded|].
  split; [cbn; tauto|]. split; [reflexivity|].
  apply (unrecognized_column_retained python_numeric_text sample_frame sample_loaded).
  - exact sample_frame_loaded.
  - cbn; tauto.
  - reflexivity.
Defined.

(** C4 as stated fails: the column [description], which no entry of the
    synonym table matches, is in the loaded data under its own name, with
    the cells of the two retained rows. *)
Lemma unrecognized_column_not_dropped :
  canonical (col_key "description") = None
  /\ load_frame python_numeric_text sample_frame = ok sample_loaded
  /\ getitem sample_loaded "description" = ok (Object [PStr "a"; PStr "c"]).
Proof. repeat split; vm_compute; reflexivity. Qed.

(* ===================================================================== *)
(** * Length buckets (lines 80-84) *)
(* ===================================================================== *)

(** C7. Minutes 5.0 are "Short (0-5 min)", 5.01 "Medium (5-15 min)", 30.0
    "Long (15-30 min)" and 30.01 "Very Long (30+ min)"; 0 minutes are in no
    interval and get no category. *)
Theorem length_bucket_boundaries :
  cut (Float64 [F64.of_decimal false 50 (-1);
                F64.of_decimal false 501 (-2);
                F64.of_decimal false 300 (-1);
                F64.of_decimal false 3001 (-2);
                F64.of_Z 0])
      length_bins length_labels
  = ok (Categorical [Some "Short (0-5 min)";
                     Some "Medium (5-15 min)";
                     Some "Long (15-30 min)";
                     Some "Very Long (30+ min)";
                     None]).
Proof. vm_compute. reflexivity. Qed.

(** The same on whole records: durations of 300, 1800 and 0 seconds. *)
Lemma length_bucket_of_records :
  rbind (load_frame python_numeric_text
           {| nrows := 3;
              columns := [("views", Int64 [7; 8; 9]);
                          ("duration", Int64 [300; 1800; 0])] |})
        (fun loaded => getitem loaded "length_category")
  = ok (Categorical [Some "Short (0-5 min)"; Some "Long (15-30 min)"; None]).
Proof. vm_compute. reflexivity. Qed.

(* ===================================================================== *)
(** * Numeric coercion (lines 67-69) *)
(* ===================================================================== *)

(** C6, where the code departs from it.  An infinite value is a
    successfully parsed number, [fillna(0)] leaves it in place, and
    [astype(int)] refuses it: the exception leaves [load_data]. *)
Theorem coerce_int_infinity_raises :
  (forall parse, coerce_int parse (Float64 [F64.of_Z 1500; F64.inf])
     = throw (Exn IntCastingNaNError
                "Cannot convert non-finite values (NA or inf) to integer"))
  /\ coerce_int python_numeric_text (Object [PStr "1500"; PStr "inf"])
     = throw (Exn IntCastingNaNError
                "Cannot convert non-finite values (NA or inf) to integer")
  /\ load_frame python_numeric_text infinite_views
     = throw (Exn IntCastingNaNError
                "Cannot convert non-finite values (NA or inf) to integer").
Proof. repeat split; vm_compute; reflexivity. Qed.

(* ===================================================================== *)
(** * Lists under a mask and in step *)
(* ===================================================================== *)

Lemma filter_mask_length {A} (mask : list bool) : forall (l : list A),
  List.length l = List.length mask ->
  List.length (filter_mask mask l) = count_true mask.
Proof.
  unfold count_true.
  induction mask as [|b mask IH]; intros [|a l] H; cbn in *; try reflexivity;
    try discriminate.
  injection H as H. destruct b; cbn; rewrite IH by assumption; reflexivity.
Qed.




Lemma map2_length {A B C} (f : A -> B -> C) : forall a b,
  List.length a = List.length b -> List.length (map2 f a b) = List.length a.
Proof.
  induction a as [|x a IH]; intros [|y b] H; cbn in *; try reflexivity;
    try discriminate.
  injection H as H. rewrite IH by assumption. reflexivity.
Qed.

Lemma mapM_length {A B} (f : A -> result B) (l : list A) (l' : list B) :
  mapM f l = inr l' -> List.length l' = List.length l.
Proof.
  intros H. apply mapM_ok_Forall2 in H. symmetry. eapply Forall2_length; eassumption.
Qed.

(* ===================================================================== *)
(** * The records [load_data] retains (lines 66-76) *)
(* ===================================================================== *)

Lemma series_filter_len mask s :
  series_len s = List.length mask ->
  series_len (series_filter mask s) = count_true mask.
Proof.
  destruct s as [l|l|l|l]; cbn [series_len series_filter];
    apply filter_mask_length.
Qed.







Lemma cells_length s : List.length (cells s) = series_len s.
Proof.
  destruct s as [l|l|l|l]; cbn [cells series_len]; try apply length_map; reflexivity.
Qed.


Section Retained.

Variable parse_numeric : string -> option number.






Lemma ensure_column_In_inv df col c s :
  In (c, s) (columns (ensure_column df col)) ->
  In (c, s) (columns df) \/ (c = col /\ s = default_series (nrows df) col).
Proof.
  destruct (has_label df col) eqn:Hl.
  - unfold ensure_column. rewrite Hl. auto.
  - rewrite (ensure_column_new df col Hl). intros H.
    apply in_app_or in H. destruct H as [H|[H|[]]]; [auto|].
    injection H as <- <-. auto.
Qed.

Lemma ensure_all_In_inv cols : forall df c s,
  In (c, s) (columns (fold_left ensure_column cols df)) ->
  In (c, s) (columns df) \/ (In c cols /\ s = default_series (nrows df) c).
Proof.
  induction cols as [|col cols IH]; intros df c s H; cbn [fold_left] in H; [auto|].
  apply IH in H. rewrite ensure_column_nrows in H.
  destruct H as [H|[H1 H2]].
  - apply ensure_column_In_inv in H. destruct H as [H|[-> ->]]; [auto|].
    right. split; [left; reflexivity | reflexivity].
  - right. split; [right; assumption | assumption].
Qed.






End Retained.

Lemma sample_frame_wf : wf sample_frame.
Proof. unfold wf. repeat constructor. Qed.

Lemma sample_frame_int64 : int64_input python_numeric_text sample_frame.
Proof.
  intros c s v z Hs Hv Hz. cbn in Hs.
  repeat (destruct Hs as [Hs|Hs]; [injection Hs as <- <-|]); try contradiction;
    cbn in Hv;
    repeat (destruct Hv as [Hv|Hv]; [subst v|]); try contradiction;
    vm_compute in Hz; try discriminate Hz; injection Hz as <-; reflexivity.
Qed.





(* ===================================================================== *)
(** * Coercion of finite cells *)
(* ===================================================================== *)

Section CoercionOfFiniteCells.

Variable parse_numeric : string -> option number.

Lemma fill_cast_float l :
  Forall (fun f => F64.is_nan f = true \/ F64.is_finite f = true) l ->
  astype_int (fillna0 (NumFloat64 l))
  = ok (Int64 (map (fun f => if F64.is_nan f then 0 else cast_int64 f) l)).
Proof.
  intros H. cbn [fillna0 astype_int].
  assert (Hall : forallb F64.is_finite
                   (map (fun f => if F64.is_nan f then F64.zero else f) l) = true).
  { apply forallb_forall. intros f Hf. apply in_map_iff in Hf.
    destruct Hf as (g & <- & Hg). rewrite Forall_forall in H.
    destruct (H g Hg) as [Hn|Hfin]; [rewrite Hn; reflexivity|].
    destruct (F64.is_nan g); [reflexivity | assumption]. }
  rewrite Hall. unfold ok. f_equal. f_equal. rewrite map_map.
  apply map_ext. intros f. destruct (F64.is_nan f); reflexivity.
Qed.

Lemma coerce_objects l :
  Forall (finite_cell parse_numeric) l ->
  exists zs,
    astype_int
      (fillna0
         (let ns := map (coerce_cell parse_numeric) l in
          if forallb number_is_int ns
          then NumInt64 (map (fun n => match n with
                                       | NInt z => z
                                       | NFloat _ => 0
                                       end) ns)
          else NumFloat64 (map number_to_float ns))) = ok (Int64 zs)
    /\ Forall2 (coerced_to parse_numeric) l zs.
Proof.
  intros Hfin. cbv zeta.
  destruct (forallb number_is_int (map (coerce_cell parse_numeric) l)) eqn:Hall.
  - eexists. split; [reflexivity|].
    rewrite forallb_forall in Hall. clear Hfin.
    induction l as [|v l IH]; cbn [map]; constructor.
    + unfold coerced_to.
      assert (Hv : number_is_int (coerce_cell parse_numeric v) = true)
        by (apply Hall; left; reflexivity).
      unfold coerce_cell in *.
      destruct (cell_number parse_numeric v) as [[i|f]|]; try discriminate Hv.
      left. reflexivity.
    + apply IH. intros n Hn. apply Hall. right. exact Hn.
  - eexists. split.
    + apply fill_cast_float. apply Forall_map. apply Forall_map.
      eapply Forall_impl; [|exact Hfin]. intros v Hv.
      unfold finite_cell, coerce_cell in *.
      destruct (cell_number parse_numeric v) as [n|]; [right; exact Hv | left; reflexivity].
    + clear Hall. induction Hfin as [|v l Hv _ IH]; cbn [map]; constructor; [|exact IH].
      unfold coerced_to, finite_cell, coerce_cell in *.
      destruct (cell_number parse_numeric v) as [[i|f]|]; cbn [number_to_float] in *.
      * right. destruct (F64.is_nan (F64.of_Z i)) eqn:Hn; [|reflexivity].
        destruct (F64.of_Z i); discriminate.
      * destruct (F64.is_nan f) eqn:Hn; [|reflexivity].
        destruct f; discriminate.
      * reflexivity.
Qed.

Lemma coerced_truncated v z :
  coerced_to parse_numeric v z -> truncated_to parse_numeric v z.
Proof.
  unfold coerced_to, truncated_to.
  destruct (cell_number parse_numeric v) as [[i|f]|]; [| |auto].
  - intros [->| ->] Hi; [reflexivity | apply cast_int64_of_Z; exact Hi].
  - intros -> t Ht Hin. unfold cast_int64. rewrite Ht, Hin. reflexivity.
Qed.

(** The part of C6 the code keeps.  On a column whose cells read as nothing
    or as finite numbers the coercion returns an int64 column and does not
    raise.  A cell that fails to parse (text that is not numeric, a missing
    value) becomes 0; an integer below 2^53 in magnitude stays itself; a
    float whose truncation toward zero is an int64 becomes that truncation.
    Beyond that ([coerced_to]) a larger integer stays itself or goes
    through its nearest float64, and a float outside int64 gives what the
    cast gives, INT64_MIN. *)
Theorem coerce_int_finite (s : Series) :
  Forall (finite_cell parse_numeric) (cells s) ->
  exists zs,
    coerce_int parse_numeric s = ok (Int64 zs)
    /\ Forall2 (coerced_to parse_numeric) (cells s) zs
    /\ Forall2 (truncated_to parse_numeric) (cells s) zs.
Proof.
  intros Hfin.
  assert (H : exists zs,
             coerce_int parse_numeric s = ok (Int64 zs)
             /\ Forall2 (coerced_to parse_numeric) (cells s) zs).
  { unfold coerce_int.
    destruct s as [l|l|l|l]; cbn [to_numeric].
    - exists l. split; [reflexivity|]. clear Hfin.
      cbn [cells]. induction l as [|z l IH]; cbn [map]; constructor; [|exact IH].
      unfold coerced_to. cbn. left. reflexivity.
    - eexists. split.
      + apply fill_cast_float. cbn [cells] in Hfin.
        rewrite Forall_map in Hfin. eapply Forall_impl; [|exact Hfin].
        intros f Hf. unfold finite_cell in Hf. cbn [cell_number] in Hf.
        destruct (F64.is_nan f); [left; reflexivity | right; exact Hf].
      + clear Hfin. cbn [cells].
        induction l as [|f l IH]; cbn [map]; constructor; [|exact IH].
        unfold coerced_to. cbn [cell_number].
        destruct (F64.is_nan f); reflexivity.
    - apply coerce_objects. exact Hfin.
    - apply coerce_objects. exact Hfin. }
  destruct H as (zs & Hc & Hz). exists zs.
  split; [exact Hc|]. split; [exact Hz|].
  clear Hc Hfin. induction Hz as [|v z l zs Hv _ IH]; constructor; [|exact IH].
  apply coerced_truncated. exact Hv.
Qed.

End CoercionOfFiniteCells.

Lemma coerce_int_finite_witness :
  Forall (finite_cell python_numeric_text)
         (cells (Object [PStr "12"; PStr "7.9"; PStr "-7.9"; PStr "n/a"; PNone]))
  /\ exists zs,
       coerce_int python_numeric_text
         (Object [PStr "12"; PStr "7.9"; PStr "-7.9"; PStr "n/a"; PNone])
       = ok (Int64 zs)
       /\ Forall2 (coerced_to python_numeric_text)
            (cells (Object [PStr "12"; PStr "7.9"; PStr "-7.9"; PStr "n/a"; PNone]))
            zs
       /\ Forall2 (truncated_to python_numeric_text)
            (cells (Object [PStr "12"; PStr "7.9"; PStr "-7.9"; PStr "n/a"; PNone]))
            zs.
Proof.
  assert (H : Forall (finite_cell python_numeric_text)
                (cells (Object [PStr "12"; PStr "7.9"; PStr "-7.9"; PStr "n/a"; PNone])))
    by (repeat constructor).
  split; [exact H|].
  exact (coerce_int_finite python_numeric_text _ H).
Defined.

(** The same column, evaluated. *)
Lemma coerce_int_sample :
  coerce_int python_numeric_text
    (Object [PStr "12"; PStr "7.9"; PStr "-7.9"; PStr "n/a"; PNone])
  = ok (Int64 [12; 7; -7; 0; 0]).
Proof. vm_compute. reflexivity. Qed.

(** Where the truncation stops being one: a finite float beyond int64
    gives INT64_MIN, and an integer of more than 53 bits beside a cell
    that is not an integer goes through its nearest float64. *)
Lemma coerce_int_beyond :
  coerce_int python_numeric_text (Object [PStr "1e19"]) = ok (Int64 [int64_min])
  /\ coerce_int python_numeric_text (Object [PInt 9007199254740993; PNone])
     = ok (Int64 [9007199254740992; 0]).
Proof. split; vm_compute; reflexivity. Qed.

(* ===================================================================== *)
(** * Further properties of the pipeline *)
(* ===================================================================== *)

(** Renaming is by the lowered, stripped name: [Views ], [view_count] and
    [VIEWCOUNT] all become [views]; after it no column keeps a synonym as
    its label, and a label outside the table is kept as it is. *)
Theorem schema_renaming (df : DataFrame) :
  columns (rename (column_mapping (labels df)) df)
  = map (fun x => (renamed_label (fst x), snd x)) (columns df)
  /\ renamed_label "Views " = "views"
  /\ renamed_label "view_count" = "views"
  /\ renamed_label "VIEWCOUNT" = "views"
  /\ renamed_label "Channel_Title" = "category"
  /\ renamed_label " Video_Length" = "duration"
  /\ renamed_label "description" = "description".
Proof. split; [apply rename_columns | repeat split]. Qed.

(** The engagement rate of a record with positive int64 views is a finite
    float, whatever its likes and comments. *)
Theorem engagement_rate_is_finite (likes comments views : Z) :
  0 < views -> in_int64 views = true ->
  F64.is_finite (engagement_of likes comments views) = true.
Proof. apply engagement_finite. Qed.

Lemma engagement_rate_is_finite_witness :
  0 < 3 /\ in_int64 3 = true
  /\ F64.is_finite (engagement_of 1 1 3) = true
  /\ engagement_of 1 1 3 = F64.of_decimal false 6667 (-2).
Proof.
  split; [lia|]. split; [reflexivity|].
  split; [exact (engagement_rate_is_finite 1 1 3 eq_refl eq_refl)|].
  vm_compute. reflexivity.
Defined.

(** The end-to-end example: of the three rows the second (no views) is
    dropped; the other two get the engagement rates 15.0 and 10.0, the
    durations 240 and 1200 seconds, that is 4.0 and 20.0 minutes, and the
    length categories "Short (0-5 min)" and "Long (15-30 min)". *)
Theorem end_to_end_example :
  load_frame python_numeric_text three_rows
  = ok {| nrows := 2;
          columns :=
            [("views", Int64 [100; 50]);
             ("likes", Int64 [10; 5]);
             ("comments", Int64 [5; 0]);
             ("duration", Int64 [240; 1200]);
             ("title", Int64 [0; 0]);
             ("category", Object [PStr "Unknown"; PStr "Unknown"]);
             ("engagement_rate", Float64 [F64.of_Z 15; F64.of_Z 10]);
             ("duration_minutes", Float64 [F64.of_Z 4; F64.of_Z 20]);
             ("length_category",
              Categorical [Some "Short (0-5 min)"; Some "Long (15-30 min)"])] |}.
Proof. vm_compute. reflexivity. Qed.

Section LoadData.

Variable parse_numeric : string -> option number.
Variable read_csv : string -> string + DataFrame.
Variable print : output -> string + unit.

(** [load_data] assigns [self.data] at line 86, before its last statement,
    the print of line 87.  When it returns, the file was read and cleaned
    and the message written: [data] is the cleaned frame and nothing else
    has changed.  When it raises, either the reading or the cleaning failed
    and the analyzer is as it was, or the print failed and [data] already
    holds the cleaned frame, the rest being unchanged. *)
Theorem load_data_outcome (self : YouTubeAnalyzer) :
  match load_data parse_numeric read_csv print self with
  | (inr _, self') =>
      exists raw cleaned,
        read_csv (csv_file self) = inr raw
        /\ load_frame parse_numeric raw = ok cleaned
        /\ print (LoadedMessage (nrows cleaned)) = inr tt
        /\ data self' = Some cleaned
        /\ category_stats self' = category_stats self
        /\ length_stats self' = length_stats self
        /\ csv_file self' = csv_file self
  | (inl e, self') =>
      (self' = self
       /\ ((exists what, read_csv (csv_file self) = inl what
                         /\ e = CollaboratorError what)
           \/ (exists raw, read_csv (csv_file self) = inr raw
                           /\ load_frame parse_numeric raw = inl e)))
      \/ (exists raw cleaned what,
            read_csv (csv_file self) = inr raw
            /\ load_frame parse_numeric raw = ok cleaned
            /\ print (LoadedMessage (nrows cleaned)) = inl what
            /\ e = CollaboratorError what
            /\ data self' = Some cleaned
            /\ category_stats self' = category_stats self
            /\ length_stats self' = length_stats self
            /\ csv_file self' = csv_file self)
  end.
Proof.
  unfold load_data, bind, get_self, call, lift, set_data.
  destruct (read_csv (csv_file self)) as [what|raw].
  - left. split; [reflexivity|]. left. exists what. split; reflexivity.
  - destruct (load_frame parse_numeric raw) as [e|cleaned] eqn:Hl.
    + left. split; [reflexivity|]. right. exists raw. split; [reflexivity|exact Hl].
    + destruct (print (LoadedMessage (nrows cleaned))) as [what|[]] eqn:Hp.
      * right. exists raw, cleaned, what. repeat split; assumption.
      * exists raw, cleaned. repeat split; assumption.
Qed.

End LoadData.

(** On a console that cannot encode the check mark of line 87,
    [load_data] raises with the data assigned. *)
Lemma load_data_print_fails :
  load_data python_numeric_text (fun _ => inr thirds_frame) ascii_console
    (__init__ "videos.csv")
  = (inl (CollaboratorError "UnicodeEncodeError"),
     {| data := Some thirds_loaded; category_stats := None;
        length_stats := None; csv_file := "videos.csv" |}).
Proof. vm_compute. reflexivity. Qed.
(* ===================================================================== *)
(** * Which exceptions the loader can raise *)
(* ===================================================================== *)

Lemma mapM_error {A B} (f : A -> result B) (l : list A) e :
  mapM f l = inl e -> exists a, In a l /\ f a = inl e.
Proof.
  induction l as [|a l IH]; cbn [mapM]; [discriminate|].
  destruct (f a) as [e'|b] eqn:Ha.
  - intros [= <-]. exists a. split; [now left|exact Ha].
  - destruct (mapM f l) as [e'|bs]; [|discriminate].
    intros [= <-]. destruct (IH eq_refl) as (a' & Hin & Ha').
    exists a'. split; [now right|exact Ha'].
Qed.

Lemma int_of_str_error s e :
  int_of_str s = inl e -> precondition_error e = false.
Proof.
  unfold int_of_str.
  destruct (take_sign (strip_by is_cspace s)) as [neg body].
  destruct (take_run body) as [run rest].
  destruct (digitpart run) as [[v n]|]; [|intros [= <-]; reflexivity].
  destruct (max_str_digits <? n); [intros [= <-]; reflexivity|].
  destruct rest; [discriminate|]. intros [= <-]. reflexivity.
Qed.

Lemma int_of_float_error f e :
  int_of_float f = inl e -> precondition_error e = false.
Proof.
  unfold int_of_float. destruct (F64.trunc f); [discriminate|].
  destruct (F64.is_nan f); intros [= <-]; reflexivity.
Qed.

Lemma group_int_error g e :
  group_int g = inl e -> precondition_error e = false.
Proof.
  destruct g; cbn [group_int]; [apply int_of_str_error|discriminate].
Qed.

Lemma parse_duration_error v e :
  _parse_duration v = inl e -> precondition_error e = false.
Proof.
  unfold _parse_duration.
  destruct (isna v); [discriminate|].
  destruct v as [|z|f|s]; try discriminate.
  - apply int_of_float_error.
  - cbv zeta. destruct (contains ":" (strip s)).
    + intros H. bind_err H.
      * apply mapM_error in Hx. destruct Hx as (p & _ & Hp).
        now apply int_of_str_error in Hp.
      * destruct x as [|a [|b [|c [|d l]]]]; try discriminate H.
        injection H as <-. reflexivity.
    + destruct (re_match_PT (strip s)) as [[[g1 g2] g3]|].
      * intros H. bind_err H; [now apply group_int_error in Hx|].
        bind_err H; [now apply group_int_error in Hx0|].
        bind_err H; [now apply group_int_error in Hx1|].
        discriminate H.
      * destruct (rbind (float_of_str (strip s)) _); discriminate.
Qed.

Lemma getitem_error df c e :
  getitem df c = inl e -> precondition_error e = false.
Proof.
  unfold getitem.
  destruct (filter _ (columns df)) as [|x [|y l]]; try discriminate;
    intros [= <-]; reflexivity.
Qed.

Lemma coerce_int_error parse_numeric s e :
  coerce_int parse_numeric s = inl e -> precondition_error e = false.
Proof.
  unfold coerce_int, astype_int.
  destruct (fillna0 _) as [l|l]; [discriminate|].
  destruct (forallb F64.is_finite l); [discriminate|].
  intros [= <-]. reflexivity.
Qed.

Lemma series_error :
  (forall a b e, series_add a b = inl e -> precondition_error e = false)
  /\ (forall a b e, series_truediv a b = inl e -> precondition_error e = false)
  /\ (forall a k e, series_truediv_const a k = inl e -> precondition_error e = false)
  /\ (forall a k e, series_mul_const a k = inl e -> precondition_error e = false)
  /\ (forall a k e, series_gt_const a k = inl e -> precondition_error e = false)
  /\ (forall a e, series_round2 a = inl e -> precondition_error e = false)
  /\ (forall a bins labs e, cut a bins labs = inl e -> precondition_error e = false).
Proof.
  repeat split; intros until e;
    unfold series_add, series_truediv, series_truediv_const, series_mul_const,
      series_gt_const, series_round2, cut, non_numeric, throw, ok;
    repeat match goal with
           | |- context [match ?x with _ => _ end] => destruct x
           end;
    try discriminate; intros [= <-]; reflexivity.
Qed.

Section LoaderErrors.

Variable parse_numeric : string -> option number.

Lemma clean_types_error df e :
  clean_types parse_numeric df = inl e -> precondition_error e = false.
Proof.
  unfold clean_types. intros H.
  bind_err H; [now apply getitem_error in Hx|].
  bind_err H; [now apply coerce_int_error in Hx0|].
  bind_err H; [now apply getitem_error in Hx1|].
  bind_err H; [now apply coerce_int_error in Hx2|].
  bind_err H; [now apply getitem_error in Hx3|].
  bind_err H; [now apply coerce_int_error in Hx4|].
  bind_err H; [now apply getitem_error in Hx5|].
  bind_err H; [|discriminate H].
  apply mapM_error in Hx6. destruct Hx6 as (v & _ & Hv).
  now apply parse_duration_error in Hv.
Qed.

Lemma drop_invalid_error df e :
  drop_invalid df = inl e -> precondition_error e = false.
Proof.
  destruct series_error as (_ & _ & _ & _ & Hgt & _).
  unfold drop_invalid. intros H.
  bind_err H; [now apply getitem_error in Hx|].
  bind_err H; [now apply Hgt in Hx0|]. discriminate H.
Qed.

Lemma add_calculated_error df e :
  add_calculated df = inl e -> precondition_error e = false.
Proof.
  destruct series_error as (Hadd & Hdiv & Hdivc & Hmul & _ & Hround & Hcut).
  unfold add_calculated. intros H.
  bind_err H; [now apply getitem_error in Hx|].
  bind_err H; [now apply getitem_error in Hx0|].
  bind_err H; [now apply getitem_error in Hx1|].
  bind_err H; [now apply Hadd in Hx2|].
  bind_err H; [now apply Hdiv in Hx3|].
  bind_err H; [now apply Hmul in Hx4|].
  bind_err H; [now apply Hround in Hx5|].
  bind_err H; [now apply getitem_error in Hx6|].
  bind_err H; [now apply Hdivc in Hx7|].
  bind_err H; [now apply Hround in Hx8|].
  bind_err H; [now apply getitem_error in Hx9|].
  bind_err H; [now apply Hcut in Hx10|].
  discriminate H.
Qed.

(** No exception of the loader is one of the guards' errors. *)
Lemma load_frame_error df e :
  load_frame parse_numeric df = inl e -> precondition_error e = false.
Proof.
  unfold load_frame. intros H.
  bind_err H; [now apply clean_types_error in Hx|].
  bind_err H; [now apply drop_invalid_error in Hx0|].
  now apply add_calculated_error in H.
Qed.

End LoaderErrors.

(* ===================================================================== *)
(** * The script and chains of calls *)
(* ===================================================================== *)

Lemma argmax_from_none col t : forall best,
  argmax_from col t best = None <-> best = None /\ has_number col t = false.
Proof.
  induction t as [|[label row] t IH]; intros best; cbn [argmax_from has_number existsb snd].
  - tauto.
  - rewrite IH. fold (has_number col t).
    destruct (F64.is_nan (col row)); cbn [negb orb].
    + tauto.
    + split; [|intros [_ H]; discriminate H].
      destruct best as [[l b]|]; [destruct (F64.ltb b (col row))|];
        intros [H _]; discriminate H.
Qed.

Lemma idxmax_loc_returns col t :
  (exists r, idxmax_loc col t = ok r) <-> has_number col t = true.
Proof.
  unfold idxmax_loc.
  destruct t as [|x t]; [split; [intros [r H]; discriminate H|discriminate]|].
  destruct (argmax_from col (x :: t) None) as [r|] eqn:E.
  - split; [intros _|intros _; now exists r].
    destruct (has_number col (x :: t)) eqn:Hn; [reflexivity|].
    assert (H : argmax_from col (x :: t) None = None)
      by (apply argmax_from_none; split; [reflexivity|exact Hn]).
    rewrite H in E. discriminate E.
  - apply argmax_from_none in E. destruct E as [_ E]. rewrite E.
    split; [intros [r H]; discriminate H|discriminate].
Qed.

Lemma has_number_not_nil col t : has_number col t = true -> t <> [].
Proof. destruct t; [discriminate|discriminate]. Qed.

Lemma argmax_from_some col t :
  (exists r, argmax_from col t None = Some r) <-> has_number col t = true.
Proof.
  destruct (argmax_from col t None) as [r|] eqn:E.
  - split; [intros _|intros _; now exists r].
    destruct (has_number col t) eqn:Hn; [reflexivity|].
    assert (H : argmax_from col t None = None)
      by (apply argmax_from_none; split; [reflexivity|exact Hn]).
    rewrite H in E. discriminate E.
  - apply argmax_from_none in E. destruct E as [_ E]. rewrite E.
    split; [intros [r H]; discriminate H|discriminate].
Qed.

(** There is something to print exactly when each of the three columns has
    a value that is not NaN. *)
Lemma insights_lines_some cs ls :
  (exists lines, insights_lines cs ls = Some lines)
  <-> has_number avg_engagement_rate cs = true
      /\ has_number avg_views ls = true
      /\ has_number avg_engagement_rate ls = true.
Proof.
  rewrite <- !argmax_from_some. unfold insights_lines.
  destruct cs as [|[top row] cs'].
  - split; [intros [lines H]; discriminate H|].
    intros ([r H] & _). discriminate H.
  - destruct (argmax_from avg_engagement_rate ((top, row) :: cs') None) as [[ecat erate]|].
    + destruct (argmax_from avg_views ls None) as [[blen bviews]|].
      * destruct (argmax_from avg_engagement_rate ls None) as [[elen lrate]|].
        -- split; [intros _; repeat split; eexists; reflexivity|].
           intros _. eexists. reflexivity.
        -- split; [intros [lines H]; discriminate H|].
           intros (_ & _ & [r H]). discriminate H.
      * split; [intros [lines H]; discriminate H|].
        intros (_ & [r H] & _). discriminate H.
    + split; [intros [lines H]; discriminate H|].
      intros ([r H] & _). discriminate H.
Qed.

Section Insights.

Variable print : output -> string + unit.

(** Past its guard [generate_insights] returns exactly when its lookups
    find their rows and every line is written. *)
Lemma insights_return self cs ls :
  category_stats self = Some cs -> length_stats self = Some ls ->
  fst (generate_insights print self) = inr tt
  <-> exists lines,
        insights_lines cs ls = Some lines
        /\ Forall (fun o => print o = inr tt) lines.
Proof.
  intros Hc Hl. unfold generate_insights. unfold bind at 1, get_self.
  cbn [fst snd]. rewrite Hc, Hl.
  unfold insights_lines, bind, call, lift, index0, iloc0, idxmax_loc, throw, ok.
  split.
  - intros H.
    printed print H InsightsRule. printed print H InsightsTitle.
    printed print H InsightsUnderline. printed print H TopCategoryHeading.
    destruct cs as [|[top row] cs']; cbn beta iota in H; [discriminate H|].
    printed print H (TopCategoryLine top (avg_views row)).
    printed print H TopEngagementHeading.
    destruct (argmax_from avg_engagement_rate ((top, row) :: cs') None)
      as [[ecat erate]|]; cbn beta iota in H; [|discriminate H].
    cbn [fst snd] in H.
    printed print H (TopEngagementLine ecat erate).
    printed print H BestLengthHeading.
    destruct ls as [|x ls']; cbn beta iota in H; [discriminate H|].
    destruct (argmax_from avg_views (x :: ls') None)
      as [[blen bviews]|]; cbn beta iota in H; [|discriminate H].
    cbn [fst snd] in H.
    printed print H (BestLengthLine blen bviews).
    printed print H BestEngagementHeading.
    destruct (argmax_from avg_engagement_rate (x :: ls') None)
      as [[elen lrate]|]; cbn beta iota in H; [|discriminate H].
    cbn [fst snd] in H.
    printed print H (BestEngagementLine elen lrate).
    printed print H InsightsEnd.
    eexists. split; [reflexivity|].
    repeat (constructor; [assumption|]). constructor.
  - intros (lines & Hlines & Hall).
    destruct cs as [|[top row] cs']; [discriminate Hlines|].
    destruct (argmax_from avg_engagement_rate ((top, row) :: cs') None)
      as [[ecat erate]|]; [|discriminate Hlines].
    destruct ls as [|x ls']; [discriminate Hlines|].
    destruct (argmax_from avg_views (x :: ls') None)
      as [[blen bviews]|]; [|discriminate Hlines].
    destruct (argmax_from avg_engagement_rate (x :: ls') None)
      as [[elen lrate]|]; [|discriminate Hlines].
    injection Hlines as <-.
    rewrite !Forall_cons_iff in Hall.
    destruct Hall as (P1 & P2 & P3 & P4 & P5 & P6 & P7 & P8 & P9 & P10 & P11
                      & P12 & _).
    rewrite P1, P2, P3, P4. cbn beta iota. rewrite P5, P6. cbn beta iota.
    cbn [fst snd]. rewrite P7, P8. cbn beta iota. cbn [fst snd].
    rewrite P9, P10. cbn beta iota. cbn [fst snd]. rewrite P11, P12.
    reflexivity.
Qed.

(** GENERATE-INSIGHTS-RETURNS: [generate_insights] returns exactly when both
    tables are there, each of the three columns it takes a maximum of
    ([avg_engagement_rate] by category, [avg_views] and
    [avg_engagement_rate] by length) holds a value that is not NaN (both
    tables then have a row), and each of its twelve prints succeeds.
    Having run both analyses is not enough. *)
Theorem generate_insights_returns_iff (self : YouTubeAnalyzer) :
  fst (generate_insights print self) = inr tt
  <-> exists cs ls lines,
        category_stats self = Some cs /\ length_stats self = Some ls
        /\ cs <> [] /\ ls <> []
        /\ has_number avg_engagement_rate cs = true
        /\ has_number avg_views ls = true
        /\ has_number avg_engagement_rate ls = true
        /\ insights_lines cs ls = Some lines
        /\ List.length lines = 12%nat
        /\ Forall (fun o => print o = inr tt) lines.
Proof.
  split.
  - intros H.
    destruct (category_stats self) as [cs|] eqn:Hc;
      [|unfold generate_insights, bind, get_self, raise in H;
        rewrite Hc in H; discriminate H].
    destruct (length_stats self) as [ls|] eqn:Hl;
      [|unfold generate_insights, bind, get_self, raise in H;
        rewrite Hc, Hl in H; discriminate H].
    apply (insights_return self cs ls Hc Hl) in H.
    destruct H as (lines & Hlines & Hall).
    destruct (proj1 (insights_lines_some cs ls)) as (H1 & H2 & H3);
      [now exists lines|].
    exists cs, ls, lines. split_conj; try reflexivity; try assumption.
    + now apply has_number_not_nil in H1.
    + now apply has_number_not_nil in H2.
    + clear Hall. unfold insights_lines in Hlines.
      destruct cs as [|[top row] cs']; [discriminate Hlines|].
      destruct (argmax_from avg_engagement_rate _ None) as [[? ?]|];
        [|discriminate Hlines].
      destruct (argmax_from avg_views ls None) as [[? ?]|];
        [|discriminate Hlines].
      destruct (argmax_from avg_engagement_rate ls None) as [[? ?]|];
        [|discriminate Hlines].
      injection Hlines as <-. reflexivity.
  - intros (cs & ls & lines & Hc & Hl & _ & _ & _ & _ & _ & Hlines & _ & Hall).
    apply (insights_return self cs ls Hc Hl). now exists lines.
Qed.

End Insights.

(** With both tables filled, [generate_insights] still raises on a console
    that cannot encode its title; it returns on one that takes every
    line. *)
Lemma insights_need_the_console :
  fst (generate_insights ascii_console
         {| data := Some one_video; category_stats := Some (one_category_table);
            length_stats := Some (one_length_table); csv_file := "videos.csv" |})
  = inl (CollaboratorError "UnicodeEncodeError")
  /\ fst (generate_insights quiet_console
            {| data := Some one_video; category_stats := Some (one_category_table);
               length_stats := Some (one_length_table); csv_file := "videos.csv" |})
     = inr tt.
Proof. split; vm_compute; reflexivity. Qed.

Section ScriptProperties.

Variable parse_numeric : string -> option number.
Variable read_csv : string -> string + DataFrame.
Variable groupby_agg : string -> DataFrame -> string + stats.
Variable sort_by_avg_views : stats -> stats.
Variable print_summary : DataFrame -> string + unit.
Variable draw_category_figure : stats -> string + unit.
Variable draw_length_figure : stats -> string + unit.
Variable print : output -> string + unit.

(** SCRIPT-ORDER: the order of the calls in the script meets every
    precondition.  Whatever the file holds and whatever the collaborators
    do, an exception that ends the script is never one of the four
    precondition errors. *)
Theorem script_meets_preconditions (path : string) (e : exn) :
  fst (main parse_numeric read_csv groupby_agg sort_by_avg_views print_summary
         draw_category_figure draw_length_figure print path) = inl e ->
  precondition_error e = false.
Proof.
  unfold main, run_pipeline, load_data, display_summary, analyze_by_category,
    analyze_by_length, plot_category_performance, plot_length_performance,
    bind, get_self, call, lift, set_data, set_category_stats, set_length_stats,
    __init__.
  cbn [csv_file data category_stats length_stats].
  destruct (read_csv path) as [what|raw]; [intros [= <-]; reflexivity|].
  destruct (load_frame parse_numeric raw) as [e'|df] eqn:Hload;
    [intros [= <-]; eapply load_frame_error; exact Hload|].
  destruct (print (LoadedMessage (nrows df))) as [what|[]];
    [intros [= <-]; reflexivity|].
  cbn [data].
  destruct (print_summary df) as [what|[]]; [intros [= <-]; reflexivity|].
  cbn [data category_stats length_stats csv_file].
  destruct (groupby_agg "category" df) as [what|cs]; [intros [= <-]; reflexivity|].
  destruct (print CategoryComplete) as [what|[]]; [intros [= <-]; reflexivity|].
  cbn [data category_stats length_stats csv_file].
  destruct (groupby_agg "length_category" df) as [what|ls];
    [intros [= <-]; reflexivity|].
  destruct (print LengthComplete) as [what|[]]; [intros [= <-]; reflexivity|].
  cbn [data category_stats length_stats csv_file].
  set (s := {| data := Some df; category_stats := Some (sort_by_avg_views cs);
               length_stats := Some ls; csv_file := path |}).
  pose proof (generate_insights_state print s) as Hst.
  pose proof (insights_error print s (sort_by_avg_views cs) ls e eq_refl eq_refl)
    as Hi.
  destruct (generate_insights print s) as [[e'|[]] s'];
    cbn [fst snd] in Hst, Hi |- *.
  - intros [= <-]. apply Hi. reflexivity.
  - subst s'. unfold s at 1. cbn [category_stats].
    destruct (draw_category_figure _) as [what|[]]; [intros [= <-]; reflexivity|].
    unfold s at 1. cbn [length_stats].
    destruct (draw_length_figure ls) as [what|[]]; [intros [= <-]; reflexivity|].
    discriminate.
Qed.

End ScriptProperties.

Section ScriptOutcome.

Variable parse_numeric : string -> option number.
Variable read_csv : string -> string + DataFrame.
Variable groupby_agg : string -> DataFrame -> string + stats.
Variable sort_by_avg_views : stats -> stats.
Variable print_summary : DataFrame -> string + unit.
Variable draw_category_figure : stats -> string + unit.
Variable draw_length_figure : stats -> string + unit.
Variable print : output -> string + unit.


Local Abbreviation chain' :=
  (chain parse_numeric read_csv groupby_agg sort_by_avg_views print_summary
         draw_category_figure draw_length_figure print).

Local Abbreviation call' :=
  (call_method parse_numeric read_csv groupby_agg sort_by_avg_views print_summary
               draw_category_figure draw_length_figure print).

(** What one call can do to the analyzer. *)
Lemma call_method_frame m self :
  csv_file (snd (call' m self)) = csv_file self
  /\ (data self <> None -> data (snd (call' m self)) <> None)
  /\ (category_stats self <> None -> category_stats (snd (call' m self)) <> None)
  /\ (length_stats self <> None -> length_stats (snd (call' m self)) <> None)
  /\ (data (snd (call' m self)) <> None
      \/ (category_stats (snd (call' m self)) = category_stats self
          /\ length_stats (snd (call' m self)) = length_stats self)).
Proof.
  destruct m; cbn [call_method];
    try (rewrite generate_insights_state; split_conj; auto);
    unfold load_data, display_summary, analyze_by_category, analyze_by_length,
      plot_category_performance, plot_length_performance,
      bind, get_self, call, lift, raise, set_data, set_category_stats,
      set_length_stats.
  - destruct (read_csv (csv_file self)); cbn [snd]; [split_conj; auto|].
    destruct (load_frame parse_numeric d); [cbn [snd]; split_conj; auto|].
    destruct (print _);
      cbn [snd data category_stats length_stats csv_file];
      split_conj; auto; try discriminate; try (left; discriminate).
  - destruct (data self) eqn:Hd; [destruct (print_summary d)|]; cbn [snd];
      split_conj; auto; congruence.
  - destruct (data self) eqn:Hd;
      [destruct (groupby_agg "category" d); [|destruct (print _)]|];
      cbn [snd data category_stats length_stats csv_file];
      split_conj; auto; try discriminate; try congruence;
      try (left; congruence).
  - destruct (data self) eqn:Hd;
      [destruct (groupby_agg "length_category" d); [|destruct (print _)]|];
      cbn [snd data category_stats length_stats csv_file];
      split_conj; auto; try discriminate; try congruence;
      try (left; congruence).
  - destruct (category_stats self) eqn:Hc; [destruct (draw_category_figure s)|];
      cbn [snd]; split_conj; auto; congruence.
  - destruct (length_stats self) eqn:Hl; [destruct (draw_length_figure s)|];
      cbn [snd]; split_conj; auto; congruence.
Qed.

Lemma reporting_call_state m self :
  reporting m = true -> snd (call' m self) = self.
Proof.
  destruct m; try discriminate; intros _; cbn [call_method];
    try apply generate_insights_state;
    unfold display_summary, plot_category_performance, plot_length_performance,
      bind, get_self, call, raise.
  - destruct (data self); [destruct (print_summary d)|]; reflexivity.
  - destruct (category_stats self); [destruct (draw_category_figure s)|]; reflexivity.
  - destruct (length_stats self); [destruct (draw_length_figure s)|]; reflexivity.
Qed.

Lemma chain_cons m ms self :
  snd (chain' (m :: ms) self)
  = match fst (call' m self) with
    | inl _ => snd (call' m self)
    | inr _ => snd (chain' ms (snd (call' m self)))
    end.
Proof.
  cbn [chain]. unfold bind at 1.
  destruct (call_method _ _ _ _ _ _ _ _ m self) as [[e|[]] s]; reflexivity.
Qed.

(** CHAIN-FRAME: however the methods are chained on an analyzer and wherever
    the chain ends, the path is the one it started with; data, a category
    table or a length table that was there is still there (a method may
    replace it, none removes it); a table that has been added comes with
    the data loaded; and a chain of the four reporting methods
    ([display_summary], [generate_insights] and the two plots) leaves the
    analyzer exactly as it was. *)
Theorem chain_frame (ms : list method) (self : YouTubeAnalyzer) :
  csv_file (snd (chain parse_numeric read_csv groupby_agg sort_by_avg_views
                   print_summary draw_category_figure draw_length_figure print
                   ms self))
  = csv_file self
  /\ (data self <> None ->
      data (snd (chain parse_numeric read_csv groupby_agg sort_by_avg_views
                   print_summary draw_category_figure draw_length_figure print
                   ms self))
      <> None)
  /\ (category_stats self <> None ->
      category_stats
        (snd (chain parse_numeric read_csv groupby_agg sort_by_avg_views
                print_summary draw_category_figure draw_length_figure print
                ms self))
      <> None)
  /\ (length_stats self <> None ->
      length_stats
        (snd (chain parse_numeric read_csv groupby_agg sort_by_avg_views
                print_summary draw_category_figure draw_length_figure print
                ms self))
      <> None)
  /\ (data (snd (chain parse_numeric read_csv groupby_agg sort_by_avg_views
                   print_summary draw_category_figure draw_length_figure print
                   ms self))
      <> None
      \/ (category_stats
            (snd (chain parse_numeric read_csv groupby_agg sort_by_avg_views
                    print_summary draw_category_figure draw_length_figure print
                    ms self))
          = category_stats self
          /\ length_stats
               (snd (chain parse_numeric read_csv groupby_agg sort_by_avg_views
                       print_summary draw_category_figure draw_length_figure
                       print ms self))
             = length_stats self))
  /\ (forallb reporting ms = true ->
      snd (chain parse_numeric read_csv groupby_agg sort_by_avg_views
             print_summary draw_category_figure draw_length_figure print ms self)
      = self).
Proof.
  revert self.
  induction ms as [|m ms IH]; intros self.
  - cbn. split_conj; auto.
  - rewrite chain_cons.
    pose proof (call_method_frame m self) as (Hf & Hd & Hc & Hl & Hn).
    destruct (fst (call' m self)).
    + split_conj; auto.
      cbn [forallb]. intros H. apply andb_prop in H. destruct H as [H _].
      now apply reporting_call_state.
    + destruct (IH (snd (call' m self))) as (Hf' & Hd' & Hc' & Hl' & Hn' & Hr').
      split_conj.
      * congruence.
      * auto.
      * auto.
      * auto.
      * destruct Hn' as [Hn'|[Hn1 Hn2]]; [now left|].
        destruct Hn as [Hn|[Hn3 Hn4]]; [left; auto|right; split; congruence].
      * cbn [forallb]. intros H. apply andb_prop in H. destruct H as [H1 H2].
        rewrite Hr' by exact H2. now apply reporting_call_state.
Qed.

End ScriptOutcome.

Lemma script_meets_preconditions_witness :
  fst (main python_numeric_text (fun _ => inr one_video) no_groups (fun t => t)
         silent_summary blank_figure blank_figure quiet_console "videos.csv")
  = inl (Exn IndexError "index 0 is out of bounds for axis 0 with size 0")
  /\ precondition_error
       (Exn IndexError "index 0 is out of bounds for axis 0 with size 0") = false.
Proof.
  assert (H : fst (main python_numeric_text (fun _ => inr one_video) no_groups
                     (fun t => t) silent_summary blank_figure blank_figure
                     quiet_console "videos.csv")
              = inl (Exn IndexError
                       "index 0 is out of bounds for axis 0 with size 0"))
    by (vm_compute; reflexivity).
  split; [exact H|].
  exact (script_meets_preconditions _ _ _ _ _ _ _ _ _ _ H).
Defined.

(** A run of the script that goes through. *)
Lemma script_runs_through :
  fst (main python_numeric_text (fun _ => inr one_video) one_group (fun t => t)
         silent_summary blank_figure blank_figure quiet_console "videos.csv")
  = inr tt.
Proof. vm_compute. reflexivity. Qed.

(** The script is the chain of the seven methods. *)
Lemma script_is_a_chain parse_numeric read_csv groupby_agg sort_by_avg_views
      print_summary draw_category_figure draw_length_figure print self :
  run_pipeline parse_numeric read_csv groupby_agg sort_by_avg_views print_summary
    draw_category_figure draw_length_figure print self
  = chain parse_numeric read_csv groupby_agg sort_by_avg_views print_summary
      draw_category_figure draw_length_figure print
      [LoadData; DisplaySummary; AnalyzeByCategory; AnalyzeByLength;
       GenerateInsights; PlotCategoryPerformance; PlotLengthPerformance] self.
Proof.
  unfold run_pipeline. cbn [chain call_method]. unfold bind, ret.
  repeat match goal with
         | |- context [match ?m ?s with _ => _ end] =>
             lazymatch m with
             | context [match _ with _ => _ end] => fail
             | _ => destruct (m s) as [[?|[]] ?]
             end
         end; reflexivity.
Qed.

(** The same run on a console that cannot encode the check mark stops in
    [load_data], with the data assigned. *)
Lemma script_stops_at_first_print :
  fst (main python_numeric_text (fun _ => inr one_video) one_group (fun t => t)
         silent_summary blank_figure blank_figure ascii_console "videos.csv")
  = inl (CollaboratorError "UnicodeEncodeError")
  /\ data (snd (main python_numeric_text (fun _ => inr one_video) one_group
                  (fun t => t) silent_summary blank_figure blank_figure
                  ascii_console "videos.csv")) <> None.
Proof. split; [vm_compute; reflexivity | vm_compute; discriminate]. Qed.
(* ===================================================================== *)
(** * The duration formats *)
(* ===================================================================== *)

Lemma all_chars_app p a b :
  all_chars p (a ++ b) = all_chars p a && all_chars p b.
Proof.
  unfold all_chars. induction a as [|c a IH]; cbn; [reflexivity|].
  rewrite IH. apply andb_assoc.
Qed.

Lemma numeral_digits s : numeral s = true -> all_chars is_digit s = true.
Proof.
  destruct s; [discriminate|]. intros H. now apply andb_prop in H.
Qed.

Lemma digitpart_from_value s : forall acc n,
  all_chars is_digit s = true ->
  digitpart_from s acc n true
  = Some (fold_left (fun a c => 10 * a + digit_val c) (list_ascii_of_string s) acc,
          n + Z.of_nat (String.length s)).
Proof.
  induction s as [|c s IH]; intros acc n H.
  - cbn. f_equal. f_equal. lia.
  - unfold all_chars in H. cbn in H. apply andb_prop in H. destruct H as [Hc Hs].
    cbn [digitpart_from]. rewrite Hc. rewrite IH by exact Hs.
    cbn [list_ascii_of_string fold_left String.length]. f_equal. f_equal. lia.
Qed.

Lemma strip_by_id sp s :
  all_chars (fun c => negb (sp c)) s = true -> strip_by sp s = s.
Proof.
  intros H. unfold strip_by. rewrite lstrip_by_id by exact H.
  apply rstrip_by_id. exact H.
Qed.

Lemma digit_not_space c : is_digit c = true -> is_space c = false.
Proof.
  unfold is_digit, is_space. intros H. apply andb_prop in H. destruct H as [H1 H2].
  apply N.leb_le in H1, H2.
  apply orb_false_iff. split; apply andb_false_iff.
  - right. apply N.leb_gt. lia.
  - right. apply N.leb_gt. lia.
Qed.

Lemma digit_not_sign c :
  is_digit c = true -> c <> "-"%char /\ c <> "+"%char /\ c <> ":"%char
                       /\ c <> "P"%char.
Proof.
  intros H. repeat split; intros ->; discriminate H.
Qed.

Lemma numeral_length s : numeral s = true -> (String.length s <= 4300)%nat.
Proof.
  destruct s; [discriminate|]. intros H. apply andb_prop in H.
  destruct H as [_ H]. now apply Nat.leb_le in H.
Qed.

(** The digits of a numeral: its value and their number. *)
Lemma numeral_digitpart s :
  numeral s = true ->
  take_sign (strip_by is_cspace s) = (false, s)
  /\ digitpart s = Some (decimal_value s, Z.of_nat (String.length s)).
Proof.
  intros Hn. pose proof (numeral_digits s Hn) as Hd.
  rewrite strip_by_id
    by (eapply all_chars_impl; [|exact Hd]; intros c Hc;
        rewrite digit_not_cspace by exact Hc; reflexivity).
  destruct s as [|c r]; [discriminate Hn|].
  assert (Hc : is_digit c = true).
  { unfold all_chars in Hd. cbn in Hd. now apply andb_prop in Hd. }
  destruct (digit_not_sign c Hc) as (Hm & Hp & _).
  split.
  - unfold take_sign.
    destruct c as [[] [] [] [] [] [] [] []]; try reflexivity;
      first [now elim Hm | now elim Hp].
  - unfold digitpart. cbn [digitpart_from]. rewrite Hc.
    assert (Hr : all_chars is_digit r = true).
    { unfold all_chars in Hd. cbn in Hd. now apply andb_prop in Hd. }
    rewrite digitpart_from_value by exact Hr.
    cbn [String.length]. f_equal. f_equal. lia.
Qed.

(** [int] on a numeral. *)
Lemma int_literal_numeral s :
  numeral s = true -> int_literal s = Some (decimal_value s).
Proof.
  intros Hn. destruct (numeral_digitpart s Hn) as [Hs Hd].
  unfold int_literal. rewrite Hs, Hd. reflexivity.
Qed.

Lemma numeral_not_too_long s : numeral s = true -> int_fails s = false.
Proof.
  intros Hn. destruct (numeral_digitpart s Hn) as [Hs Hd].
  unfold int_fails, not_int_literal, too_long.
  rewrite int_literal_numeral by exact Hn. rewrite Hs. cbn [snd orb].
  rewrite Hd. apply Z.ltb_ge. pose proof (numeral_length s Hn).
  unfold max_str_digits. lia.
Qed.

Lemma int_of_str_numeral s :
  numeral s = true -> int_of_str s = ok (decimal_value s).
Proof.
  intros H. pose proof (int_of_str_outcome s) as Ho.
  destruct (int_of_str s) as [e|z].
  - rewrite numeral_not_too_long in Ho by exact H. discriminate Ho.
  - destruct Ho as [Hl _]. rewrite int_literal_numeral in Hl by exact H.
    injection Hl as <-. reflexivity.
Qed.

(** The limit of [int] at work: an hour written with 4300 digits is read,
    one written with 4301 raises, between colons as well as in a [PT]
    text. *)
Lemma int_limit_examples :
  _parse_duration (PStr ("PT" ++ zeros 4299 ++ "1H")) = ok 3600
  /\ _parse_duration (PStr ("PT" ++ zeros 4300 ++ "1H"))
     = inl (Exn ValueError
              "Exceeds the limit (4300 digits) for integer string conversion")
  /\ raising_input (PStr ("PT" ++ zeros 4300 ++ "1H")) = true
  /\ _parse_duration (PStr (zeros 4299 ++ "1:00:00")) = ok 3600
  /\ _parse_duration (PStr (zeros 4300 ++ "1:00:00"))
     = inl (Exn ValueError
              "Exceeds the limit (4300 digits) for integer string conversion")
  /\ raising_input (PStr (zeros 4300 ++ "1:00:00")) = true.
Proof.
  split; [vm_compute; reflexivity|]. split; [vm_compute; reflexivity|].
  split; [vm_compute; reflexivity|]. split; [vm_compute; reflexivity|].
  split; vm_compute; reflexivity.
Qed.

Lemma contains_app c a b : contains c (a ++ b) = contains c a || contains c b.
Proof.
  induction a as [|x a IH]; cbn; [reflexivity|].
  rewrite IH. apply orb_assoc.
Qed.

Lemma digits_no_char c s :
  is_digit c = false -> all_chars is_digit s = true -> contains c s = false.
Proof.
  intros Hc. induction s as [|x s IH]; [reflexivity|].
  unfold all_chars. cbn. intros H. apply andb_prop in H. destruct H as [Hx Hs].
  rewrite (IH Hs), orb_false_r.
  apply Ascii.eqb_neq. intros ->. congruence.
Qed.

Lemma split_no_sep sep s : contains sep s = false -> split sep s = [s].
Proof.
  induction s as [|c s IH]; [reflexivity|].
  cbn. intros H. apply orb_false_iff in H. destruct H as [Hc Hs].
  rewrite Hc, (IH Hs). reflexivity.
Qed.

Lemma split_app sep a b :
  contains sep a = false ->
  split sep (a ++ String sep b) = a :: split sep b.
Proof.
  induction a as [|c a IH]; cbn.
  - intros _. rewrite Ascii.eqb_refl. reflexivity.
  - intros H. apply orb_false_iff in H. destruct H as [Hc Ha].
    rewrite Hc, (IH Ha). reflexivity.
Qed.

Lemma colon_not_space : is_space ":" = false.
Proof. reflexivity. Qed.

(** CLOCK-FORMAT: for any three numerals [h], [m] and [s], the text
    [h:m:s] parses to [h*3600 + m*60 + s] seconds and the text [m:s] to
    [m*60 + s], the numerals read in base ten, leading zeros allowed, and
    no field checked against 60. *)
Theorem parse_duration_clock (h m s : string) :
  numeral h = true -> numeral m = true -> numeral s = true ->
  _parse_duration (PStr (h ++ ":" ++ m ++ ":" ++ s))
  = ok (decimal_value h * 3600 + decimal_value m * 60 + decimal_value s)
  /\ _parse_duration (PStr (m ++ ":" ++ s))
     = ok (decimal_value m * 60 + decimal_value s).
Proof.
  intros Hh Hm Hs.
  pose proof (numeral_digits _ Hh) as Dh.
  pose proof (numeral_digits _ Hm) as Dm.
  pose proof (numeral_digits _ Hs) as Ds.
  assert (Hsp : forall x, all_chars is_digit x = true ->
                          all_chars (fun c => negb (is_space c)) x = true).
  { intros x Hx. eapply all_chars_impl; [|exact Hx].
    intros c Hc. rewrite digit_not_space by exact Hc. reflexivity. }
  assert (Hno : forall x, all_chars is_digit x = true -> contains ":" x = false).
  { intros x Hx. now apply digits_no_char. }
  split; unfold _parse_duration; cbn [isna]; cbv zeta; unfold strip.
  - rewrite strip_by_id
      by (rewrite !all_chars_app, (Hsp h Dh), (Hsp m Dm), (Hsp s Ds); reflexivity).
    rewrite !contains_app. cbn [contains Ascii.eqb Bool.eqb orb].
    rewrite orb_true_r.
    change (h ++ ":" ++ m ++ ":" ++ s) with (h ++ String ":" (m ++ String ":" s)).
    rewrite split_app by now apply Hno.
    rewrite split_app by now apply Hno.
    rewrite split_no_sep by now apply Hno.
    cbn [mapM]. rewrite !int_of_str_numeral by assumption.
    reflexivity.
  - rewrite strip_by_id
      by (rewrite !all_chars_app, (Hsp m Dm), (Hsp s Ds); reflexivity).
    rewrite !contains_app. cbn [contains Ascii.eqb Bool.eqb orb].
    rewrite orb_true_r.
    change (m ++ ":" ++ s) with (m ++ String ":" s).
    rewrite split_app by now apply Hno.
    rewrite split_no_sep by now apply Hno.
    cbn [mapM]. rewrite !int_of_str_numeral by assumption.
    reflexivity.
Qed.

Lemma parse_duration_clock_witness :
  numeral "01" = true /\ numeral "02" = true /\ numeral "03" = true
  /\ _parse_duration (PStr "01:02:03") = ok 3723
  /\ _parse_duration (PStr "02:03") = ok 123.
Proof.
  split; [reflexivity|]. split; [reflexivity|]. split; [reflexivity|].
  exact (parse_duration_clock "01" "02" "03" eq_refl eq_refl eq_refl).
Defined.
Lemma take_digits_app d rest :
  all_chars is_digit d = true ->
  match rest with String c _ => is_digit c = false | EmptyString => True end ->
  take_digits (d ++ rest) = (d, rest).
Proof.
  intros Hd Hr. induction d as [|c d IH].
  - cbn [append]. destruct rest as [|c r]; [reflexivity|].
    cbn [take_digits]. rewrite Hr. reflexivity.
  - unfold all_chars in Hd. cbn in Hd. apply andb_prop in Hd. destruct Hd as [Hc Hd].
    cbn [append take_digits]. rewrite Hc, (IH Hd). reflexivity.
Qed.

Lemma opt_group_hit u d rest :
  numeral d = true -> is_digit u = false ->
  opt_group u (d ++ String u rest) = (Some d, rest).
Proof.
  intros Hn Hu. unfold opt_group.
  rewrite take_digits_app by (try apply numeral_digits; assumption).
  destruct d; [discriminate Hn|]. rewrite Ascii.eqb_refl. reflexivity.
Qed.

Lemma opt_group_other u u' d rest :
  all_chars is_digit d = true -> is_digit u' = false -> u' <> u ->
  opt_group u (d ++ String u' rest) = (None, d ++ String u' rest).
Proof.
  intros Hd Hu Hne. unfold opt_group.
  rewrite take_digits_app by assumption.
  destruct d; [reflexivity|].
  apply Ascii.eqb_neq in Hne. rewrite Hne. reflexivity.
Qed.

Lemma group_int_field f :
  field_ok f = true -> group_int f = ok (field_value f).
Proof.
  destruct f as [d|]; [apply int_of_str_numeral|reflexivity].
Qed.

Lemma iso_field_chars p f u rest :
  (forall c, is_digit c = true -> p c = true) -> p u = true ->
  field_ok f = true -> all_chars p rest = true ->
  all_chars p (iso_field f u rest) = true.
Proof.
  intros Hp Hu Hf Hr. destruct f as [d|]; cbn [iso_field]; [|exact Hr].
  rewrite all_chars_app.
  rewrite (all_chars_impl is_digit p d Hp) by (apply numeral_digits; exact Hf).
  unfold all_chars in *. cbn. rewrite Hu, Hr. reflexivity.
Qed.

Lemma iso_text_chars p h m s :
  (forall c, is_digit c = true -> p c = true) ->
  p "P"%char = true -> p "T"%char = true -> p "H"%char = true ->
  p "M"%char = true -> p "S"%char = true ->
  field_ok h = true -> field_ok m = true -> field_ok s = true ->
  all_chars p (iso_text h m s) = true.
Proof.
  intros Hp HP HT HH HM HS Hh Hm Hs.
  unfold iso_text. rewrite all_chars_app.
  replace (all_chars p "PT") with true by (unfold all_chars; cbn; now rewrite HP, HT).
  repeat (apply iso_field_chars; try assumption). reflexivity.
Qed.

Lemma no_char_contains c s :
  all_chars (fun x => negb (Ascii.eqb x c)) s = true -> contains c s = false.
Proof.
  induction s as [|x s IH]; [reflexivity|].
  unfold all_chars. cbn. intros H. apply andb_prop in H. destruct H as [Hx Hs].
  rewrite (IH Hs). apply negb_true_iff in Hx. rewrite Hx. reflexivity.
Qed.

(** The three optional groups on the fields of an [iso_text]. *)
Lemma re_match_iso h m s :
  field_ok h = true -> field_ok m = true -> field_ok s = true ->
  re_match_PT (iso_text h m s) = Some (h, m, s).
Proof.
  intros Hh Hm Hs. unfold iso_text. cbn [append re_match_PT].
  assert (H1 : opt_group "H" (iso_field h "H" (iso_field m "M" (iso_field s "S" "")))
               = (h, iso_field m "M" (iso_field s "S" ""))).
  { destruct h as [dh|]; cbn [iso_field].
    - now apply opt_group_hit.
    - destruct m as [dm|]; cbn [iso_field].
      + apply opt_group_other;
          [now apply numeral_digits|reflexivity|discriminate].
      + destruct s as [ds|]; cbn [iso_field]; [|reflexivity].
        apply opt_group_other;
          [now apply numeral_digits|reflexivity|discriminate]. }
  assert (H2 : opt_group "M" (iso_field m "M" (iso_field s "S" ""))
               = (m, iso_field s "S" "")).
  { destruct m as [dm|]; cbn [iso_field].
    - now apply opt_group_hit.
    - destruct s as [ds|]; cbn [iso_field]; [|reflexivity].
      apply opt_group_other;
        [now apply numeral_digits|reflexivity|discriminate]. }
  assert (H3 : opt_group "S" (iso_field s "S" "") = (s, "")).
  { destruct s as [ds|]; cbn [iso_field]; [|reflexivity].
    now apply opt_group_hit. }
  rewrite H1, H2, H3. reflexivity.
Qed.

(** ISO-FORMAT: for optional numerals [h], [m] and [s], the text [PT]
    followed by those that are given, as [hH], [mM] and [sS] in this
    order, parses to [h*3600 + m*60 + s] seconds, a field that is not given
    counting as 0; [PT] alone is 0. *)
Theorem parse_duration_iso (h m s : option string) :
  field_ok h = true -> field_ok m = true -> field_ok s = true ->
  _parse_duration (PStr (iso_text h m s))
  = ok (field_value h * 3600 + field_value m * 60 + field_value s).
Proof.
  intros Hh Hm Hs.
  unfold _parse_duration. cbn [isna]. cbv zeta. unfold strip.
  rewrite strip_by_id
    by (apply iso_text_chars; try assumption; try reflexivity;
        intros c Hc; rewrite digit_not_space by exact Hc; reflexivity).
  rewrite no_char_contains
    by (apply iso_text_chars; try assumption; try reflexivity;
        intros c Hc; apply negb_true_iff, Ascii.eqb_neq;
        intros ->; discriminate Hc).
  rewrite re_match_iso by assumption.
  rewrite !group_int_field by assumption. reflexivity.
Qed.

Lemma parse_duration_iso_witness :
  field_ok (Some "1") = true /\ field_ok None = true /\ field_ok (Some "30") = true
  /\ iso_text (Some "1") None (Some "30") = "PT1H30S"
  /\ _parse_duration (PStr "PT1H30S") = ok 3630.
Proof.
  split; [reflexivity|]. split; [reflexivity|]. split; [reflexivity|].
  split; [reflexivity|].
  exact (parse_duration_iso (Some "1") None (Some "30") eq_refl eq_refl eq_refl).
Defined.

(** ** Padding *)

Lemma lstrip_by_pre sp pre s :
  all_chars sp pre = true -> lstrip_by sp (pre ++ s) = lstrip_by sp s.
Proof.
  induction pre as [|c pre IH]; [reflexivity|].
  unfold all_chars. cbn. intros H. apply andb_prop in H. destruct H as [Hc Hp].
  rewrite Hc. exact (IH Hp).
Qed.

Lemma rstrip_by_spaces sp s : all_chars sp s = true -> rstrip_by sp s = "".
Proof.
  induction s as [|c s IH]; [reflexivity|].
  unfold all_chars. cbn. intros H. apply andb_prop in H. destruct H as [Hc Hs].
  rewrite (IH Hs), Hc. reflexivity.
Qed.

Lemma rstrip_by_post sp s post :
  all_chars sp post = true -> rstrip_by sp (s ++ post) = rstrip_by sp s.
Proof.
  intros Hp. induction s as [|c s IH]; cbn [append rstrip_by].
  - now apply rstrip_by_spaces.
  - rewrite IH. reflexivity.
Qed.

Lemma lstrip_by_app sp s post :
  lstrip_by sp (s ++ post)
  = if all_chars sp s then lstrip_by sp post else lstrip_by sp s ++ post.
Proof.
  induction s as [|c s IH]; [reflexivity|].
  unfold all_chars in *. cbn. destruct (sp c); cbn [andb]; [exact IH|reflexivity].
Qed.

Lemma lstrip_by_spaces sp s : all_chars sp s = true -> lstrip_by sp s = "".
Proof.
  induction s as [|c s IH]; [reflexivity|].
  unfold all_chars. cbn. intros H. apply andb_prop in H. destruct H as [Hc Hs].
  rewrite Hc. exact (IH Hs).
Qed.

Lemma strip_by_padding sp pre s post :
  all_chars sp pre = true -> all_chars sp post = true ->
  strip_by sp (pre ++ s ++ post) = strip_by sp s.
Proof.
  intros Hpre Hpost. unfold strip_by.
  rewrite lstrip_by_pre by exact Hpre.
  rewrite lstrip_by_app.
  destruct (all_chars sp s) eqn:Hs.
  - rewrite (lstrip_by_spaces sp post Hpost), (lstrip_by_spaces sp s Hs). reflexivity.
  - now apply rstrip_by_post.
Qed.

(** PADDING: white space around a duration text does not change what it
    parses to, error included. *)
Theorem parse_duration_padding (pre s post : string) :
  all_chars is_space pre = true -> all_chars is_space post = true ->
  _parse_duration (PStr (pre ++ s ++ post)) = _parse_duration (PStr s).
Proof.
  intros Hpre Hpost. unfold _parse_duration. cbn [isna]. cbv zeta.
  unfold strip. rewrite strip_by_padding by assumption. reflexivity.
Qed.

Lemma parse_duration_padding_witness :
  all_chars is_space "  " = true
  /\ all_chars is_space (String (ascii_of_nat 9) (String (ascii_of_nat 10) "")) = true
  /\ _parse_duration
       (PStr ("  " ++ "1:30" ++ String (ascii_of_nat 9) (String (ascii_of_nat 10) "")))
     = ok 90.
Proof.
  split; [reflexivity|]. split; [reflexivity|].
  rewrite (parse_duration_padding "  " "1:30"
             (String (ascii_of_nat 9) (String (ascii_of_nat 10) "")) eq_refl eq_refl).
  reflexivity.
Defined.
(* ===================================================================== *)
(** * Integers below 2^53 are exact in binary64 *)
(* ===================================================================== *)

(** ** Plain numerals *)

Lemma cut_at_none p s :
  all_chars (fun c => negb (p c)) s = true -> cut_at p s = (s, None).
Proof.
  induction s as [|c s IH]; [reflexivity|].
  unfold all_chars. cbn. intros H. apply andb_prop in H. destruct H as [Hc Hs].
  apply negb_true_iff in Hc. rewrite Hc, (IH Hs). reflexivity.
Qed.

Lemma lower_numeral s : all_chars is_digit s = true -> lower s = s.
Proof.
  induction s as [|c s IH]; [reflexivity|].
  unfold all_chars. cbn. intros H. apply andb_prop in H. destruct H as [Hc Hs].
  rewrite (IH Hs). f_equal.
  unfold lower_char. unfold is_digit in Hc. apply andb_prop in Hc.
  destruct Hc as [_ Hc]. apply N.leb_le in Hc.
  replace (65 <=? code c)%N with false; [reflexivity|].
  symmetry. apply N.leb_gt. lia.
Qed.

Lemma decimal_value_nonneg s : all_chars is_digit s = true -> 0 <= decimal_value s.
Proof.
  unfold decimal_value.
  assert (H : forall l acc, forallb is_digit l = true -> 0 <= acc ->
              0 <= fold_left (fun a c => 10 * a + digit_val c) l acc).
  { induction l as [|c l IH]; intros acc Hl Hacc; [exact Hacc|].
    cbn in Hl. apply andb_prop in Hl. destruct Hl as [Hc Hl].
    cbn [fold_left]. apply IH; [exact Hl|].
    pose proof (digit_val_nonneg c Hc). lia. }
  intros Hs. apply H; [exact Hs|lia].
Qed.

(** [float] on a numeral: the binary64 nearest to its value. *)
Lemma float_literal_numeral s :
  numeral s = true ->
  float_literal s = Some (F64.of_decimal false (decimal_value s) 0).
Proof.
  intros Hn. pose proof (numeral_digits s Hn) as Hd.
  unfold float_literal.
  rewrite strip_by_id
    by (eapply all_chars_impl; [|exact Hd]; intros c Hc;
        rewrite digit_not_cspace by exact Hc; reflexivity).
  destruct s as [|c r]; [discriminate Hn|].
  assert (Hc : is_digit c = true).
  { unfold all_chars in Hd. cbn in Hd. now apply andb_prop in Hd. }
  assert (Hr : all_chars is_digit r = true).
  { unfold all_chars in Hd. cbn in Hd. now apply andb_prop in Hd. }
  destruct (digit_not_sign c Hc) as (Hm & Hp & _).
  assert (Hs : take_sign (String c r) = (false, String c r)).
  { unfold take_sign.
    destruct c as [[] [] [] [] [] [] [] []]; try reflexivity;
      first [now elim Hm | now elim Hp]. }
  rewrite Hs, lower_numeral by exact Hd.
  assert (Hw : forall w, is_digit w = false ->
                         String.eqb (String c r) (String w "") = false
                         /\ forall t, String.eqb (String c r) (String w t) = false).
  { intros w Hw.
    assert (Hcw : Ascii.eqb c w = false)
      by (apply Ascii.eqb_neq; intros ->; congruence).
    split; [|intros t]; cbn [String.eqb]; rewrite Hcw; reflexivity. }
  destruct (Hw "i"%char eq_refl) as [_ Hi]. destruct (Hw "n"%char eq_refl) as [_ Hnn].
  rewrite !Hi, Hnn. cbn [orb].
  unfold decimal_literal.
  rewrite cut_at_none
    by (eapply all_chars_impl; [|exact Hd]; intros x Hx;
        apply negb_true_iff; unfold is_e; apply orb_false_iff;
        split; apply Ascii.eqb_neq; intros ->; discriminate Hx).
  rewrite cut_at_none
    by (eapply all_chars_impl; [|exact Hd]; intros x Hx;
        apply negb_true_iff; unfold is_dot;
        apply Ascii.eqb_neq; intros ->; discriminate Hx).
  unfold digitpart. cbn [digitpart_from]. rewrite Hc.
  rewrite digitpart_from_value by exact Hr.
  reflexivity.
Qed.

(** PLAIN-SECONDS: a numeral whose value is below [2^53] parses to the number
    it denotes; the text goes through [float], so the bound is needed
    ([9007199254740993] parses to [9007199254740992]). *)
Theorem parse_duration_plain (s : string) :
  numeral s = true -> decimal_value s < 2 ^ 53 ->
  _parse_duration (PStr s) = ok (decimal_value s).
Proof.
  intros Hn Hv. pose proof (numeral_digits s Hn) as Hd.
  unfold _parse_duration. cbn [isna]. cbv zeta. unfold strip.
  rewrite strip_by_id
    by (eapply all_chars_impl; [|exact Hd]; intros c Hc;
        rewrite digit_not_space by exact Hc; reflexivity).
  rewrite digits_no_char by (try exact Hd; reflexivity).
  assert (Hre : re_match_PT s = None).
  { destruct s as [|c r]; [reflexivity|].
    assert (Hc : is_digit c = true).
    { unfold all_chars in Hd. cbn in Hd. now apply andb_prop in Hd. }
    destruct (digit_not_sign c Hc) as (_ & _ & _ & HP).
    unfold re_match_PT.
    destruct c as [[] [] [] [] [] [] [] []]; try reflexivity. now elim HP. }
  rewrite Hre. unfold float_of_str.
  rewrite float_literal_numeral by exact Hn.
  cbn [rbind]. unfold int_of_float.
  pose proof (decimal_value_nonneg s Hd) as H0.
  destruct (decimal_value s) as [|p|p] eqn:Hp; try lia.
  - reflexivity.
  - unfold F64.of_decimal. rewrite Z.pow_0_r, Z.mul_1_r. cbn [Z.to_pos].
    change F64.prec with 53. change F64.emax with 1024.
    unfold rbind, ok.
    rewrite (trunc_binary_round_small false p) by lia. reflexivity.
Qed.

Lemma parse_duration_plain_witness :
  numeral "0090" = true /\ decimal_value "0090" < 2 ^ 53
  /\ _parse_duration (PStr "0090") = ok 90.
Proof.
  split; [reflexivity|]. split; [reflexivity|].
  exact (parse_duration_plain "0090" eq_refl eq_refl).
Defined.

Lemma parse_duration_plain_rounds :
  _parse_duration (PStr "9007199254740993") = ok 9007199254740992.
Proof. vm_compute. reflexivity. Qed.
(* ===================================================================== *)
(** * Integers through the coercion *)
(* ===================================================================== *)

Lemma of_Z_not_nan z : - 2 ^ 53 < z < 2 ^ 53 -> F64.is_nan (F64.of_Z z) = false.
Proof.
  intros Hz. pose proof (trunc_of_Z z Hz) as H.
  destruct (F64.of_Z z); try reflexivity. discriminate H.
Qed.

Section IntegersKept.

Variable parse_numeric : string -> option number.

Lemma coerce_objects_integer l zs i v z n :
  astype_int
    (fillna0
       (let ns := map (coerce_cell parse_numeric) l in
        if forallb number_is_int ns
        then NumInt64 (map (fun n => match n with
                                     | NInt z => z
                                     | NFloat _ => 0
                                     end) ns)
        else NumFloat64 (map number_to_float ns))) = ok (Int64 zs) ->
  nth_error l i = Some v -> nth_error zs i = Some z ->
  cell_number parse_numeric v = Some (NInt n) ->
  - 2 ^ 53 < n < 2 ^ 53 -> z = n.
Proof.
  cbv zeta. intros H Hv Hz Hn Hr.
  assert (Hc : coerce_cell parse_numeric v = NInt n)
    by (unfold coerce_cell; rewrite Hn; reflexivity).
  destruct (forallb number_is_int (map (coerce_cell parse_numeric) l)).
  - cbn [fillna0 astype_int] in H. unfold ok in H. injection H as <-.
    rewrite !nth_error_map, Hv in Hz. cbn [option_map] in Hz.
    rewrite Hc in Hz. congruence.
  - cbn [fillna0 astype_int] in H.
    destruct (forallb F64.is_finite _); [|discriminate H].
    unfold ok in H. injection H as <-.
    rewrite !nth_error_map, Hv in Hz. cbn [option_map] in Hz.
    rewrite Hc in Hz. cbn [number_to_float] in Hz.
    rewrite of_Z_not_nan, cast_int64_of_Z in Hz by exact Hr. congruence.
Qed.

(** INTEGERS-KEPT: a cell that reads as an integer of magnitude below
    [2^53] comes out of the coercion of lines 67-69 as that integer,
    whatever the other cells of its column are; when a missing or
    fractional cell turns the column into float64, the detour through
    float64 does not change it. *)
Theorem coerce_int_keeps_integers (s : Series) (zs : list Z) (i : nat)
        (v : pyval) (z n : Z) :
  coerce_int parse_numeric s = ok (Int64 zs) ->
  nth_error (cells s) i = Some v -> nth_error zs i = Some z ->
  cell_number parse_numeric v = Some (NInt n) ->
  - 2 ^ 53 < n < 2 ^ 53 ->
  z = n.
Proof.
  intros H Hv Hz Hn Hr. unfold coerce_int in H.
  destruct s as [l|l|l|l]; cbn [cells] in Hv.
  - cbn [to_numeric fillna0 astype_int] in H. unfold ok in H. injection H as <-.
    rewrite nth_error_map, Hz in Hv. cbn [option_map] in Hv.
    injection Hv as <-. cbn [cell_number] in Hn. congruence.
  - rewrite nth_error_map in Hv.
    destruct (nth_error l i) as [f|]; [|discriminate Hv].
    cbn [option_map] in Hv. injection Hv as <-.
    cbn [cell_number] in Hn. destruct (F64.is_nan f); discriminate Hn.
  - exact (coerce_objects_integer l zs i v z n H Hv Hz Hn Hr).
  - exact (coerce_objects_integer _ zs i v z n H Hv Hz Hn Hr).
Qed.

End IntegersKept.

Lemma coerce_int_keeps_integers_witness :
  coerce_int python_numeric_text (Object [PStr "9007199254740991"; PNone])
  = ok (Int64 [9007199254740991; 0])
  /\ nth_error (cells (Object [PStr "9007199254740991"; PNone])) 0
     = Some (PStr "9007199254740991")
  /\ nth_error [9007199254740991; 0] 0 = Some 9007199254740991
  /\ cell_number python_numeric_text (PStr "9007199254740991")
     = Some (NInt 9007199254740991)
  /\ - 2 ^ 53 < 9007199254740991 < 2 ^ 53
  /\ 9007199254740991 = 9007199254740991.
Proof.
  assert (H1 : coerce_int python_numeric_text
                 (Object [PStr "9007199254740991"; PNone])
               = ok (Int64 [9007199254740991; 0])) by (vm_compute; reflexivity).
  assert (H2 : cell_number python_numeric_text (PStr "9007199254740991")
               = Some (NInt 9007199254740991)) by (vm_compute; reflexivity).
  assert (H3 : - 2 ^ 53 < 9007199254740991 < 2 ^ 53) by (split; reflexivity).
  split; [exact H1|]. split; [reflexivity|]. split; [reflexivity|].
  split; [exact H2|]. split; [exact H3|].
  exact (coerce_int_keeps_integers python_numeric_text _ _ 0%nat _ _ _
           H1 eq_refl eq_refl H2 H3).
Defined.

(** Above [2^53] the detour shows. *)
Lemma coerce_int_rounds_large :
  coerce_int python_numeric_text (Object [PStr "9007199254740993"; PNone])
  = ok (Int64 [9007199254740992; 0]).
Proof. vm_compute. reflexivity. Qed.
(* ===================================================================== *)
(** * The length bucket of a duration in seconds *)
(* ===================================================================== *)

(** The binary order of a converted integer. *)
Lemma binary_round_order s m :
  Zpos m < 2 ^ 64 ->
  exists k, Z.log2 (Zpos m) + 1 <= k <= Z.log2 (Zpos m) + 2
            /\ normal s k (binary_round 53 1024 s m 0).
Proof.
  intros Hm. unfold binary_round.
  pose proof (Zdigits2_log2 (Zpos m) eq_refl) as Hd. cbn [Zdigits2] in Hd.
  rewrite Hd, Z.add_0_r.
  assert (Hl0 : 0 <= Z.log2 (Zpos m)) by apply Z.log2_nonneg.
  assert (Hl1 : Z.log2 (Zpos m) < 64) by (apply Z.log2_lt_pow2; lia).
  assert (Hf : fexp 53 1024 (Z.log2 (Zpos m) + 1) = Z.log2 (Zpos m) + 1 - 53).
  { unfold fexp, emin. lia. }
  rewrite Hf. unfold shl_align.
  destruct (Z.log2 (Z.pos m) + 1 - 53 - 0) as [|p|p] eqn:Hs.
  - destruct (binary_round_aux_normal s (Zpos m) 0 loc_Exact) as [H|H];
      try lia; eexists; (split; [|exact H]); lia.
  - destruct (binary_round_aux_normal s (Zpos m) 0 loc_Exact) as [H|H];
      try lia; eexists; (split; [|exact H]); lia.
  - assert (Hlog : Z.log2 (Zpos (Pos.iter xO m p)) = 52).
    { rewrite pos_iter_xO, Z.log2_mul_pow2 by lia. lia. }
    destruct (binary_round_aux_normal s (Zpos (Pos.iter xO m p))
                (Z.log2 (Zpos m) + 1 - 53) loc_Exact) as [H|H];
      try lia; rewrite Hlog in H; eexists; (split; [|exact H]); lia.
Qed.

Lemma of_Z_order z :
  0 < Z.abs z < 2 ^ 64 ->
  exists k, Z.log2 (Z.abs z) + 1 <= k <= Z.log2 (Z.abs z) + 2
            /\ normal (z <? 0) k (F64.of_Z z).
Proof.
  intros Hz. destruct z as [|p|p]; cbn [Z.abs] in *; try lia.
  - apply (binary_round_order false p). lia.
  - apply (binary_round_order true p). lia.
Qed.

(** [rint] keeps the binary order of a number that is at least 1, or
    moves it up by one. *)
Lemma rint_normal s k f :
  normal s k f -> 1 <= k ->
  exists k', k <= k' <= k + 1 /\ normal s k' (F64.rint f).
Proof.
  intros (m & -> & Hm) Hk. unfold F64.rint.
  destruct (k - 53) as [|p|p] eqn:He.
  - exists k. split; [lia|]. exists m. rewrite He. auto.
  - exists k. split; [lia|]. exists m. rewrite He. auto.
  - pose proof (log2_52_bounds m Hm) as Bm.
    assert (Hp : Zpos p = 53 - k) by lia.
    assert (Hd : 0 < 2 ^ Zpos p) by (apply Z.pow_pos_nonneg; lia).
    assert (Hsplit : 2 ^ 52 = 2 ^ (k - 1) * 2 ^ Zpos p).
    { rewrite <- Z.pow_add_r by lia. f_equal. lia. }
    assert (Hsplit' : 2 ^ 53 = 2 ^ k * 2 ^ Zpos p).
    { rewrite <- Z.pow_add_r by lia. f_equal. lia. }
    assert (Hk1 : 0 < 2 ^ (k - 1)) by (apply Z.pow_pos_nonneg; lia).
    assert (Hkk : 2 ^ k = 2 * 2 ^ (k - 1)).
    { rewrite <- Z.pow_succ_r by lia. f_equal. lia. }
    set (d := 2 ^ Zpos p) in *.
    assert (Hq : 2 ^ (k - 1) <= Zpos m / d < 2 ^ k).
    { split.
      - apply Z.div_le_lower_bound; [lia|]. rewrite Z.mul_comm. lia.
      - apply Z.div_lt_upper_bound; [lia|]. rewrite Z.mul_comm. lia. }
    set (q := Zpos m / d) in *.
    set (n := match 2 * (Zpos m mod d) ?= d with
              | Eq => if Z.even q then q else q + 1
              | Lt => q
              | Gt => q + 1
              end).
    assert (Hn : 2 ^ (k - 1) <= n <= 2 ^ k).
    { subst n. destruct (2 * (Zpos m mod d) ?= d); [destruct (Z.even q)| |]; lia. }
    assert (Hk52 : 2 ^ k <= 2 ^ 52) by (apply Z.pow_le_mono_r; lia).
    assert (P : 2 ^ 52 < 2 ^ 53) by reflexivity.
    change F64.prec with 53. change F64.emax with 1024.
    destruct n as [|np|np] eqn:Hnp; try lia.
    assert (Hlog : k - 1 <= Z.log2 (Zpos np) <= k).
    { split.
      - apply Z.log2_le_pow2; lia.
      - destruct (Z.eq_dec (Zpos np) (2 ^ k)) as [->|Hne].
        + rewrite Z.log2_pow2 by lia. lia.
        + assert (Z.log2 (Zpos np) < k) by (apply Z.log2_lt_pow2; lia). lia. }
    destruct (binary_round_small s np) as (m' & p' & Hr & Hp' & Hm' & Hl'); [lia|].
    assert (Hp'' : p' = 52 - Z.log2 (Zpos np)).
    { rewrite Hm', Z.log2_mul_pow2 in Hl' by lia. lia. }
    exists (Z.log2 (Zpos np) + 1). split; [lia|].
    exists m'. split; [|exact Hl'].
    replace (Z.log2 (Zpos np) + 1 - 53) with (- p') by lia.
    destruct s; exact Hr.
Qed.

Lemma sixty_normal : normal false 6 (F64.of_Z 60).
Proof. eexists. split; reflexivity. Qed.

(** The minutes of a duration of at least 4096 seconds, either sign: a
    number of that sign and of magnitude at least 32. *)
Lemma minutes_order d :
  2 ^ 12 <= Z.abs d < 2 ^ 64 ->
  exists k, 6 <= k <= 70 /\ normal (d <? 0) k (minutes_of d).
Proof.
  intros Hd.
  assert (Hl : 12 <= Z.log2 (Z.abs d) < 64).
  { split; [apply Z.log2_le_pow2; lia|apply Z.log2_lt_pow2; lia]. }
  destruct (of_Z_order d) as (k0 & Hk0 & H0); [lia|].
  unfold minutes_of, F64.round2, F64.hundred.
  destruct (div_normal _ _ _ _ _ _ H0 sixty_normal) as (k1 & Hk1 & H1); try lia.
  destruct (mul_normal _ _ _ _ _ _ H1 hundred_normal) as (k2 & Hk2 & H2); try lia.
  destruct (rint_normal _ _ _ H2) as (k3 & Hk3 & H3); [lia|].
  destruct (div_normal _ _ _ _ _ _ H3 hundred_normal) as (k4 & Hk4 & H4); try lia.
  rewrite !xorb_false_r in H4.
  exists k4. split; [lia|exact H4].
Qed.

Lemma cut1_large m k :
  6 <= k ->
  cut1 length_bins length_labels (S754_finite false m (k - 53))
  = Some "Very Long (30+ min)".
Proof.
  intros Hk. unfold cut1, searchsorted_left, length_bins. cbn [F64.is_nan].
  replace (F64.of_Z 0) with (S754_zero false) by reflexivity.
  replace (F64.of_Z 5) with (S754_finite false 5629499534213120 (-50)) by reflexivity.
  replace (F64.of_Z 15) with (S754_finite false 8444249301319680 (-49)) by reflexivity.
  replace (F64.of_Z 30) with (S754_finite false 8444249301319680 (-48)) by reflexivity.
  unfold F64.inf, F64.ltb, SFltb. cbn [filter SFcompare].
  replace (-50 ?= k - 53) with Lt by (symmetry; apply Z.compare_lt_iff; lia).
  replace (-49 ?= k - 53) with Lt by (symmetry; apply Z.compare_lt_iff; lia).
  replace (-48 ?= k - 53) with Lt by (symmetry; apply Z.compare_lt_iff; lia).
  reflexivity.
Qed.

Lemma cut1_negative m e :
  cut1 length_bins length_labels (S754_finite true m e) = None.
Proof. reflexivity. Qed.

Lemma small_durations :
  forallb (fun d => same_bucket (length_category_of d) (bucket_of_seconds d))
          (Z_range (-4096) (Z.to_nat 8193)) = true.
Proof. vm_compute. reflexivity. Qed.

Lemma same_bucket_eq a b : same_bucket a b = true -> a = b.
Proof.
  destruct a, b; cbn; try discriminate; [|reflexivity].
  intros H. apply String.eqb_eq in H. congruence.
Qed.

Lemma Z_range_In lo n z : lo <= z < lo + Z.of_nat n -> In z (Z_range lo n).
Proof.
  intros H. unfold Z_range. apply in_map_iff.
  exists (Z.to_nat (z - lo)). split; [lia|].
  apply in_seq. lia.
Qed.

(** LENGTH-BY-SECONDS: the bucket of a record is decided by its duration
    in whole seconds: none up to 0, "Short" from 1 to 300, "Medium" from
    301 to 900, "Long" from 901 to 1800 and "Very Long" from 1801 on. The
    rounding of the minutes to two decimals moves no duration across a
    threshold. *)
Theorem length_category_by_seconds (d : Z) :
  in_int64 d = true ->
  length_category_of d
  = if d <=? 0 then None
    else if d <=? 300 then Some "Short (0-5 min)"
    else if d <=? 900 then Some "Medium (5-15 min)"
    else if d <=? 1800 then Some "Long (15-30 min)"
    else Some "Very Long (30+ min)".
Proof.
  intros Hr. unfold in_int64, int64_min, int64_max in Hr.
  apply andb_true_iff in Hr. destruct Hr as [Hlo Hhi].
  apply Z.leb_le in Hlo, Hhi.
  assert (P63 : 2 ^ 63 = 9223372036854775808) by reflexivity.
  assert (P64 : 2 ^ 64 = 18446744073709551616) by reflexivity.
  assert (P12 : 2 ^ 12 = 4096) by reflexivity.
  change (length_category_of d = bucket_of_seconds d).
  destruct (Z_lt_le_dec (Z.abs d) 4096) as [Hsmall|Hbig].
  - apply same_bucket_eq.
    pose proof small_durations as Hall. rewrite forallb_forall in Hall.
    apply Hall. apply Z_range_In. lia.
  - destruct (minutes_order d) as (k & Hk & m & Hm & _); [lia|].
    unfold length_category_of. rewrite Hm.
    unfold bucket_of_seconds.
    destruct (d <? 0) eqn:Hs.
    + apply Z.ltb_lt in Hs. rewrite cut1_negative.
      replace (d <=? 0) with true by (symmetry; apply Z.leb_le; lia). reflexivity.
    + apply Z.ltb_ge in Hs. rewrite cut1_large by lia.
      replace (d <=? 0) with false by (symmetry; apply Z.leb_gt; lia).
      replace (d <=? 300) with false by (symmetry; apply Z.leb_gt; lia).
      replace (d <=? 900) with false by (symmetry; apply Z.leb_gt; lia).
      replace (d <=? 1800) with false by (symmetry; apply Z.leb_gt; lia).
      reflexivity.
Qed.

Lemma length_category_by_seconds_witness :
  in_int64 301 = true
  /\ minutes_of 301 = F64.of_decimal false 502 (-2)
  /\ length_category_of 301 = Some "Medium (5-15 min)".
Proof.
  split; [reflexivity|]. split; [vm_compute; reflexivity|].
  exact (length_category_by_seconds 301 eq_refl).
Defined.
(* ===================================================================== *)
(** * More on frames *)
(* ===================================================================== *)

Lemma filter_setitem_other df c c' s :
  c <> c' ->
  filter (fun x => String.eqb c (fst x)) (columns (setitem df c' s))
  = filter (fun x => String.eqb c (fst x)) (columns df).
Proof.
  intros Hne. unfold setitem. cbn [columns].
  assert (Hcc : String.eqb c c' = false) by now apply String.eqb_neq.
  destruct (has_label df c').
  - induction (columns df) as [|[l v] cols IH]; [reflexivity|].
    cbn [map filter fst]. destruct (String.eqb c' l) eqn:El.
    + apply String.eqb_eq in El. subst l. cbn [fst]. rewrite Hcc. exact IH.
    + cbn [fst]. rewrite IH. reflexivity.
  - rewrite filter_app. cbn [filter fst]. rewrite Hcc. apply app_nil_r.
Qed.

Lemma getitem_setitem_other df c c' s :
  c <> c' -> getitem (setitem df c' s) c = getitem df c.
Proof.
  intros Hne. unfold getitem. rewrite filter_setitem_other by exact Hne. reflexivity.
Qed.

(* ===================================================================== *)
(** * More on the schema: idempotence, ambiguous and missing counters *)
(* ===================================================================== *)

Lemma canonical_range x y :
  canonical x = Some y ->
  In y ["title"; "category"; "views"; "likes"; "comments"; "duration";
        "subscribers"].
Proof.
  unfold canonical.
  repeat match goal with
         | |- context [if ?b then _ else _] => destruct b
         end;
    intros [= <-]; cbn; tauto.
Qed.

Lemma renamed_label_canonical y :
  In y ["title"; "category"; "views"; "likes"; "comments"; "duration";
        "subscribers"] ->
  renamed_label y = y.
Proof.
  cbn [In]. intros H.
  repeat (destruct H as [<-|H]; [reflexivity|]). destruct H.
Qed.

Lemma renamed_label_idem c : renamed_label (renamed_label c) = renamed_label c.
Proof.
  unfold renamed_label at 2 3.
  destruct (canonical (col_key c)) as [y|] eqn:E.
  - apply renamed_label_canonical. eapply canonical_range. exact E.
  - unfold renamed_label. rewrite E. reflexivity.
Qed.

Lemma ensure_column_present df col :
  has_label df col = true -> ensure_column df col = df.
Proof. intros H. unfold ensure_column. rewrite H. reflexivity. Qed.

Lemma ensure_all_has_label cols : forall df c,
  has_label (fold_left ensure_column cols df) c = has_label df c || in_list c cols.
Proof.
  induction cols as [|col cols IH]; intros df c; cbn [fold_left in_list existsb].
  - now rewrite orb_false_r.
  - rewrite IH, ensure_column_has_label. unfold in_list.
    now rewrite orb_assoc.
Qed.

Lemma ensure_all_present cols : forall df,
  (forall c, In c cols -> has_label df c = true) ->
  fold_left ensure_column cols df = df.
Proof.
  induction cols as [|col cols IH]; intros df H; cbn [fold_left]; [reflexivity|].
  rewrite ensure_column_present by (apply H; now left).
  apply IH. intros c Hc. apply H. now right.
Qed.

Lemma normalized_label_fixed df c s :
  In (c, s) (columns (normalize_schema df)) -> renamed_label c = c.
Proof.
  unfold normalize_schema. intros H.
  apply ensure_all_In_inv in H. destruct H as [H|[H _]].
  - rewrite rename_columns in H. apply in_map_iff in H.
    destruct H as ([l v] & [= <- _] & _). apply renamed_label_idem.
  - apply renamed_label_canonical. cbn [required_cols In] in *.
    repeat (destruct H as [<-|H]; [tauto|]). destruct H.
Qed.

(** SCHEMA-IDEMPOTENT: normalizing the schema of a frame whose schema has
    been normalized changes nothing: every label is then canonical or
    unknown to the synonym table, and no required column is missing. *)
Theorem normalize_schema_idempotent (df : DataFrame) :
  normalize_schema (normalize_schema df) = normalize_schema df.
Proof.
  set (X := normalize_schema df).
  assert (Hren : rename (column_mapping (labels X)) X = X).
  { assert (Hc : columns (rename (column_mapping (labels X)) X) = columns X).
    { rewrite rename_columns. rewrite <- (map_id (columns X)) at 2.
      apply map_ext_in. intros [c s] Hin. cbn [fst snd].
      now rewrite (normalized_label_fixed df c s Hin). }
    destruct X as [n cols]. unfold rename in *. cbn [nrows columns] in *.
    now rewrite Hc. }
  unfold normalize_schema at 1. cbv zeta. rewrite Hren.
  apply ensure_all_present. intros c Hc.
  unfold X, normalize_schema. rewrite ensure_all_has_label.
  replace (in_list c required_cols) with true; [apply orb_true_r|].
  symmetry. unfold in_list. apply existsb_exists. exists c.
  split; [exact Hc|apply String.eqb_refl].
Qed.

Lemma rename_labels df :
  labels (rename (column_mapping (labels df)) df) = map renamed_label (labels df).
Proof.
  unfold labels at 1. rewrite rename_columns, map_map.
  unfold labels. rewrite map_map. reflexivity.
Qed.

(** ** A counter that two columns of the file stand for *)

Lemma getitem_ambiguous df c :
  (2 <= List.length (filter (fun x => String.eqb c (fst x)) (columns df)))%nat ->
  getitem df c
  = throw (Exn TypeError "arg must be a list, tuple, 1-d array, or Series").
Proof.
  unfold getitem.
  destruct (filter _ (columns df)) as [|x [|y l]]; cbn [List.length]; try lia.
  reflexivity.
Qed.

Lemma ensure_column_filter df col c :
  (List.length (filter (fun x => String.eqb c (fst x)) (columns df))
   <= List.length (filter (fun x => String.eqb c (fst x))
                          (columns (ensure_column df col))))%nat.
Proof.
  destruct (has_label df col) eqn:H.
  - rewrite ensure_column_present by exact H. lia.
  - rewrite ensure_column_new by exact H.
    rewrite filter_app, length_app. lia.
Qed.

Lemma ensure_all_filter cols c : forall df,
  (List.length (filter (fun x => String.eqb c (fst x)) (columns df))
   <= List.length (filter (fun x => String.eqb c (fst x))
                          (columns (fold_left ensure_column cols df))))%nat.
Proof.
  induction cols as [|col cols IH]; intros df; cbn [fold_left]; [lia|].
  etransitivity; [apply (ensure_column_filter df col c)|apply IH].
Qed.

Lemma renamed_filter c cols :
  List.length (filter (fun x : string * Series => String.eqb c (fst x))
                 (map (fun x => (renamed_label (fst x), snd x)) cols))
  = List.length (filter (fun l => String.eqb (renamed_label l) c) (map fst cols)).
Proof.
  induction cols as [|[l s] cols IH]; [reflexivity|].
  cbn [map filter fst snd]. rewrite (String.eqb_sym c).
  destruct (String.eqb (renamed_label l) c); cbn [List.length]; now rewrite IH.
Qed.

Section AmbiguousCounter.

Variable parse_numeric : string -> option number.

(** AMBIGUOUS-COUNTER: a file in which two columns stand for the same
    counter (say [views] and [view_count]) cannot be loaded: after the
    renaming both carry the canonical label, and the conversion of the
    counter raises. *)
Theorem duplicated_counter_fails (df : DataFrame) (c : string) :
  In c ["views"; "likes"; "comments"] ->
  (2 <= List.length (synonyms_in df c))%nat ->
  exists e, load_frame parse_numeric df = inl e.
Proof.
  intros Hc Hdup. unfold synonyms_in in Hdup.
  assert (Hamb : (2 <= List.length (filter (fun x => String.eqb c (fst x))
                                      (columns (normalize_schema df))))%nat).
  { unfold normalize_schema. cbv zeta.
    etransitivity; [|apply ensure_all_filter].
    rewrite rename_columns, renamed_filter. exact Hdup. }
  unfold load_frame. cbv zeta.
  set (X := normalize_schema df) in *.
  assert (Hclean : exists e, clean_types parse_numeric X = inl e).
  { unfold clean_types.
    destruct (getitem X "views") as [e|v] eqn:Hv; [now exists e|].
    cbn [rbind].
    destruct (coerce_int parse_numeric v) as [e|v']; [now exists e|].
    cbn [rbind].
    destruct (getitem (setitem X "views" v') "likes") as [e|l] eqn:Hl;
      [now exists e|].
    cbn [rbind].
    destruct (coerce_int parse_numeric l) as [e|l']; [now exists e|].
    cbn [rbind].
    destruct (getitem (setitem (setitem X "views" v') "likes" l') "comments")
      as [e|k] eqn:Hk; [now exists e|].
    exfalso.
    cbn [In] in Hc. destruct Hc as [<-|[<-|[<-|[]]]].
    - rewrite getitem_ambiguous in Hv by exact Hamb. discriminate Hv.
    - rewrite getitem_ambiguous in Hl
        by (rewrite filter_setitem_other by discriminate; exact Hamb).
      discriminate Hl.
    - rewrite getitem_ambiguous in Hk
        by (rewrite !filter_setitem_other by discriminate; exact Hamb).
      discriminate Hk. }
  destruct Hclean as [e ->]. exists e. reflexivity.
Qed.

(** ** No column for the views *)

Lemma add_calculated_nrows df df3 :
  add_calculated df = ok df3 -> nrows df3 = nrows df.
Proof.
  unfold add_calculated. intros H.
  repeat bind_inv H. unfold ok in H. injection H as <-.
  now rewrite !setitem_nrows.
Qed.

Lemma count_true_zeros n :
  count_true (map (fun v => 0 <? v) (repeat 0 n)) = O.
Proof.
  unfold count_true. induction n as [|n IH]; [reflexivity|exact IH].
Qed.

Lemma clean_types_views_value X cleaned views :
  getitem X "views" = ok (Int64 views) ->
  clean_types parse_numeric X = ok cleaned ->
  column_is cleaned "views" (Int64 views).
Proof.
  intros Hget Hclean. unfold clean_types in Hclean.
  unfold ok in Hget. rewrite Hget in Hclean.
  cbn [rbind] in Hclean.
  change (coerce_int parse_numeric (Int64 views)) with (@inr exn _ (Int64 views))
    in Hclean.
  cbn [rbind] in Hclean.
  bind_inv Hclean. bind_inv Hclean. bind_inv Hclean. bind_inv Hclean.
  bind_inv Hclean. bind_inv Hclean.
  unfold ok in Hclean. injection Hclean as <-.
  repeat (apply setitem_column_is_other; [discriminate|]).
  apply setitem_column_is_same.
Qed.

(** MISSING-VIEWS: when no column of the file stands for the views, the
    column is synthesized as zeros, every row is dropped by the filter,
    and a load that returns returns a frame without rows. *)
Theorem no_views_column_loads_nothing (df df' : DataFrame) :
  (forall c, In c (labels df) -> renamed_label c <> "views") ->
  load_frame parse_numeric df = ok df' ->
  nrows df' = O.
Proof.
  intros Hno H.
  assert (Hmiss : has_label (rename (column_mapping (labels df)) df) "views" = false).
  { destruct (has_label _ "views") eqn:E; [|reflexivity].
    apply has_label_In in E. rewrite rename_labels in E.
    apply in_map_iff in E. destruct E as (l & E & Hin).
    exfalso. exact (Hno l Hin E). }
  assert (Hget : getitem (normalize_schema df) "views"
                 = ok (Int64 (repeat 0 (nrows df)))).
  { unfold normalize_schema. cbv zeta.
    rewrite ensure_all_getitem_new;
      [reflexivity|apply required_cols_NoDup|cbn; tauto|exact Hmiss]. }
  unfold load_frame in H. cbv zeta in H.
  bind_inv H. rename x into cleaned. rename Hx into Hclean.
  bind_inv H. rename x into kept. rename Hx into Hkeep.
  rewrite (add_calculated_nrows _ _ H).
  pose proof (clean_types_views_value _ _ _ Hget Hclean) as Hv.
  unfold drop_invalid in Hkeep. bind_inv Hkeep.
  pose proof (column_is_getitem _ _ _ _ Hv Hx) as ->.
  cbn [series_gt_const rbind] in Hkeep. unfold ok in Hkeep.
  injection Hkeep as <-.
  cbn [filter_rows nrows]. apply count_true_zeros.
Qed.

End AmbiguousCounter.
(* ===================================================================== *)
(** * The duration fields of the loaded frame *)
(* ===================================================================== *)

Section DurationFields.

Variable parse_numeric : string -> option number.

Lemma clean_types_duration X cleaned :
  clean_types parse_numeric X = ok cleaned ->
  exists raw parsed,
    getitem X "duration" = ok raw
    /\ mapM _parse_duration (cells raw) = ok parsed
    /\ column_is cleaned "duration" (Int64 parsed).
Proof.
  intros Hc. unfold clean_types in Hc.
  bind_inv Hc. bind_inv Hc. bind_inv Hc. bind_inv Hc. bind_inv Hc. bind_inv Hc.
  bind_inv Hc. bind_inv Hc.
  unfold ok in Hc. injection Hc as <-.
  rewrite !getitem_setitem_other in Hx5 by discriminate.
  exists x5, x6. split; [exact Hx5|]. split; [exact Hx6|].
  apply setitem_column_is_same.
Qed.

Lemma drop_invalid_column df kept views c s :
  column_is df "views" (Int64 views) ->
  drop_invalid df = ok kept ->
  column_is df c s ->
  column_is kept c (series_filter (map (fun v => 0 <? v) views) s).
Proof.
  intros Hviews Hkeep Hc. unfold drop_invalid in Hkeep.
  bind_inv Hkeep.
  pose proof (column_is_getitem _ _ _ _ Hviews Hx) as ->.
  cbn [series_gt_const rbind] in Hkeep. unfold ok in Hkeep.
  injection Hkeep as <-.
  exact (filter_rows_column_is _ _ _ _ Hc).
Qed.

Lemma add_calculated_duration kept df' duration :
  column_is kept "duration" (Int64 duration) ->
  add_calculated kept = ok df' ->
  column_is df' "duration" (Int64 duration)
  /\ column_is df' "duration_minutes" (Float64 (map minutes_of duration))
  /\ column_is df' "length_category"
       (Categorical (map length_category_of duration)).
Proof.
  intros Hkd H. unfold add_calculated in H.
  bind_inv H. bind_inv H. bind_inv H. bind_inv H. bind_inv H. bind_inv H.
  bind_inv H. bind_inv H.
  assert (Hd1 : column_is (setitem kept "engagement_rate" x5) "duration"
                  (Int64 duration))
    by (apply setitem_column_is_other; [discriminate|exact Hkd]).
  pose proof (column_is_getitem _ _ _ _ Hd1 Hx6) as ->.
  bind_inv H. bind_inv H.
  cbn [series_truediv_const as_floats] in Hx7. unfold ok in Hx7.
  injection Hx7 as <-.
  cbn [series_round2] in Hx8. unfold ok in Hx8. injection Hx8 as <-.
  bind_inv H.
  pose proof (column_is_getitem _ _ _ _
                (setitem_column_is_same _ "duration_minutes" _) Hx7) as ->.
  bind_inv H.
  cbn [cut as_floats] in Hx8. unfold ok in Hx8. injection Hx8 as <-.
  unfold ok in H. injection H as <-.
  rewrite !map_map.
  change (fun x => F64.round2 (F64.div (F64.of_Z x) (F64.of_Z 60))) with minutes_of.
  change (fun x => cut1 length_bins length_labels (minutes_of x))
    with length_category_of.
  split_conj.
  - apply setitem_column_is_other; [discriminate|].
    apply setitem_column_is_other; [discriminate|exact Hd1].
  - apply setitem_column_is_other; [discriminate|].
    apply setitem_column_is_same.
  - apply setitem_column_is_same.
Qed.

(** DURATION-FIELDS: in a loaded frame the [duration] column holds, for the
    rows with positive views and in their order, what [_parse_duration]
    made of the cells of the duration column; [duration_minutes] and
    [length_category] are computed from it record by record.  (The
    durations are taken within int64, the range of the model.) *)
Theorem loaded_duration_fields (df df' : DataFrame) :
  int64_durations df ->
  load_frame parse_numeric df = ok df' ->
  exists cleaned views raw parsed,
    clean_types parse_numeric (normalize_schema df) = ok cleaned
    /\ column_is cleaned "views" (Int64 views)
    /\ getitem (normalize_schema df) "duration" = ok raw
    /\ mapM _parse_duration (cells raw) = ok parsed
    /\ (let duration := filter_mask (map (fun v => 0 <? v) views) parsed in
        column_is df' "duration" (Int64 duration)
        /\ column_is df' "duration_minutes" (Float64 (map minutes_of duration))
        /\ column_is df' "length_category"
             (Categorical (map length_category_of duration))).
Proof.
  unfold load_frame. intros _ H. cbv zeta in H.
  bind_inv H. rename x into cleaned. rename Hx into Hclean.
  bind_inv H. rename x into kept. rename Hx into Hkeep.
  destruct (clean_types_views parse_numeric _ _ Hclean) as (views & Hviews).
  destruct (clean_types_duration _ _ Hclean) as (raw & parsed & Hraw & Hparsed & Hcd).
  exists cleaned, views, raw, parsed.
  split; [reflexivity|]. split; [exact Hviews|].
  split; [exact Hraw|]. split; [exact Hparsed|].
  cbv zeta.
  apply (add_calculated_duration kept); [|exact H].
  exact (drop_invalid_column _ _ _ _ _ Hviews Hkeep Hcd).
Qed.

Lemma mapM_parse_zeros n :
  mapM _parse_duration (map PInt (repeat 0 n)) = ok (repeat 0 n).
Proof.
  induction n as [|n IH]; [reflexivity|].
  cbn [repeat map mapM]. unfold ok in IH. rewrite IH. reflexivity.
Qed.

Lemma filter_mask_repeat {A} (a : A) : forall mask n,
  exists k, filter_mask mask (repeat a n) = repeat a k.
Proof.
  induction mask as [|b mask IH]; intros n.
  - exists O. reflexivity.
  - destruct n as [|n]; [exists O; reflexivity|].
    destruct (IH n) as (k & Hk). cbn [repeat filter_mask]. rewrite Hk.
    destruct b; [exists (S k)|exists k]; reflexivity.
Qed.

(** MISSING-DURATION: when no column of the file stands for the duration,
    every record of the loaded frame has duration 0 and no length
    category at all, so that the length table has nothing to group. *)
Theorem no_duration_column_no_bucket (df df' : DataFrame) :
  (forall c, In c (labels df) -> renamed_label c <> "duration") ->
  load_frame parse_numeric df = ok df' ->
  exists k,
    column_is df' "duration" (Int64 (repeat 0 k))
    /\ column_is df' "length_category" (Categorical (repeat None k)).
Proof.
  intros Hno H.
  assert (Hmiss : has_label (rename (column_mapping (labels df)) df) "duration"
                  = false).
  { destruct (has_label _ "duration") eqn:E; [|reflexivity].
    apply has_label_In in E. rewrite rename_labels in E.
    apply in_map_iff in E. destruct E as (l & E & Hin).
    exfalso. exact (Hno l Hin E). }
  assert (Hget : getitem (normalize_schema df) "duration"
                 = ok (Int64 (repeat 0 (nrows df)))).
  { unfold normalize_schema. cbv zeta.
    rewrite ensure_all_getitem_new;
      [reflexivity|apply required_cols_NoDup|cbn; tauto|exact Hmiss]. }
  unfold load_frame in H. cbv zeta in H.
  bind_inv H. rename x into cleaned. rename Hx into Hclean.
  bind_inv H. rename x into kept. rename Hx into Hkeep.
  destruct (clean_types_views parse_numeric _ _ Hclean) as (views & Hviews).
  destruct (clean_types_duration _ _ Hclean) as (raw & parsed & Hraw & Hparsed & Hcd).
  rewrite Hget in Hraw. unfold ok in Hraw. injection Hraw as <-.
  cbn [cells] in Hparsed. rewrite mapM_parse_zeros in Hparsed.
  unfold ok in Hparsed. injection Hparsed as <-.
  pose proof (drop_invalid_column _ _ _ _ _ Hviews Hkeep Hcd) as Hkd.
  cbn [series_filter] in Hkd.
  destruct (filter_mask_repeat 0 (map (fun v => 0 <? v) views) (nrows df))
    as (k & Hk).
  rewrite Hk in Hkd.
  destruct (add_calculated_duration _ _ _ Hkd H) as (Hd & _ & Hc).
  exists k. split; [exact Hd|].
  replace (repeat None k) with (map length_category_of (repeat 0 k)); [exact Hc|].
  clear. induction k as [|k IH]; [reflexivity|].
  cbn [repeat map]. rewrite IH. reflexivity.
Qed.

End DurationFields.

Lemma sample_frame_durations : int64_durations sample_frame.
Proof.
  intros l s v z Hin Hl Hv Hz. cbn [sample_frame columns In] in Hin.
  repeat (destruct Hin as [[= <- <-]|Hin];
          [try discriminate Hl; cbn [cells map In] in Hv;
           repeat (destruct Hv as [<-|Hv];
                   [vm_compute in Hz; injection Hz as <-; reflexivity|]);
           destruct Hv|]).
  destruct Hin.
Qed.

Lemma loaded_duration_fields_witness :
  int64_durations sample_frame
  /\ load_frame python_numeric_text sample_frame = ok sample_loaded
  /\ exists duration,
       column_is sample_loaded "duration" (Int64 duration)
       /\ column_is sample_loaded "duration_minutes" (Float64 (map minutes_of duration))
       /\ column_is sample_loaded "length_category"
            (Categorical (map length_category_of duration)).
Proof.
  split; [exact sample_frame_durations|]. split; [exact sample_frame_loaded|].
  destruct (loaded_duration_fields python_numeric_text sample_frame sample_loaded
              sample_frame_durations sample_frame_loaded)
    as (cleaned & views & raw & parsed & _ & _ & _ & _ & H).
  eexists. exact H.
Defined.
(** A file with two columns for the views, and one with none. *)
Lemma duplicated_counter_fails_witness :
  In "views" ["views"; "likes"; "comments"]
  /\ (2 <= List.length (synonyms_in two_view_columns "views"))%nat
  /\ load_frame python_numeric_text two_view_columns
     = throw (Exn TypeError "arg must be a list, tuple, 1-d array, or Series").
Proof.
  split; [cbn; tauto|]. split; [cbn; lia|].
  destruct (duplicated_counter_fails python_numeric_text two_view_columns "views")
    as [e He]; [cbn; tauto|cbn; lia|].
  reflexivity.
Defined.

Lemma no_views_column_loads_nothing_witness :
  (forall c, In c (labels titles_only) -> renamed_label c <> "views")
  /\ load_frame python_numeric_text titles_only = ok titles_only_loaded
  /\ nrows titles_only_loaded = O.
Proof.
  assert (H : forall c, In c (labels titles_only) -> renamed_label c <> "views").
  { intros c [<-|[<-|[]]]; discriminate. }
  split; [exact H|]. split; [reflexivity|].
  exact (no_views_column_loads_nothing python_numeric_text titles_only
           titles_only_loaded H eq_refl).
Defined.

Lemma no_duration_column_no_bucket_witness :
  (forall c, In c (labels one_video_no_duration) -> renamed_label c <> "duration")
  /\ exists loaded k,
       load_frame python_numeric_text one_video_no_duration = ok loaded
       /\ column_is loaded "duration" (Int64 (repeat 0 k))
       /\ column_is loaded "length_category" (Categorical (repeat None k)).
Proof.
  assert (H : forall c, In c (labels one_video_no_duration) ->
                        renamed_label c <> "duration").
  { intros c Hc. cbn in Hc.
    repeat (destruct Hc as [<-|Hc]; [discriminate|]). destruct Hc. }
  split; [exact H|].
  assert (E : exists loaded,
             load_frame python_numeric_text one_video_no_duration = ok loaded)
    by (eexists; vm_compute; reflexivity).
  destruct E as [loaded E].
  destruct (no_duration_column_no_bucket python_numeric_text _ _ H E) as (k & Hk).
  exists loaded, k. split; [exact E|exact Hk].
Defined.
(* ===================================================================== *)
(** * When [load_data] returns and when it does not *)
(* ===================================================================== *)

Lemma mapM_total {A B} (f : A -> result B) (l : list A) :
  (forall a, In a l -> exists b, f a = inr b) -> exists bs, mapM f l = inr bs.
Proof.
  induction l as [|a l IH]; intros H; [now exists []|].
  destruct (H a (or_introl eq_refl)) as [b Hb].
  destruct IH as [bs Hbs]; [intros x Hx; apply H; now right|].
  exists (b :: bs). cbn [mapM]. rewrite Hb, Hbs. reflexivity.
Qed.

(** The two outcomes of the parser, by [raising_input]. *)
Lemma parse_duration_outcome v :
  if raising_input v
  then exists e, _parse_duration v = inl e
  else exists z, _parse_duration v = inr z.
Proof.
  destruct v as [|z|f|s].
  - cbn. eauto.
  - cbn. eauto.
  - destruct f as [sg|sg| |sg m e]; cbn [raising_input];
      unfold _parse_duration; cbn [isna F64.is_nan]; unfold ok; eauto;
      unfold int_of_float; cbn [F64.trunc F64.is_nan]; unfold ok, throw; eauto.
  - unfold _parse_duration, raising_input. cbn [isna]. cbv zeta.
    destruct (contains ":" (strip s)) eqn:Hc; cbn [andb].
    + destruct (existsb int_fails (split ":" (strip s))) eqn:Hx.
      * apply colon_parts_raise in Hx. destruct Hx as [e ->]. now exists e.
      * destruct (mapM int_of_str (split ":" (strip s))) as [e|parts] eqn:Hm.
        { assert (Habs : existsb int_fails (split ":" (strip s)) = true)
            by (apply colon_parts_raise; now exists e).
          congruence. }
        cbn [rbind].
        assert (Hne : parts <> []).
        { apply mapM_ok_Forall2 in Hm. intros ->. inversion Hm.
          eapply split_not_nil; eauto. }
        destruct parts as [|a [|b [|c [|d l]]]]; unfold ok; eauto. congruence.
    + destruct (re_match_PT (strip s)) as [[[g1 g2] g3]|] eqn:Hre.
      * pose proof (pattern_branch_outcome _ _ _ _ Hre) as Hg.
        destruct (group_fails g1 || group_fails g2 || group_fails g3).
        -- exact Hg.
        -- destruct Hg as (h & m & sec & H1 & H2 & H3 & _).
           rewrite H1, H2, H3. unfold rbind, ok. eauto.
      * destruct (rbind (float_of_str (strip s)) int_of_float); unfold ok; eauto.
Qed.

(** ** Counting labels *)

Lemma count_label_has df c :
  has_label df c = true <-> (1 <= count_label df c)%nat.
Proof.
  unfold has_label, count_label, labels.
  induction (columns df) as [|[l s] cols IH]; cbn [map existsb filter fst].
  - cbn. split; [discriminate|lia].
  - destruct (String.eqb c l); cbn [orb List.length]; [split; [lia|reflexivity]|].
    exact IH.
Qed.

Lemma count_label_getitem df c :
  count_label df c = 1%nat -> exists s, getitem df c = ok s.
Proof.
  unfold count_label, getitem.
  destruct (filter _ (columns df)) as [|x [|y l]]; cbn [List.length]; try lia.
  intros _. now exists (snd x).
Qed.

Lemma getitem_In df c s : getitem df c = ok s -> In (c, s) (columns df).
Proof. intros H. apply getitem_column_is in H. apply H. Qed.

Lemma getitem_In_eq df c s s' :
  getitem df c = ok s -> In (c, s') (columns df) -> s' = s.
Proof. intros H. apply getitem_column_is in H. apply H. Qed.

Lemma count_setitem_other df c c' s :
  c <> c' -> count_label (setitem df c' s) c = count_label df c.
Proof.
  intros H. unfold count_label. now rewrite filter_setitem_other.
Qed.

Lemma getitem_setitem_same df c s :
  (count_label df c <= 1)%nat -> getitem (setitem df c s) c = ok s.
Proof.
  intros Hle. unfold getitem, setitem. cbn [columns].
  destruct (has_label df c) eqn:Hh.
  - apply count_label_has in Hh.
    assert (H1 : count_label df c = 1%nat) by lia.
    unfold count_label in H1. clear Hle Hh.
    induction (columns df) as [|[l v] cols IH]; [discriminate H1|].
    cbn [filter map fst] in *. destruct (String.eqb c l) eqn:El.
    + cbn [fst]. rewrite El. cbn [List.length] in H1.
      assert (H0 : filter (fun x => String.eqb c (fst x)) cols = []).
      { destruct (filter _ cols); [reflexivity|discriminate H1]. }
      assert (H0' : filter (fun x => String.eqb c (fst x))
                      (map (fun x => if String.eqb c (fst x) then (fst x, s) else x)
                           cols) = []).
      { clear -H0. induction cols as [|[l' v'] cols IH]; [reflexivity|].
        cbn [filter map fst] in *. destruct (String.eqb c l') eqn:E; [discriminate H0|].
        cbn [fst]. rewrite E. exact (IH H0). }
      rewrite H0'. reflexivity.
    + cbn [fst]. rewrite El. exact (IH H1).
  - assert (H0 : count_label df c = 0%nat).
    { destruct (count_label df c) eqn:E; [reflexivity|].
      assert (Habs : has_label df c = true) by (apply count_label_has; lia).
      congruence. }
    unfold count_label in H0. rewrite filter_app.
    destruct (filter _ (columns df)); [|discriminate H0].
    cbn [app filter fst]. rewrite String.eqb_refl. reflexivity.
Qed.

Lemma count_setitem_same df c s :
  (count_label df c <= 1)%nat -> count_label (setitem df c s) c = 1%nat.
Proof.
  intros H. pose proof (getitem_setitem_same df c s H) as Hg.
  unfold getitem in Hg. unfold count_label.
  destruct (filter _ (columns (setitem df c s))) as [|x [|y l]];
    [discriminate Hg|reflexivity|discriminate Hg].
Qed.

Lemma getitem_filter_rows mask df c s :
  getitem df c = ok s ->
  getitem (filter_rows mask df) c = ok (series_filter mask s).
Proof.
  unfold getitem, filter_rows. cbn [columns].
  assert (H : filter (fun x => String.eqb c (fst x))
                (map (fun x => (fst x, series_filter mask (snd x))) (columns df))
              = map (fun x => (fst x, series_filter mask (snd x)))
                    (filter (fun x => String.eqb c (fst x)) (columns df))).
  { induction (columns df) as [|[l v] cols IH]; [reflexivity|].
    cbn [map filter fst snd]. destruct (String.eqb c l); cbn [map]; now rewrite IH. }
  rewrite H.
  destruct (filter _ (columns df)) as [|x [|y l]]; try discriminate.
  intros [= <-]. reflexivity.
Qed.

Lemma count_filter_rows mask df c :
  count_label (filter_rows mask df) c = count_label df c.
Proof.
  unfold count_label, filter_rows. cbn [columns].
  induction (columns df) as [|[l v] cols IH]; [reflexivity|].
  cbn [map filter fst]. destruct (String.eqb c l); cbn [List.length]; now rewrite IH.
Qed.

Lemma count_ensure_column df col c :
  (count_label (ensure_column df col) c <= Nat.max 1 (count_label df c))%nat.
Proof.
  destruct (has_label df col) eqn:H.
  - rewrite ensure_column_present by exact H. lia.
  - unfold count_label. rewrite ensure_column_new by exact H.
    rewrite filter_app, length_app. cbn [filter fst].
    destruct (String.eqb c col) eqn:E; cbn [List.length]; [|lia].
    apply String.eqb_eq in E. subst col.
    assert (H0 : count_label df c = 0%nat).
    { destruct (count_label df c) eqn:E; [reflexivity|].
      assert (Habs : has_label df c = true) by (apply count_label_has; lia).
      congruence. }
    unfold count_label in H0. rewrite H0. lia.
Qed.

Lemma count_ensure_all cols c : forall df,
  (count_label (fold_left ensure_column cols df) c <= Nat.max 1 (count_label df c))%nat.
Proof.
  induction cols as [|col cols IH]; intros df; cbn [fold_left]; [lia|].
  specialize (IH (ensure_column df col)).
  pose proof (count_ensure_column df col c). lia.
Qed.

Lemma count_renamed df c :
  count_label (rename (column_mapping (labels df)) df) c
  = List.length (synonyms_in df c).
Proof.
  unfold count_label, synonyms_in. rewrite rename_columns.
  unfold labels. apply renamed_filter.
Qed.

Lemma count_normalized df c :
  (List.length (synonyms_in df c) <= 1)%nat ->
  (count_label (normalize_schema df) c <= 1)%nat.
Proof.
  intros H. unfold normalize_schema. cbv zeta.
  pose proof (count_ensure_all required_cols c
                (rename (column_mapping (labels df)) df)) as Hc.
  rewrite count_renamed in Hc. lia.
Qed.

Lemma count_normalized_required df c :
  In c required_cols ->
  (List.length (synonyms_in df c) <= 1)%nat ->
  count_label (normalize_schema df) c = 1%nat.
Proof.
  intros Hc H. pose proof (count_normalized df c H) as Hle.
  assert (Hh : has_label (normalize_schema df) c = true).
  { unfold normalize_schema. cbv zeta. rewrite ensure_all_has_label.
    replace (in_list c required_cols) with true; [apply orb_true_r|].
    symmetry. apply existsb_exists. exists c. split; [exact Hc|apply String.eqb_refl]. }
  apply count_label_has in Hh. lia.
Qed.

(** Where a column of the normalized frame comes from. *)
Lemma normalized_In_inv df c s :
  In (c, s) (columns (normalize_schema df)) ->
  (exists l, In (l, s) (columns df) /\ renamed_label l = c)
  \/ (In c required_cols /\ s = default_series (nrows df) c).
Proof.
  unfold normalize_schema. cbv zeta. intros H.
  apply ensure_all_In_inv in H. destruct H as [H|H]; [left|right; exact H].
  rewrite rename_columns in H. apply in_map_iff in H.
  destruct H as ([l v] & [= <- <-] & Hin). exists l. split; [exact Hin|reflexivity].
Qed.

Lemma normalized_In df l s :
  In (l, s) (columns df) -> In (renamed_label l, s) (columns (normalize_schema df)).
Proof.
  intros H. unfold normalize_schema. cbv zeta. apply ensure_all_In.
  rewrite rename_columns. apply in_map_iff. exists (l, s). split; [reflexivity|exact H].
Qed.
Section LoadReturns.

Variable parse_numeric : string -> option number.

Lemma coerce_int_total s :
  Forall (finite_cell parse_numeric) (cells s) ->
  exists zs, coerce_int parse_numeric s = inr (Int64 zs).
Proof.
  intros Hfin. unfold coerce_int.
  destruct s as [l|l|l|l]; cbn [to_numeric].
  - now exists l.
  - eexists. apply fill_cast_float. cbn [cells] in Hfin.
    rewrite Forall_map in Hfin. eapply Forall_impl; [|exact Hfin].
    intros f Hf. unfold finite_cell in Hf. cbn [cell_number] in Hf.
    destruct (F64.is_nan f); [left; reflexivity | right; exact Hf].
  - destruct (coerce_objects parse_numeric _ Hfin) as (zs & H & _). now exists zs.
  - destruct (coerce_objects parse_numeric _ Hfin) as (zs & H & _). now exists zs.
Qed.

Lemma default_counter_finite n c :
  In c counter_cols -> Forall (finite_cell parse_numeric) (cells (default_series n c)).
Proof.
  intros Hc.
  assert (Hd : default_series n c = Int64 (repeat 0 n)).
  { cbn [counter_cols In] in Hc. destruct Hc as [<-|[<-|[<-|[]]]]; reflexivity. }
  rewrite Hd. cbn [cells]. apply Forall_map.
  apply Forall_forall. intros z Hz. apply repeat_spec in Hz. subst z. reflexivity.
Qed.

(** LOAD-RETURNS: [load_data] gets through lines 35-84 whenever, in the
    frame read, no two columns stand for the same one of [views], [likes],
    [comments], [duration] (nor carry the label [duration_minutes]), every
    cell of a counter column reads as nothing or as a finite number, and
    no cell of the duration column is an input on which [_parse_duration]
    raises.  Nothing else in the file can make it raise.  (The integers
    of the file are taken within int64, the range of the model.) *)
Theorem load_frame_returns (df : DataFrame) :
  int64_input parse_numeric df -> int64_durations df ->
  (forall c, In c ["views"; "likes"; "comments"; "duration"; "duration_minutes"] ->
             (List.length (synonyms_in df c) <= 1)%nat) ->
  (forall l s, In (l, s) (columns df) -> In (renamed_label l) counter_cols ->
               Forall (finite_cell parse_numeric) (cells s)) ->
  (forall l s v, In (l, s) (columns df) -> renamed_label l = "duration" ->
                 In v (cells s) -> raising_input v = false) ->
  exists df', load_frame parse_numeric df = ok df'.
Proof.
  intros _ _ Hsyn Hfin Hdur.
  set (X := normalize_schema df).
  assert (Hone : forall c, In c ["views"; "likes"; "comments"; "duration"] ->
                           count_label X c = 1%nat).
  { intros c Hc. apply count_normalized_required.
    - cbn [In required_cols] in *. tauto.
    - apply Hsyn. cbn [In] in *. tauto. }
  assert (Hdm : (count_label X "duration_minutes" <= 1)%nat).
  { apply count_normalized. apply Hsyn. cbn. tauto. }
  assert (Hcounter : forall c, In c counter_cols ->
            exists s zs, getitem X c = inr s
                         /\ coerce_int parse_numeric s = inr (Int64 zs)).
  { intros c Hc.
    destruct (count_label_getitem X c) as [s Hs];
      [apply Hone; cbn [In counter_cols] in *; tauto|].
    destruct (coerce_int_total s) as [zs Hzs]; [|now exists s, zs].
    apply getitem_In in Hs. apply normalized_In_inv in Hs.
    destruct Hs as [(l & Hin & <-)|[_ ->]].
    - now apply (Hfin l).
    - now apply default_counter_finite. }
  destruct (Hcounter "views") as (sv & V & Hsv & HV); [cbn; tauto|].
  destruct (Hcounter "likes") as (sl & L & Hsl & HL); [cbn; tauto|].
  destruct (Hcounter "comments") as (sc & C & Hsc & HC); [cbn; tauto|].
  destruct (count_label_getitem X "duration") as [sd Hsd];
    [apply Hone; cbn; tauto|].
  destruct (mapM_total _parse_duration (cells sd)) as [D HD].
  { intros v Hv. pose proof (parse_duration_outcome v) as Ho.
    replace (raising_input v) with false in Ho; [exact Ho|].
    symmetry. apply getitem_In in Hsd. apply normalized_In_inv in Hsd.
    destruct Hsd as [(l & Hin & Hl)|[_ ->]].
    - now apply (Hdur l sd v).
    - cbn [default_series String.eqb Ascii.eqb Bool.eqb cells] in Hv.
      apply in_map_iff in Hv. destruct Hv as (z & <- & _). reflexivity. }
  (* lines 66-70 *)
  set (X1 := setitem X "views" (Int64 V)).
  set (X2 := setitem X1 "likes" (Int64 L)).
  set (X3 := setitem X2 "comments" (Int64 C)).
  set (cleaned := setitem X3 "duration" (Int64 D)).
  assert (Hclean : clean_types parse_numeric X = inr cleaned).
  { unfold clean_types. rewrite Hsv. cbn [rbind]. rewrite HV. cbn [rbind]. fold X1.
    unfold X1 at 1. rewrite getitem_setitem_other by discriminate.
    rewrite Hsl. cbn [rbind]. rewrite HL. cbn [rbind]. fold X2.
    unfold X2 at 1, X1 at 1. rewrite !getitem_setitem_other by discriminate.
    rewrite Hsc. cbn [rbind]. rewrite HC. cbn [rbind]. fold X3.
    unfold X3 at 1, X2 at 1, X1 at 1. rewrite !getitem_setitem_other by discriminate.
    unfold ok in Hsd. rewrite Hsd. cbn [rbind]. rewrite HD. reflexivity. }
  assert (Hcv : getitem cleaned "views" = inr (Int64 V)).
  { unfold cleaned, X3, X2. rewrite !getitem_setitem_other by discriminate.
    apply getitem_setitem_same. rewrite Hone; [lia|cbn; tauto]. }
  assert (Hcl : getitem cleaned "likes" = inr (Int64 L)).
  { unfold cleaned, X3. rewrite !getitem_setitem_other by discriminate.
    apply getitem_setitem_same. unfold X1.
    rewrite count_setitem_other by discriminate. rewrite Hone; [lia|cbn; tauto]. }
  assert (Hcc : getitem cleaned "comments" = inr (Int64 C)).
  { unfold cleaned. rewrite !getitem_setitem_other by discriminate.
    apply getitem_setitem_same. unfold X2, X1.
    rewrite !count_setitem_other by discriminate. rewrite Hone; [lia|cbn; tauto]. }
  assert (Hcd : getitem cleaned "duration" = inr (Int64 D)).
  { apply getitem_setitem_same. unfold X3, X2, X1.
    rewrite !count_setitem_other by discriminate. rewrite Hone; [lia|cbn; tauto]. }
  assert (Hcm : (count_label cleaned "duration_minutes" <= 1)%nat).
  { unfold cleaned, X3, X2, X1.
    rewrite !count_setitem_other by discriminate. exact Hdm. }
  clearbody cleaned. clear X1 X2 X3.
  unfold load_frame. cbv zeta. fold X. rewrite Hclean. cbn [rbind].
  (* line 73 *)
  unfold drop_invalid. rewrite Hcv. cbn [rbind series_gt_const]. unfold ok at 1.
  cbn [rbind]. unfold ok at 1. cbn [rbind].
  set (mask := map (fun p => 0 <? p) V).
  (* lines 76-84 *)
  unfold add_calculated.
  rewrite (getitem_filter_rows mask cleaned "likes" _ Hcl). unfold ok at 1.
  cbn [rbind].
  rewrite (getitem_filter_rows mask cleaned "comments" _ Hcc). unfold ok at 1.
  cbn [rbind].
  rewrite (getitem_filter_rows mask cleaned "views" _ Hcv). unfold ok at 1.
  cbn [rbind series_filter series_add]. unfold ok at 1.
  cbn [rbind series_truediv as_floats]. unfold ok at 1.
  cbn [rbind series_mul_const]. unfold ok at 1.
  cbn [rbind series_round2]. unfold ok at 1.
  cbn [rbind].
  rewrite getitem_setitem_other by discriminate.
  rewrite (getitem_filter_rows mask cleaned "duration" _ Hcd). unfold ok at 1.
  cbn [rbind series_filter series_truediv_const as_floats]. unfold ok at 1.
  cbn [rbind series_round2]. unfold ok at 1.
  cbn [rbind].
  rewrite getitem_setitem_same
    by (rewrite count_setitem_other by discriminate;
        rewrite count_filter_rows; exact Hcm).
  unfold ok at 1. cbn [rbind cut as_floats]. unfold ok at 1. cbn [rbind].
  eexists. reflexivity.
Qed.

(** ** Cells that abort the load *)

Lemma coerce_int_infinite fs b :
  In (S754_infinity b) fs -> exists e, coerce_int parse_numeric (Float64 fs) = inl e.
Proof.
  intros Hin. unfold coerce_int. cbn [to_numeric fillna0 astype_int].
  replace (forallb F64.is_finite _) with false; [eexists; reflexivity|].
  symmetry. apply not_true_is_false. intros H.
  rewrite forallb_forall in H.
  specialize (H (S754_infinity b)). cbn in H.
  assert (Habs : false = true); [|discriminate Habs].
  apply H. apply in_map_iff. exists (S754_infinity b). split; [reflexivity|exact Hin].
Qed.

(** BAD-CELL-ABORTS: one bad cell makes the whole load fail, in whatever
    row it is, also in a row that the filter on views would drop: a cell of
    the duration column on which [_parse_duration] raises (a colon text
    with a part that is not an integer, a numeral of more than 4300
    digits between colons or in a [PT] text, a float infinity), or an
    infinity in a float64 column of views, likes or comments. *)
Theorem bad_cell_aborts_load (df : DataFrame) :
  (exists l s v, In (l, s) (columns df) /\ renamed_label l = "duration"
                 /\ In v (cells s) /\ raising_input v = true)
  \/ (exists l fs b, In (l, Float64 fs) (columns df)
                     /\ In (renamed_label l) counter_cols
                     /\ In (S754_infinity b) fs) ->
  exists e, load_frame parse_numeric df = inl e.
Proof.
  intros Hbad.
  set (X := normalize_schema df).
  assert (Hclean : exists e, clean_types parse_numeric X = inl e).
  { unfold clean_types.
    destruct (getitem X "views") as [e|sv] eqn:Hv; [now exists e|].
    cbn [rbind].
    destruct (coerce_int parse_numeric sv) as [e|v'] eqn:Hv'; [now exists e|].
    cbn [rbind].
    destruct (getitem (setitem X "views" v') "likes") as [e|sl] eqn:Hl;
      [now exists e|].
    cbn [rbind].
    destruct (coerce_int parse_numeric sl) as [e|l'] eqn:Hl'; [now exists e|].
    cbn [rbind].
    destruct (getitem (setitem (setitem X "views" v') "likes" l') "comments")
      as [e|sc] eqn:Hc; [now exists e|].
    cbn [rbind].
    destruct (coerce_int parse_numeric sc) as [e|c'] eqn:Hc'; [now exists e|].
    cbn [rbind].
    destruct (getitem (setitem (setitem (setitem X "views" v') "likes" l')
                         "comments" c') "duration") as [e|sd] eqn:Hd;
      [now exists e|].
    cbn [rbind].
    destruct (mapM _parse_duration (cells sd)) as [e|D] eqn:HD; [now exists e|].
    exfalso.
    repeat rewrite getitem_setitem_other in Hl by discriminate.
    repeat rewrite getitem_setitem_other in Hc by discriminate.
    repeat rewrite getitem_setitem_other in Hd by discriminate.
    destruct Hbad as [(l & s & v & Hin & Hlab & Hcell & Hraise)
                     |(l & fs & b & Hin & Hlab & Hinf)].
    - apply normalized_In in Hin. rewrite Hlab in Hin.
      pose proof (getitem_In_eq _ _ _ _ Hd Hin) as ->.
      assert (Hex : exists e, mapM _parse_duration (cells sd) = inl e).
      { apply mapM_raises_iff. apply Exists_exists. exists v. split; [exact Hcell|].
        pose proof (parse_duration_outcome v) as Ho. rewrite Hraise in Ho. exact Ho. }
      destruct Hex as [e He]. rewrite He in HD. discriminate HD.
    - apply normalized_In in Hin.
      destruct (coerce_int_infinite fs b Hinf) as [e He].
      cbn [counter_cols In] in Hlab.
      destruct Hlab as [Hlab|[Hlab|[Hlab|[]]]]; rewrite <- Hlab in *.
      + pose proof (getitem_In_eq _ _ _ _ Hv Hin) as <-. congruence.
      + pose proof (getitem_In_eq _ _ _ _ Hl Hin) as <-. congruence.
      + pose proof (getitem_In_eq _ _ _ _ Hc Hin) as <-. congruence. }
  destruct Hclean as [e He]. exists e.
  unfold load_frame. cbv zeta. fold X. rewrite He. reflexivity.
Qed.

(** CARRIED-COLUMNS: a column that is not one of the four cleaned ones
    ([views], [likes], [comments], [duration]) nor overwritten by a
    calculated field is carried into the loaded frame with its cells as
    read, the rows without views taken out: [title] and [category] are
    neither converted nor checked. *)
Theorem carried_columns (df df' : DataFrame) (c : string) (s : Series) :
  load_frame parse_numeric df = ok df' ->
  In (c, s) (columns (normalize_schema df)) ->
  ~ In c (["views"; "likes"; "comments"; "duration"] ++ derived_cols) ->
  exists cleaned views,
    clean_types parse_numeric (normalize_schema df) = ok cleaned
    /\ column_is cleaned "views" (Int64 views)
    /\ In (c, series_filter (map (fun v => 0 <? v) views) s) (columns df').
Proof.
  unfold load_frame. intros H Hin Hc. cbv zeta in H.
  bind_inv H. rename x into cleaned. rename Hx into Hclean.
  bind_inv H. rename x into kept. rename Hx into Hkeep.
  destruct (clean_types_views parse_numeric _ _ Hclean) as (views & Hviews).
  exists cleaned, views. split; [reflexivity|]. split; [exact Hviews|].
  eapply add_calculated_In; [exact H| |].
  - intros Hd. apply Hc. apply in_or_app. now right.
  - eapply drop_invalid_In; [exact Hviews|exact Hkeep|].
    eapply clean_types_In; [exact Hclean| |exact Hin].
    intros Hd. apply Hc. apply in_or_app. now left.
Qed.

End LoadReturns.
Lemma load_frame_returns_witness :
  int64_input python_numeric_text sample_frame
  /\ int64_durations sample_frame
  /\ (forall c, In c ["views"; "likes"; "comments"; "duration"; "duration_minutes"] ->
             (List.length (synonyms_in sample_frame c) <= 1)%nat)
  /\ (forall l s, In (l, s) (columns sample_frame) ->
                  In (renamed_label l) counter_cols ->
                  Forall (finite_cell python_numeric_text) (cells s))
  /\ (forall l s v, In (l, s) (columns sample_frame) ->
                    renamed_label l = "duration" ->
                    In v (cells s) -> raising_input v = false)
  /\ exists df', load_frame python_numeric_text sample_frame = ok df'.
Proof.
  assert (H1 : forall c,
             In c ["views"; "likes"; "comments"; "duration"; "duration_minutes"] ->
             (List.length (synonyms_in sample_frame c) <= 1)%nat).
  { intros c Hc. cbn [In] in Hc.
    repeat (destruct Hc as [<-|Hc]; [vm_compute; lia|]). destruct Hc. }
  assert (H2 : forall l s, In (l, s) (columns sample_frame) ->
                           In (renamed_label l) counter_cols ->
                           Forall (finite_cell python_numeric_text) (cells s)).
  { intros l s Hin _. cbn [sample_frame columns In] in Hin.
    repeat (destruct Hin as [[= <- <-]|Hin];
            [cbn [cells map]; repeat constructor; vm_compute; auto|]).
    destruct Hin. }
  assert (H3 : forall l s v, In (l, s) (columns sample_frame) ->
                             renamed_label l = "duration" ->
                             In v (cells s) -> raising_input v = false).
  { intros l s v Hin Hl Hv. cbn [sample_frame columns In] in Hin.
    repeat (destruct Hin as [[= <- <-]|Hin];
            [try discriminate Hl; cbn [cells map In] in Hv;
             repeat (destruct Hv as [<-|Hv]; [reflexivity|]); destruct Hv|]).
    destruct Hin. }
  split; [exact sample_frame_int64|]. split; [exact sample_frame_durations|].
  split; [exact H1|]. split; [exact H2|]. split; [exact H3|].
  exact (load_frame_returns python_numeric_text sample_frame
           sample_frame_int64 sample_frame_durations H1 H2 H3).
Defined.

Lemma bad_cell_aborts_load_witness :
  In ("duration", Object [PStr "3:20"; PStr "n/a: live"]) (columns bad_duration_frame)
  /\ raising_input (PStr "n/a: live") = true
  /\ (exists e, load_frame python_numeric_text bad_duration_frame = inl e)
  /\ load_frame python_numeric_text bad_duration_frame
     = throw (Exn ValueError "invalid literal for int() with base 10").
Proof.
  assert (H1 : In ("duration", Object [PStr "3:20"; PStr "n/a: live"])
                  (columns bad_duration_frame)) by (cbn; tauto).
  assert (H2 : raising_input (PStr "n/a: live") = true) by reflexivity.
  split; [exact H1|]. split; [exact H2|]. split; [|vm_compute; reflexivity].
  apply (bad_cell_aborts_load python_numeric_text bad_duration_frame).
  left. exists "duration", (Object [PStr "3:20"; PStr "n/a: live"]), (PStr "n/a: live").
  split; [exact H1|]. split; [reflexivity|]. split; [cbn; tauto|exact H2].
Defined.

Lemma carried_columns_witness :
  load_frame python_numeric_text sample_frame = ok sample_loaded
  /\ In ("category", Object [PStr "Unknown"; PStr "Unknown"; PStr "Unknown"])
        (columns (normalize_schema sample_frame))
  /\ ~ In "category" (["views"; "likes"; "comments"; "duration"] ++ derived_cols)
  /\ exists views,
       In ("category",
           series_filter (map (fun v => 0 <? v) views)
             (Object [PStr "Unknown"; PStr "Unknown"; PStr "Unknown"]))
          (columns sample_loaded).
Proof.
  assert (H2 : In ("category", Object [PStr "Unknown"; PStr "Unknown"; PStr "Unknown"])
                  (columns (normalize_schema sample_frame)))
    by (vm_compute; tauto).
  assert (H3 : ~ In "category"
                 (["views"; "likes"; "comments"; "duration"] ++ derived_cols)).
  { cbn. intros H. repeat (destruct H as [H|H]; [discriminate H|]). exact H. }
  split; [exact sample_frame_loaded|]. split; [exact H2|]. split; [exact H3|].
  destruct (carried_columns python_numeric_text sample_frame sample_loaded
              "category" _ sample_frame_loaded H2 H3)
    as (cleaned & views & _ & _ & H).
  exists views. exact H.
Defined.
